(** * pi-consult: the RPC session engine of agent-kit

    A shallow embedding of the session store, the commands and the
    event-driven turn of [pi-consult] (the TypeScript script that drives a
    subordinate [pi] process in RPC mode), with the properties its
    specification states about them.

    - JavaScript strings are sequences of UTF-16 code units ([list N]).
    - JavaScript numbers are binary64 floats ([PrimFloat.float]); the clock
      [Date.now()] and timer delays are integers ([Z], milliseconds).
    - The file system is a finite map from paths to file contents, together
      with the existence of the sessions directory and a log of the [fs]
      calls performed.
    - Code that throws runs in a state-and-error monad over that world. *)

From Stdlib Require Import ZArith NArith List String Ascii Bool Lia DecimalString.
From Stdlib Require Import PrimFloat.
From Stdlib Require Uint63.
From stdpp Require Import gmap list.

Set Warnings "-register-all,-inexact-float".
Open Scope Z_scope.

(** ** JavaScript strings *)

Abbreviation jstring := (list N).

(** An ASCII literal as a sequence of code units. *)
Definition js (s : string) : jstring :=
  List.map N_of_ascii (list_ascii_of_string s).

(** [s.split(":")] for a one-code-unit separator: never empty, [""] splits
    into [[""]]. *)
Fixpoint split (sep : N) (s : jstring) : list jstring :=
  match s with
  | [] => [[]]
  | c :: r =>
      if N.eqb c sep then [] :: split sep r
      else match split sep r with
           | [] => [[c]]
           | p :: ps => (c :: p) :: ps
           end
  end.

(** [parts.join(sep)] on an array of strings. *)
Fixpoint join (sep : jstring) (parts : list jstring) : jstring :=
  match parts with
  | [] => []
  | p :: ps =>
      match ps with
      | [] => p
      | _ :: _ => p ++ sep ++ join sep ps
      end
  end.

Definition colon : N := 58%N.

(** The character class [[a-zA-Z0-9_-]]. *)
Definition isIdChar (c : N) : bool :=
  ((97 <=? c) && (c <=? 122) || (65 <=? c) && (c <=? 90)
   || (48 <=? c) && (c <=? 57) || (c =? 95) || (c =? 45))%N.

(** [/^[a-zA-Z0-9_-]+$/.test(s)]: without the [m] flag, [^] and [$] only
    match at the two ends of the input. *)
Definition matchesIdRegex (s : jstring) : bool :=
  match s with
  | [] => false
  | _ :: _ => forallb isIdChar s
  end.

(** ECMAScript [WhiteSpace] and [LineTerminator] code units, the ones
    [String.prototype.trim] strips. *)
Definition isWhiteSpace (c : N) : bool :=
  ((9 <=? c) && (c <=? 13) || (c =? 32) || (c =? 160) || (c =? 5760)
   || (8192 <=? c) && (c <=? 8202) || (c =? 8232) || (c =? 8233)
   || (c =? 8239) || (c =? 8287) || (c =? 12288) || (c =? 65279))%N.

Fixpoint trimStart (s : jstring) : jstring :=
  match s with
  | [] => []
  | c :: r => if isWhiteSpace c then trimStart r else s
  end.

Definition trimEnd (s : jstring) : jstring := rev (trimStart (rev s)).

(** [s.trim()]. *)
Definition trim (s : jstring) : jstring := trimEnd (trimStart s).

(** JavaScript truthiness of a string. *)
Definition truthyStr (s : jstring) : bool :=
  match s with [] => false | _ :: _ => true end.

(** ** JSON values, as [JSON.parse] returns them

    [undefined] is not a JSON value: an expression that may be [undefined]
    has type [option json]. *)

Inductive json :=
| JNull
| JBool (b : bool)
| JNum (x : float)
| JStr (s : jstring)
| JArr (items : list json)
| JObj (props : list (jstring * json)).

(** A listener that throws: the only exceptions of the modelled code are
    the [TypeError]s of reading a property of [null] or [undefined] and of
    iterating a value that is not iterable. *)
Inductive completion (A : Type) :=
| Normal (a : A)
| TypeError.
Arguments Normal {A} a.
Arguments TypeError {A}.

Fixpoint assoc (k : jstring) (props : list (jstring * json)) : option json :=
  match props with
  | [] => None
  | (k', v) :: rest => if decide (k = k') then Some v else assoc k rest
  end.

(** [v.k] for a value [v] that is neither [null] nor [undefined] (on
    those, the access throws a [TypeError]). The names looked up in this
    program ([type], [role], [content], ...) are not properties of strings,
    numbers, booleans or arrays. *)
Definition prop (v : json) (k : string) : option json :=
  match v with
  | JObj props => assoc (js k) props
  | _ => None
  end.

(** [v?.k]. *)
Definition getOpt (v : option json) (k : string) : option json :=
  match v with
  | None | Some JNull => None
  | Some o => prop o k
  end.

(** JavaScript truthiness. *)
Definition truthy (v : option json) : bool :=
  match v with
  | None | Some JNull => false
  | Some (JBool b) => b
  | Some (JNum x) => negb (is_zero x || is_nan x)
  | Some (JStr s) => truthyStr s
  | Some (JArr _) | Some (JObj _) => true
  end.

(** [v === "literal"]. *)
Definition isStr (v : option json) (lit : string) : bool :=
  match v with
  | Some (JStr s) => bool_decide (s = js lit)
  | _ => false
  end.

(** [a || b] with [b] defined. *)
Definition orElse (a : option json) (b : json) : json :=
  match a with
  | Some v => if truthy a then v else b
  | None => b
  end.

(** [a ?? b] with [b] defined. *)
Definition nullish (a : option json) (b : json) : json :=
  match a with
  | None | Some JNull => b
  | Some v => v
  end.

(** The code points of a string, each as a string: what iterating a string
    yields. *)
Fixpoint codePoints (s : jstring) : list jstring :=
  match s with
  | [] => []
  | c :: r =>
      match r with
      | d :: r' =>
          if ((55296 <=? c) && (c <=? 56319) && (56320 <=? d) && (d <=? 57343))%N
          then match codePoints r with
               | [] => [[c; d]]
               | _ :: after => [c; d] :: after
               end
          else [c] :: codePoints r
      | [] => [[c]]
      end
  end.

(** [for (const x of v)] and [[...v]]. *)
Definition iterate (v : json) : completion (list json) :=
  match v with
  | JArr items => Normal items
  | JStr s => Normal (List.map JStr (codePoints s))
  | _ => TypeError
  end.

(** ** Conversions

    [Number.prototype.toString] is the runtime's. *)

(** The list of the values, when every one is there. *)
Fixpoint allSome {A : Type} (l : list (option A)) : option (list A) :=
  match l with
  | [] => Some []
  | Some a :: rest => option_map (cons a) (allSome rest)
  | None :: _ => None
  end.

Section Conversions.

Variable numToString : float -> jstring.

(** [String(v)], the conversion of [+] and of template literals. *)
Fixpoint toStr (v : json) : jstring :=
  match v with
  | JNull => js "null"
  | JBool true => js "true"
  | JBool false => js "false"
  | JNum x => numToString x
  | JStr s => s
  | JArr items =>
      join (js ",")
        (List.map (fun i => match i with JNull => [] | _ => toStr i end) items)
  | JObj _ => js "[object Object]"
  end.

Definition toStrOpt (v : option json) : jstring :=
  match v with
  | None => js "undefined"
  | Some x => toStr x
  end.

(** [String(v)] where the conversion can throw. Every property of a
    parsed value holds data, so an object with a [toString] of its own has
    no callable one, and the [valueOf] it inherits returns the object
    itself: its conversion ends in a [TypeError] ([None]). The conversion
    of an array converts its elements. *)
Fixpoint toText (v : json) : option jstring :=
  match v with
  | JObj props =>
      match assoc (js "toString") props with
      | Some _ => None
      | None => Some (js "[object Object]")
      end
  | JArr items =>
      option_map (join (js ","))
        (allSome
           (List.map (fun i => match i with JNull => Some [] | _ => toText i end) items))
  | other => Some (toStr other)
  end.

Definition toTextOpt (v : option json) : option jstring :=
  match v with
  | None => Some (js "undefined")
  | Some x => toText x
  end.

End Conversions.

(** The number [Date.now()] returns, as a JSON number (exact for the
    times a clock gives, which are far below 2^53). *)
Definition numOfZ (z : Z) : float :=
  if z <? 0 then PrimFloat.opp (PrimFloat.of_uint63 (Uint63.of_Z (- z)))
  else PrimFloat.of_uint63 (Uint63.of_Z z).

(** [o[k] = x] on the properties of an object: the property keeps its
    place when it is there already and comes last otherwise. *)
Fixpoint setProp (k : jstring) (x : json) (props : list (jstring * json)) :
    list (jstring * json) :=
  match props with
  | [] => [(k, x)]
  | (k', v) :: rest =>
      if decide (k' = k) then (k', x) :: rest else (k', v) :: setProp k x rest
  end.

(** [v.k = x] in a module, which is strict code: a [TypeError] ([None])
    on [null] and on a number, a string or a boolean. On an array the
    property is set beside the elements, where neither [JSON.stringify]
    nor the reads of this program see it. *)
Definition assignProp (k : string) (x : json) (v : json) : option json :=
  match v with
  | JObj props => Some (JObj (setProp (js k) x props))
  | JArr items => Some (JArr items)
  | _ => None
  end.

(** ** Types *)

(** [interface SessionInfo], together with the two properties that
    [closeSession] adds to the object before it is saved again. *)
Record SessionInfo := mkSessionInfo {
  si_id : jstring;
  si_model : jstring;
  si_provider : jstring;
  si_modelId : jstring;
  si_thinking : option jstring;
  si_tools : jstring;
  si_sessionFile : jstring;
  si_createdAt : Z;
  si_status : option jstring;
  si_closedAt : option Z
}.

(** What a file holds: a session document as [saveSessionInfo] writes it
    ([JSON.parse] gives the record back), or any other text (a transcript,
    a corrupted document, a document written by hand). *)
Inductive content :=
| InfoDoc (info : SessionInfo)
| Bytes (raw : jstring).

(** What [JSON.parse] returns for the text of a metadata file: the record,
    for a document that [saveSessionInfo] wrote; otherwise any JSON value,
    which the program goes on with as if it were a record (the return
    type of [loadSessionInfo] asserts it and checks nothing). *)
Inductive loaded :=
| Saved (info : SessionInfo)
| Foreign (v : json).

(** What the runtime and the machine provide to the store and the
    commands:
    - [JSON.parse] on a text that is no saved record ([None] when it
      throws a [SyntaxError]);
    - [JSON.stringify(v, null, 2)];
    - [Number.prototype.toString];
    - the text of [Math.round((now - createdAt) / 1000 / 60)] in a template
      literal for a [createdAt] of any type ([None] when the subtraction
      throws, as it does on an object that cannot be converted);
    - for a file name that is not plain (it holds a separator, a NUL or a
      character outside ASCII, or is long), the place [path.join] gives
      for it in a directory, when [writeFileSync] can write there ([None]
      when it throws: a directory on the way is missing, or the name is
      refused). *)
Record Runtime := mkRuntime {
  jsonParse : jstring -> option json;
  jsonText : json -> jstring;
  numberText : float -> jstring;
  ageOf : Z -> option json -> option jstring;
  placeOf : jstring -> jstring -> option jstring
}.

(** The errors the store and the commands throw. *)
Inductive error :=
| InvalidSessionId (sessionId : jstring)
| SessionNotFound (sessionId : jstring)
| InvalidSessionName (name : jstring)
| SessionNameTooLong (name : jstring)
| InvalidModelFormat (model : jstring)
| SessionExists (name : jstring)
| ENOENT (path : jstring)
| JsonSyntaxError (path : jstring)
| StoreTypeError
| WriteError (name : jstring).

Inductive res (A : Type) :=
| Ok (a : A)
| Err (e : error).
Arguments Ok {A} a.
Arguments Err {A} e.

(** ** The file system *)

Record FS := mkFS {
  fs_dir : bool;                      (* the sessions directory exists *)
  fs_files : gmap (list N) content    (* the files, by path *)
}.

(** The [fs] calls, as logged. *)
Inductive fsop :=
| OpMkdir (path : jstring)
| OpExists (path : jstring)
| OpRead (path : jstring)
| OpWrite (path : jstring)
| OpUnlink (path : jstring).

Record World := mkWorld {
  w_fs : FS;
  w_log : list fsop
}.

(** The monad of code that reads and writes the world and may throw; what
    was written before a throw stays written. *)
Definition M (A : Type) : Type := World -> res A * World.

Definition ret {A} (a : A) : M A := fun w => (Ok a, w).
Definition throw {A} (e : error) : M A := fun w => (Err e, w).
Definition bind {A B} (m : M A) (k : A -> M B) : M B :=
  fun w => match m w with
           | (Ok a, w') => k a w'
           | (Err e, w') => (Err e, w')
           end.

Notation "'let*' x := m 'in' k" := (bind m (fun x => k))
  (at level 10, x name, m at level 100, k at level 200).
Notation "'do' m 'then' k" := (bind m (fun _ => k))
  (at level 10, m at level 100, k at level 200).

Definition logged (op : fsop) (w : World) : World :=
  mkWorld (w_fs w) (w_log w ++ [op]).

(** [fs.mkdirSync(dir, { recursive: true })] for the sessions directory:
    no error when it is there already. *)
Definition mkdirSync (dir : jstring) : M unit :=
  fun w => (Ok tt, logged (OpMkdir dir) (mkWorld (mkFS true (fs_files (w_fs w))) (w_log w))).

(** [fs.existsSync(path)]. *)
Definition existsSync (path : jstring) : M bool :=
  fun w => (Ok (match fs_files (w_fs w) !! path with Some _ => true | None => false end),
            logged (OpExists path) w).

(** [fs.readFileSync(path, "utf-8")]. *)
Definition readFileSync (path : jstring) : M content :=
  fun w => match fs_files (w_fs w) !! path with
           | Some c => (Ok c, logged (OpRead path) w)
           | None => (Err (ENOENT path), logged (OpRead path) w)
           end.

(** [fs.writeFileSync(path, data)] for a file of the sessions directory:
    creates or replaces the file; fails when the directory is missing. *)
Definition writeFileSync (path : jstring) (data : content) : M unit :=
  fun w => if fs_dir (w_fs w)
           then (Ok tt, logged (OpWrite path)
                          (mkWorld (mkFS true (<[path := data]> (fs_files (w_fs w)))) (w_log w)))
           else (Err (ENOENT path), logged (OpWrite path) w).

(** [fs.unlinkSync(path)]. *)
Definition unlinkSync (path : jstring) : M unit :=
  fun w => match fs_files (w_fs w) !! path with
           | Some _ => (Ok tt, logged (OpUnlink path)
                                 (mkWorld (mkFS (fs_dir (w_fs w)) (delete path (fs_files (w_fs w))))
                                          (w_log w)))
           | None => (Err (ENOENT path), logged (OpUnlink path) w)
           end.

(** [JSON.parse] of a file's text. *)
Definition parseInfo (rt : Runtime) (path : jstring) (c : content) : M loaded :=
  match c with
  | InfoDoc info => ret (Saved info)
  | Bytes raw =>
      match jsonParse rt raw with
      | Some v => ret (Foreign v)
      | None => throw (JsonSyntaxError path)
      end
  end.

(** [interface StartOptions]. *)
Record StartOptions := mkStartOptions {
  so_model : jstring;
  so_thinking : option jstring;
  so_tools : option jstring;
  so_name : option jstring
}.

Definition DEFAULT_TOOLS : jstring := js "read,grep,find,ls".

(** [x || d] on an optional string. *)
Definition orStr (x : option jstring) (d : jstring) : jstring :=
  match x with
  | Some s => if truthyStr s then s else d
  | None => d
  end.

(** [path.join(dir, name)] for a file name without separators or dots
    segments (the ids that reach it have passed the validation, or are
    UUIDs): joining is concatenation. *)
Definition pathJoin (dir name : jstring) : jstring := dir ++ js "/" ++ name.

(** A file name for which joining is concatenation and which the file
    system takes: ASCII without NUL and without a separator, of at most
    255 characters. *)
Definition plainName (name : jstring) : bool :=
  forallb (fun c => (0 <? c)%N && (c <? 128)%N && negb (c =? 47)%N) name
  && (length name <=? 255)%nat.

Section Store.

(** [os.tmpdir()], without a trailing separator. *)
Variable tmpdir : jstring.

Variable rt : Runtime.

(** ** Session directory management *)

Definition sessionDir : jstring := tmpdir ++ js "/pi-consult-sessions".

Definition getSessionDir : M jstring :=
  do mkdirSync sessionDir then ret sessionDir.

Definition getSessionInfoPath (sessionId : jstring) : M jstring :=
  let* dir := getSessionDir in
  ret (pathJoin dir (sessionId ++ js ".info.json")).

Definition getSessionFilePath (sessionId : jstring) : M jstring :=
  let* dir := getSessionDir in
  ret (pathJoin dir (sessionId ++ js ".jsonl")).

Definition saveSessionInfo (info : SessionInfo) : M unit :=
  let* path := getSessionInfoPath (si_id info) in
  writeFileSync path (InfoDoc info).

Definition validateSessionId (sessionId : jstring) : M unit :=
  if matchesIdRegex sessionId then ret tt
  else throw (InvalidSessionId sessionId).

(** [saveSessionInfo] on a value that is no record: the directory is
    made, then the file is named after [`${info.id}`], whatever [info.id]
    is, and no check has seen that name. *)
Definition saveForeign (v : json) : M unit :=
  let* dir := getSessionDir in
  match toTextOpt (numberText rt) (prop v "id") with
  | None => throw StoreTypeError
  | Some id =>
      let name := id ++ js ".info.json" in
      if plainName name then writeFileSync (pathJoin dir name) (Bytes (jsonText rt v))
      else
        match placeOf rt dir name with
        | Some path => writeFileSync path (Bytes (jsonText rt v))
        | None => throw (WriteError name)
        end
  end.

Definition loadSessionInfo (sessionId : jstring) : M loaded :=
  do validateSessionId sessionId then
  let* infoPath := getSessionInfoPath sessionId in
  let* there := existsSync infoPath in
  if there then
    let* text := readFileSync infoPath in
    parseInfo rt infoPath text
  else throw (SessionNotFound sessionId).

(** [closeSession]; [now] is what [Date.now()] returns. *)
Definition closeSession (now : Z) (sessionId : jstring) : M unit :=
  do validateSessionId sessionId then
  let* info := loadSessionInfo sessionId in
  match info with
  | Saved info =>
      let info1 := mkSessionInfo (si_id info) (si_model info) (si_provider info)
                     (si_modelId info) (si_thinking info) (si_tools info)
                     (si_sessionFile info) (si_createdAt info)
                     (Some (js "closed")) (si_closedAt info) in
      let info2 := mkSessionInfo (si_id info1) (si_model info1) (si_provider info1)
                     (si_modelId info1) (si_thinking info1) (si_tools info1)
                     (si_sessionFile info1) (si_createdAt info1)
                     (si_status info1) (Some now) in
      saveSessionInfo info2
  | Foreign v =>
      match assignProp "status" (JStr (js "closed")) v with
      | None => throw StoreTypeError
      | Some v1 =>
          match assignProp "closedAt" (JNum (numOfZ now)) v1 with
          | None => throw StoreTypeError
          | Some v2 => saveForeign v2
          end
      end
  end.

Definition purgeSession (sessionId : jstring) : M unit :=
  do validateSessionId sessionId then
  let* infoPath := getSessionInfoPath sessionId in
  let* sessionFile := getSessionFilePath sessionId in
  let* thereInfo := existsSync infoPath in
  do (if thereInfo then unlinkSync infoPath else ret tt) then
  let* thereFile := existsSync sessionFile in
  if thereFile then unlinkSync sessionFile else ret tt.

(** ** Commands *)

Definition validateSessionName (name : jstring) : M unit :=
  if matchesIdRegex name then
    if (64 <? length name)%nat then throw (SessionNameTooLong name)
    else ret tt
  else throw (InvalidSessionName name).

(** [cmdStart]; [uuid] is what [crypto.randomUUID()] returns and [now]
    what [Date.now()] returns. *)
Definition cmdStart (now : Z) (uuid : jstring) (options : StartOptions) : M jstring :=
  let modelParts := split colon (so_model options) in
  if (length modelParts <? 2)%nat then throw (InvalidModelFormat (so_model options))
  else
    let provider := hd [] modelParts in
    let modelId := join [colon] (tl modelParts) in
    let* sessionId :=
      match so_name options with
      | Some name =>
          if truthyStr name then
            do validateSessionName name then
            let* existingPath := getSessionInfoPath name in
            let* there := existsSync existingPath in
            if there then throw (SessionExists name) else ret name
          else ret uuid
      | None => ret uuid
      end in
    let* sessionFile := getSessionFilePath sessionId in
    let info := mkSessionInfo sessionId (so_model options) provider modelId
                  (so_thinking options) (orStr (so_tools options) DEFAULT_TOOLS)
                  sessionFile now None None in
    do saveSessionInfo info then
    ret sessionId.

(** [cmdSend]: the session is loaded, then the turn runs ([sendToAgent],
    modelled below, is taken as the continuation) on what was loaded;
    [options.timeout || 300000]. *)
Definition cmdSend {R} (sendToAgent : jstring -> loaded -> Z -> M R)
    (message : jstring) (session : jstring) (timeout : option Z) : M R :=
  let* info := loadSessionInfo session in
  let timeout := match timeout with
                 | Some t => if t =? 0 then 300000 else t
                 | None => 300000
                 end in
  sendToAgent message info timeout.

Definition cmdEnd (now : Z) (sessionId : jstring) : M unit :=
  closeSession now sessionId.

Definition cmdPurge (sessionId : jstring) : M unit :=
  purgeSession sessionId.

(** The status column of [cmdList]: [info.status === "closed" ? "closed" :
    "active"]. *)
Definition listStatus (info : SessionInfo) : jstring :=
  match si_status info with
  | Some s => if decide (s = js "closed") then js "closed" else js "active"
  | None => js "active"
  end.

End Store.

(** ** The turn: types *)

(** [SendResult["usage"]]; the three counters start at the number [0] and
    are updated with [+=]. *)
Record Usage := mkUsage {
  u_input : json;
  u_output : json;
  u_cost : json
}.

Record SendResult := mkSendResult {
  response : jstring;
  usage : option Usage
}.

Inductive progressKind := Thinking | Tool | Streaming | DoneStatus | ErrorStatus.

(** [interface ProgressStatus], as written to [PROGRESS_FILE]. *)
Record ProgressStatus := mkProgress {
  p_model : jstring;
  p_startTime : Z;
  p_status : progressKind;
  p_toolName : option json;
  p_toolArgs : option jstring;
  p_elapsed : Z
}.

(** The [Error]s that reject a promise of the turn. *)
Inductive turnError :=
| ErrorOf (message : jstring)
| HookError (what : jstring)
| ProcessExited (code : option Z) (signal : option jstring) (stderr : jstring)
| TimeoutWaiting (timeout : Z) (stderr : jstring)
| TimeoutInactivity (timeout : Z) (stderr : jstring).

Inductive promise (A : Type) :=
| Pending
| Resolved (a : A)
| Rejected (e : turnError).
Arguments Pending {A}.
Arguments Resolved {A} a.
Arguments Rejected {A} e.

(** The command objects written to the subordinate's input. *)
Inductive command :=
| GetState (id : jstring)
| Prompt (id : jstring) (message : jstring).

(** The two callbacks given to [setTimeout]. *)
Inductive timerKind := InitialTimer | InactivityTimer.

Record timer := mkTimer {
  tm_handle : nat;
  tm_deadline : Z;
  tm_kind : timerKind
}.

(** What the turn does to the outside, call by call. *)
Inductive effect :=
| Spawn (bin : jstring) (args : list jstring)
| StdinWrite (c : command)
| SetTimeout (h : nat) (deadline : Z)
| ClearTimeout (h : nat)
| WriteProgress (p : ProgressStatus)
| ClearProgress
| RlClose
| StdinEnd
| Kill (signal : jstring).

(** Where [sendToAgent] is: suspended at one of its three [await]s, or
    over. [Uncaught] is the turn whose host ended on an error nobody
    handles: the line listener threw, or a promise was rejected that had
    no handler. Neither passes through the [try] of [sendToAgent], whose
    [finally] block does not run. *)
Inductive stage :=
| AwaitHandshake (p : jstring)
| AwaitPrompt (p : jstring)
| AwaitDone
| Returned (r : SendResult)
| Threw (e : turnError)
| Uncaught.

(** The variables of one call of [sendToAgent], the timers of the runtime
    and the progress file. *)
Record Turn := mkTurn {
  t_now : Z;
  t_message : jstring;
  t_timeout : Z;
  t_modelName : jstring;
  t_startTime : Z;
  t_stderr : jstring;
  t_responseText : jstring;
  t_usage : option Usage;
  t_agentMessages : json;
  t_finished : bool;
  t_reqId : nat;
  t_pending : list jstring;
  t_commands : list (jstring * promise (option json));
  t_done : promise unit;
  t_timeoutPromise : promise unit;
  t_timers : list timer;
  t_nextHandle : nat;
  t_timeoutHandle : nat;
  t_progress : option ProgressStatus;
  t_effects : list effect;
  t_stage : stage
}.

(** What happens to the turn from outside. *)
Inductive input :=
| Line (parsed : option json)
| StderrData (chunk : jstring)
| Exit (code : option Z) (signal : option jstring)
| Idle.

(** Assignments to the variables of the turn. *)
Definition set_now (v : Z) (t : Turn) : Turn :=
  match t with
  | mkTurn _ x1 x2 x3 x4 x5 x6 x7 x8 x9 x10 x11 x12 x13 x14 x15 x16 x17 x18
      x19 x20 =>
      mkTurn v x1 x2 x3 x4 x5 x6 x7 x8 x9 x10 x11 x12 x13 x14 x15 x16 x17
      x18 x19 x20
  end.

Definition set_stderr (v : jstring) (t : Turn) : Turn :=
  match t with
  | mkTurn x0 x1 x2 x3 x4 _ x6 x7 x8 x9 x10 x11 x12 x13 x14 x15 x16 x17 x18
      x19 x20 =>
      mkTurn x0 x1 x2 x3 x4 v x6 x7 x8 x9 x10 x11 x12 x13 x14 x15 x16 x17
      x18 x19 x20
  end.

Definition set_responseText (v : jstring) (t : Turn) : Turn :=
  match t with
  | mkTurn x0 x1 x2 x3 x4 x5 _ x7 x8 x9 x10 x11 x12 x13 x14 x15 x16 x17 x18
      x19 x20 =>
      mkTurn x0 x1 x2 x3 x4 x5 v x7 x8 x9 x10 x11 x12 x13 x14 x15 x16 x17
      x18 x19 x20
  end.

Definition set_usage (v : option Usage) (t : Turn) : Turn :=
  match t with
  | mkTurn x0 x1 x2 x3 x4 x5 x6 _ x8 x9 x10 x11 x12 x13 x14 x15 x16 x17 x18
      x19 x20 =>
      mkTurn x0 x1 x2 x3 x4 x5 x6 v x8 x9 x10 x11 x12 x13 x14 x15 x16 x17
      x18 x19 x20
  end.

Definition set_agentMessages (v : json) (t : Turn) : Turn :=
  match t with
  | mkTurn x0 x1 x2 x3 x4 x5 x6 x7 _ x9 x10 x11 x12 x13 x14 x15 x16 x17 x18
      x19 x20 =>
      mkTurn x0 x1 x2 x3 x4 x5 x6 x7 v x9 x10 x11 x12 x13 x14 x15 x16 x17
      x18 x19 x20
  end.

Definition set_finished (v : bool) (t : Turn) : Turn :=
  match t with
  | mkTurn x0 x1 x2 x3 x4 x5 x6 x7 x8 _ x10 x11 x12 x13 x14 x15 x16 x17 x18
      x19 x20 =>
      mkTurn x0 x1 x2 x3 x4 x5 x6 x7 x8 v x10 x11 x12 x13 x14 x15 x16 x17
      x18 x19 x20
  end.

Definition set_reqId (v : nat) (t : Turn) : Turn :=
  match t with
  | mkTurn x0 x1 x2 x3 x4 x5 x6 x7 x8 x9 _ x11 x12 x13 x14 x15 x16 x17 x18
      x19 x20 =>
      mkTurn x0 x1 x2 x3 x4 x5 x6 x7 x8 x9 v x11 x12 x13 x14 x15 x16 x17 x18
      x19 x20
  end.

Definition set_pending (v : list jstring) (t : Turn) : Turn :=
  match t with
  | mkTurn x0 x1 x2 x3 x4 x5 x6 x7 x8 x9 x10 _ x12 x13 x14 x15 x16 x17 x18
      x19 x20 =>
      mkTurn x0 x1 x2 x3 x4 x5 x6 x7 x8 x9 x10 v x12 x13 x14 x15 x16 x17 x18
      x19 x20
  end.

Definition set_commands (v : list (jstring * promise (option json))) (t : Turn) : Turn :=
  match t with
  | mkTurn x0 x1 x2 x3 x4 x5 x6 x7 x8 x9 x10 x11 _ x13 x14 x15 x16 x17 x18
      x19 x20 =>
      mkTurn x0 x1 x2 x3 x4 x5 x6 x7 x8 x9 x10 x11 v x13 x14 x15 x16 x17 x18
      x19 x20
  end.

Definition set_done (v : promise unit) (t : Turn) : Turn :=
  match t with
  | mkTurn x0 x1 x2 x3 x4 x5 x6 x7 x8 x9 x10 x11 x12 _ x14 x15 x16 x17 x18
      x19 x20 =>
      mkTurn x0 x1 x2 x3 x4 x5 x6 x7 x8 x9 x10 x11 x12 v x14 x15 x16 x17 x18
      x19 x20
  end.

Definition set_timeoutPromise (v : promise unit) (t : Turn) : Turn :=
  match t with
  | mkTurn x0 x1 x2 x3 x4 x5 x6 x7 x8 x9 x10 x11 x12 x13 _ x15 x16 x17 x18
      x19 x20 =>
      mkTurn x0 x1 x2 x3 x4 x5 x6 x7 x8 x9 x10 x11 x12 x13 v x15 x16 x17 x18
      x19 x20
  end.

Definition set_timers (v : list timer) (t : Turn) : Turn :=
  match t with
  | mkTurn x0 x1 x2 x3 x4 x5 x6 x7 x8 x9 x10 x11 x12 x13 x14 _ x16 x17 x18
      x19 x20 =>
      mkTurn x0 x1 x2 x3 x4 x5 x6 x7 x8 x9 x10 x11 x12 x13 x14 v x16 x17 x18
      x19 x20
  end.

Definition set_nextHandle (v : nat) (t : Turn) : Turn :=
  match t with
  | mkTurn x0 x1 x2 x3 x4 x5 x6 x7 x8 x9 x10 x11 x12 x13 x14 x15 _ x17 x18
      x19 x20 =>
      mkTurn x0 x1 x2 x3 x4 x5 x6 x7 x8 x9 x10 x11 x12 x13 x14 x15 v x17 x18
      x19 x20
  end.

Definition set_timeoutHandle (v : nat) (t : Turn) : Turn :=
  match t with
  | mkTurn x0 x1 x2 x3 x4 x5 x6 x7 x8 x9 x10 x11 x12 x13 x14 x15 x16 _ x18
      x19 x20 =>
      mkTurn x0 x1 x2 x3 x4 x5 x6 x7 x8 x9 x10 x11 x12 x13 x14 x15 x16 v x18
      x19 x20
  end.

Definition set_progress (v : option ProgressStatus) (t : Turn) : Turn :=
  match t with
  | mkTurn x0 x1 x2 x3 x4 x5 x6 x7 x8 x9 x10 x11 x12 x13 x14 x15 x16 x17 _
      x19 x20 =>
      mkTurn x0 x1 x2 x3 x4 x5 x6 x7 x8 x9 x10 x11 x12 x13 x14 x15 x16 x17 v
      x19 x20
  end.

Definition set_effects (v : list effect) (t : Turn) : Turn :=
  match t with
  | mkTurn x0 x1 x2 x3 x4 x5 x6 x7 x8 x9 x10 x11 x12 x13 x14 x15 x16 x17 x18
      _ x20 =>
      mkTurn x0 x1 x2 x3 x4 x5 x6 x7 x8 x9 x10 x11 x12 x13 x14 x15 x16 x17
      x18 v x20
  end.

Definition set_stage (v : stage) (t : Turn) : Turn :=
  match t with
  | mkTurn x0 x1 x2 x3 x4 x5 x6 x7 x8 x9 x10 x11 x12 x13 x14 x15 x16 x17 x18
      x19 _ =>
      mkTurn x0 x1 x2 x3 x4 x5 x6 x7 x8 x9 x10 x11 x12 x13 x14 x15 x16 x17
      x18 x19 v
  end.

(** ** The turn: the runtime's primitives *)

Definition emit (e : effect) (t : Turn) : Turn :=
  set_effects (t_effects t ++ [e]) t.

(** The delay [setTimeout] really arms: a delay below 1 or above
    2147483647 is replaced by 1. *)
Definition timerDelay (ms : Z) : Z :=
  if (ms <? 1) || (2147483647 <? ms) then 1 else ms.

Definition setTimeout (k : timerKind) (ms : Z) (t : Turn) : nat * Turn :=
  let h := t_nextHandle t in
  let deadline := t_now t + timerDelay ms in
  (h, emit (SetTimeout h deadline)
        (set_nextHandle (S h)
           (set_timers (t_timers t ++ [mkTimer h deadline k]) t))).

Definition clearTimeout (h : nat) (t : Turn) : Turn :=
  emit (ClearTimeout h)
    (set_timers (List.filter (fun tm => negb (tm_handle tm =? h)%nat) (t_timers t)) t).

(** A promise is settled once; later calls of its [resolve] and [reject]
    do nothing. *)
Definition settleWith {A} (outcome : promise A) (p : promise A) : promise A :=
  match p with
  | Pending => outcome
  | _ => p
  end.

Definition resolveDone (t : Turn) : Turn :=
  set_done (settleWith (Resolved tt) (t_done t)) t.

Definition rejectDone (e : turnError) (t : Turn) : Turn :=
  set_done (settleWith (Rejected e) (t_done t)) t.

Definition timeoutReject (e : turnError) (t : Turn) : Turn :=
  set_timeoutPromise (settleWith (Rejected e) (t_timeoutPromise t)) t.

(** [writeProgress]: the elapsed seconds are computed, then the file is
    written; a failing write is ignored. *)
Definition writeProgress (k : progressKind) (toolName : option json)
    (toolArgs : option jstring) (t : Turn) : Turn :=
  let p := mkProgress (t_modelName t) (t_startTime t) k toolName toolArgs
             ((t_now t - t_startTime t) / 1000) in
  emit (WriteProgress p) (set_progress (Some p) t).

(** [clearProgress]: the file is unlinked when it exists. *)
Definition clearProgress (t : Turn) : Turn :=
  emit ClearProgress (set_progress None t).

(** [`req-${++reqId}`]. *)
Definition reqName (n : nat) : jstring :=
  js "req-" ++ js (NilEmpty.string_of_uint (Nat.to_uint n)).

Definition mapDelete (k : jstring) (keys : list jstring) : list jstring :=
  List.filter (fun k' => negb (bool_decide (k' = k))) keys.

Definition mapHas (k : jstring) (keys : list jstring) : bool :=
  existsb (fun k' => bool_decide (k' = k)) keys.

(** [sendCommand]: the command is written on one line, its waiter is put
    in [pending], the new promise is returned (by its id). *)
Definition sendCommand (mk : jstring -> command) (t : Turn) : jstring * Turn :=
  let n := S (t_reqId t) in
  let id := reqName n in
  let t1 := emit (StdinWrite (mk id)) (set_reqId n t) in
  (id, set_commands ((id, Pending) :: t_commands t1)
         (set_pending (id :: mapDelete id (t_pending t1)) t1)).

Fixpoint settleCommand (id : jstring) (outcome : promise (option json))
    (cs : list (jstring * promise (option json))) :
    list (jstring * promise (option json)) :=
  match cs with
  | [] => []
  | (id', p) :: rest =>
      if decide (id' = id) then (id', settleWith outcome p) :: rest
      else (id', p) :: settleCommand id outcome rest
  end.

Fixpoint commandPromise (id : jstring)
    (cs : list (jstring * promise (option json))) : promise (option json) :=
  match cs with
  | [] => Pending
  | (id', p) :: rest => if decide (id' = id) then p else commandPromise id rest
  end.

(** [resetTimeout]. *)
Definition resetTimeout (t : Turn) : Turn :=
  let t1 := clearTimeout (t_timeoutHandle t) t in
  let '(h, t2) := setTimeout InactivityTimer (t_timeout t1) t1 in
  set_timeoutHandle h t2.

Section Turn.

(** [Number.prototype.toString] and [JSON.stringify] are the runtime's. *)
Variable numToString : float -> jstring.
Variable stringify : json -> jstring.

(** [ToNumber] on the primitives that are not strings. *)
Definition toNum (v : json) : float :=
  match v with
  | JNum x => x
  | JBool true => 1%float
  | _ => 0%float
  end.

(** [a + b]: concatenation as soon as one operand is a string, an array
    or an object; the sum of the numbers otherwise. *)
Definition jsAdd (a b : json) : json :=
  match a, b with
  | (JStr _ | JArr _ | JObj _), _ | _, (JStr _ | JArr _ | JObj _) =>
      JStr (toStr numToString a ++ toStr numToString b)
  | _, _ => JNum (toNum a + toNum b)
  end.

(** ** The turn: [extractTextFromMessage] and the line listener *)

(** [values.join(sep)]: [null] and [undefined] elements give the empty
    string. *)
Definition joinValues (sep : jstring) (values : list (option json)) : jstring :=
  join sep
    (List.map (fun v => match v with
                        | None | Some JNull => []
                        | Some x => toStr numToString x
                        end) values).

(** [c?.type === "text" && typeof c.text === "string"]. *)
Definition isTextPart (c : json) : bool :=
  isStr (getOpt (Some c) "type") "text"
  && match prop c "text" with Some (JStr _) => true | _ => false end.

Definition extractTextFromMessage (message : option json) : jstring :=
  if negb (truthy message) then []
  else
    match getOpt message "content" with
    | Some (JStr content) => content
    | Some (JArr content) =>
        joinValues [10; 10]%N
          (List.map (fun c => prop c "text") (List.filter isTextPart content))
    | _ => []
    end.

Definition onResponse (event : json) (t : Turn) : Turn :=
  let id := prop event "id" in
  let waiter :=
    if truthy id then
      match id with
      | Some (JStr k) => if mapHas k (t_pending t) then Some k else None
      | _ => None
      end
    else None in
  let t1 :=
    if truthy id then
      match id with
      | Some (JStr k) => set_pending (mapDelete k (t_pending t)) t
      | _ => t
      end
    else t in
  let failure :=
    ErrorOf (toStr numToString (orElse (prop event "error") (JStr (js "Unknown error")))) in
  match waiter with
  | Some k =>
      if negb (truthy (prop event "success"))
      then set_commands (settleCommand k (Rejected failure) (t_commands t1)) t1
      else set_commands
             (settleCommand k (Resolved (prop event "data")) (t_commands t1)) t1
  | None =>
      if negb (truthy (prop event "success")) then rejectDone failure t1 else t1
  end.

Definition onMessageUpdate (event : json) (t : Turn) : Turn :=
  let delta := prop event "assistantMessageEvent" in
  let t1 :=
    if isStr (getOpt delta "type") "text_delta" then
      writeProgress Streaming None None
        (resetTimeout
           (set_responseText
              (t_responseText t ++ toStrOpt numToString (getOpt delta "delta")) t))
    else t in
  let t2 :=
    if isStr (getOpt delta "type") "thinking_delta" then
      writeProgress Thinking None None (resetTimeout t1)
    else t1 in
  if isStr (getOpt delta "type") "error" then
    rejectDone
      (ErrorOf (toStr numToString (nullish (getOpt delta "reason") (JStr (js "Streaming error")))))
      t2
  else t2.

Definition onMessageEnd (event : json) (t : Turn) : Turn :=
  let msg := prop event "message" in
  if truthy (getOpt msg "errorMessage")
  then rejectDone (ErrorOf (toStrOpt numToString (getOpt msg "errorMessage"))) t
  else t.

Definition onToolStart (event : json) (t : Turn) : Turn :=
  writeProgress Tool (prop event "toolName")
    (Some (firstn 100 (stringify (orElse (prop event "args") (JObj [])))))
    (resetTimeout t).

Definition zeroUsage : Usage := mkUsage (JNum 0) (JNum 0) (JNum 0).

(** One round of the usage loop; [msg.role] throws on a [null] entry. *)
Definition usageStep (u : Usage) (msg : json) : completion Usage :=
  match msg with
  | JNull => TypeError
  | _ =>
      if isStr (prop msg "role") "assistant" && truthy (prop msg "usage") then
        let us := prop msg "usage" in
        Normal (mkUsage
                  (jsAdd (u_input u) (orElse (getOpt us "input") (JNum 0)))
                  (jsAdd (u_output u) (orElse (getOpt us "output") (JNum 0)))
                  (jsAdd (u_cost u)
                     (orElse (getOpt (getOpt us "cost") "total") (JNum 0))))
      else Normal u
  end.

Fixpoint usageLoop (u : Usage) (msgs : list json) : completion Usage :=
  match msgs with
  | [] => Normal u
  | msg :: rest =>
      match usageStep u msg with
      | Normal u' => usageLoop u' rest
      | TypeError => TypeError
      end
  end.

(** [[...agentMessages].reverse().find(m => m?.role === "assistant")]. *)
Definition lastAssistant (msgs : list json) : option json :=
  List.find (fun m => isStr (getOpt (Some m) "role") "assistant") (rev msgs).

Definition onAgentEnd (event : json) (t : Turn) : completion Turn :=
  let agentMessages := orElse (prop event "messages") (JArr []) in
  match iterate agentMessages with
  | TypeError => TypeError
  | Normal msgs =>
      match usageLoop zeroUsage msgs with
      | TypeError => TypeError
      | Normal u =>
          let t1 := set_usage (Some u) (set_agentMessages agentMessages t) in
          let t2 :=
            if decide (trim (t_responseText t1) = [])
            then set_responseText (extractTextFromMessage (lastAssistant msgs)) t1
            else t1 in
          Normal (resolveDone (set_finished true t2))
      end
  end.

(** The listener of [rl.on("line", ...)], on the parsed line. *)
Definition onLine (event : json) (t : Turn) : completion Turn :=
  match event with
  | JNull => TypeError
  | _ =>
      let type := prop event "type" in
      if isStr type "response" then Normal (onResponse event t)
      else if isStr type "message_update" then Normal (onMessageUpdate event t)
      else if isStr type "message_end" then Normal (onMessageEnd event t)
      else if isStr type "tool_execution_start" then Normal (onToolStart event t)
      else if isStr type "tool_execution_update" || isStr type "tool_execution_end"
      then Normal (resetTimeout t)
      else if isStr type "agent_end" then onAgentEnd event t
      else if isStr type "hook_error" then
        Normal (rejectDone
                  (HookError (toStr numToString (orElse (prop event "error") (JStr (js "Unknown")))))
                  t)
      else Normal t
  end.

(** ** The turn: [sendToAgent]

    The event loop is modelled one turn at a time: each input (a line of
    the subordinate's output, a chunk of its diagnostic stream, its exit,
    or nothing but the passage of time) comes some milliseconds after the
    previous one; a timer that is due then runs first; after the callback,
    [sendToAgent] goes on from its [await] as far as the promises settled
    so far allow; then the host looks for rejected promises without a
    handler. *)

(** [Promise.race([p, timeoutPromise])]. *)
Definition race {A} (p : promise A) (timeoutPromise : promise unit) : promise A :=
  match p with
  | Pending =>
      match timeoutPromise with
      | Rejected e => Rejected e
      | _ => Pending
      end
  | _ => p
  end.

(** The [finally] block. *)
Definition cleanup (t : Turn) : Turn :=
  emit (Kill (js "SIGTERM"))
    (emit StdinEnd
       (emit RlClose
          (clearProgress (clearTimeout (t_timeoutHandle t) t)))).

(** [sendToAgent] goes on from the [await] it is suspended at, when the
    promise it awaits is settled. *)
Definition resume1 (t : Turn) : Turn :=
  match t_stage t with
  | AwaitHandshake p =>
      match race (commandPromise p (t_commands t)) (t_timeoutPromise t) with
      | Pending => t
      | Resolved _ =>
          let '(p2, t1) := sendCommand (fun id => Prompt id (t_message t)) t in
          set_stage (AwaitPrompt p2) t1
      | Rejected e => set_stage (Threw e) (cleanup t)
      end
  | AwaitPrompt p =>
      match race (commandPromise p (t_commands t)) (t_timeoutPromise t) with
      | Pending => t
      | Resolved _ => set_stage AwaitDone t
      | Rejected e => set_stage (Threw e) (cleanup t)
      end
  | AwaitDone =>
      match race (t_done t) (t_timeoutPromise t) with
      | Pending => t
      | Resolved _ =>
          set_stage
            (Returned (mkSendResult (trim (t_responseText t)) (t_usage t)))
            (cleanup t)
      | Rejected e => set_stage (Threw e) (cleanup t)
      end
  | Returned _ | Threw _ | Uncaught => t
  end.

(** Three [await]s: three rounds reach the next suspension. *)
Definition resume (t : Turn) : Turn := resume1 (resume1 (resume1 t)).

Definition live (t : Turn) : bool :=
  match t_stage t with
  | AwaitHandshake _ | AwaitPrompt _ | AwaitDone => true
  | Returned _ | Threw _ | Uncaught => false
  end.

(** The armed timer that is due and has the earliest deadline. *)
Fixpoint dueTimer (now : Z) (timers : list timer) : option timer :=
  match timers with
  | [] => None
  | tm :: rest =>
      match dueTimer now rest with
      | Some tm' =>
          if (tm_deadline tm <=? now) && (tm_deadline tm <=? tm_deadline tm')
          then Some tm else Some tm'
      | None => if tm_deadline tm <=? now then Some tm else None
      end
  end.

(** A timer fires: it leaves the table and its callback runs. *)
Definition fire (tm : timer) (t : Turn) : Turn :=
  let t1 :=
    set_timers
      (List.filter (fun tm' => negb (tm_handle tm' =? tm_handle tm)%nat) (t_timers t)) t in
  match tm_kind tm with
  | InitialTimer => timeoutReject (TimeoutWaiting (t_timeout t1) (t_stderr t1)) t1
  | InactivityTimer => timeoutReject (TimeoutInactivity (t_timeout t1) (t_stderr t1)) t1
  end.

Definition handle (i : input) (t : Turn) : Turn :=
  match i with
  | Line None => t
  | Line (Some event) =>
      match onLine event t with
      | Normal t' => t'
      | TypeError => set_stage Uncaught t
      end
  | StderrData chunk => set_stderr (t_stderr t ++ chunk) t
  | Exit code signal =>
      if t_finished t then t
      else rejectDone (ProcessExited code signal (t_stderr t)) t
  | Idle => t
  end.

(** A rejected promise that has no handler. The command promises and
    [timeoutPromise] are given to [Promise.race] as soon as they are
    created; [donePromise] gets its first handler at the third [await], so
    that it is without one as long as [sendToAgent] is suspended at one of
    the first two. *)
Definition unhandledRejection (t : Turn) : bool :=
  match t_stage t with
  | AwaitHandshake _ | AwaitPrompt _ =>
      match t_done t with
      | Rejected _ => true
      | _ => false
      end
  | _ => false
  end.

(** The end of a turn of the event loop: once the callback and the
    continuations it released have run, a rejected promise that still has
    no handler ends the host (bun, and Node since version 15, exit on an
    unhandled rejection). *)
Definition endOfTick (t : Turn) : Turn :=
  if unhandledRejection t then set_stage Uncaught t else t.

(** One turn of the event loop, [delay] milliseconds after the previous
    one: a due timer runs first and nothing reaches a turn that is over. *)
Definition step (t : Turn) (i : N * input) : Turn :=
  if live t then
    let t1 := set_now (t_now t + Z.of_N (fst i)) t in
    match dueTimer (t_now t1) (t_timers t1) with
    | Some tm => endOfTick (resume (fire tm t1))
    | None => endOfTick (resume (handle (snd i) t1))
    end
  else t.

Definition run (t : Turn) (trace : list (N * input)) : Turn :=
  fold_left step trace t.

(** [sendToAgent] up to its first [await]; [now] is [Date.now()] and
    [envBin] is [process.env.PI_CONSULT_PI_BIN]. *)
Definition sendToAgentStart (now : Z) (envBin : option jstring)
    (message : jstring) (info : SessionInfo) (timeout : Z) : Turn :=
  let piBin := orStr envBin (js "pi") in
  let t0 :=
    mkTurn now message timeout (si_modelId info) now [] [] None (JArr []) false
      0%nat [] [] Pending Pending [] 0%nat 0%nat None [] AwaitDone in
  let t1 := writeProgress Thinking None None t0 in
  let args :=
    [js "--mode"; js "rpc"; js "--no-extensions";
     js "--provider"; si_provider info;
     js "--model"; si_modelId info;
     js "--session"; si_sessionFile info]
    ++ (match si_thinking info with
        | Some th => if truthyStr th then [js "--thinking"; th] else []
        | None => []
        end)
    ++ (if truthyStr (si_tools info) then [js "--tools"; si_tools info] else []) in
  let t2 := emit (Spawn piBin args) t1 in
  let '(h, t3) := setTimeout InitialTimer timeout t2 in
  let t4 := set_timeoutHandle h t3 in
  let '(p, t5) := sendCommand GetState t4 in
  set_stage (AwaitHandshake p) t5.

(** [sendToAgent] along a trace of the event loop. *)
Definition sendToAgent (now : Z) (envBin : option jstring) (message : jstring)
    (info : SessionInfo) (timeout : Z) (trace : list (N * input)) : Turn :=
  run (sendToAgentStart now envBin message info timeout) trace.

End Turn.

(** ** Paths and stored documents, for the statements *)

Definition infoPathOf (tmpdir sessionId : jstring) : jstring :=
  pathJoin (sessionDir tmpdir) (sessionId ++ js ".info.json").

Definition filePathOf (tmpdir sessionId : jstring) : jstring :=
  pathJoin (sessionDir tmpdir) (sessionId ++ js ".jsonl").

(** The property names of the document [JSON.stringify] writes for a
    record: a property that is [undefined] is left out. *)
Definition infoKeys (info : SessionInfo) : list string :=
  ["id"%string; "model"%string; "provider"%string; "modelId"%string]
  ++ (match si_thinking info with Some _ => ["thinking"%string] | None => [] end)
  ++ ["tools"%string; "sessionFile"%string; "createdAt"%string]
  ++ (match si_status info with Some _ => ["status"%string] | None => [] end)
  ++ (match si_closedAt info with Some _ => ["closedAt"%string] | None => [] end).

(** The session document stored for an id, if any. *)
Definition storedInfo (tmpdir sessionId : jstring) (w : World) : option SessionInfo :=
  match fs_files (w_fs w) !! infoPathOf tmpdir sessionId with
  | Some (InfoDoc info) => Some info
  | _ => None
  end.

(** The value [closeSession] saves for a value that is no record, when
    the two assignments go through. *)
Definition closedValue (now : Z) (v : json) : option json :=
  match assignProp "status" (JStr (js "closed")) v with
  | None => None
  | Some v1 => assignProp "closedAt" (JNum (numOfZ now)) v1
  end.

(** The record [closeSession] saves. *)
Definition closedInfo (now : Z) (info : SessionInfo) : SessionInfo :=
  mkSessionInfo (si_id info) (si_model info) (si_provider info)
    (si_modelId info) (si_thinking info) (si_tools info)
    (si_sessionFile info) (si_createdAt info) (Some (js "closed")) (Some now).

(** A store as the commands build it: files live in an existing sessions
    directory, and the document stored for an id carries that id. *)
Definition wellFormed (tmpdir : jstring) (w : World) : Prop :=
  (forall path c, fs_files (w_fs w) !! path = Some c -> fs_dir (w_fs w) = true)
  /\ (forall sessionId info,
        fs_files (w_fs w) !! infoPathOf tmpdir sessionId = Some (InfoDoc info) ->
        si_id info = sessionId).

Definition emptyWorld : World := mkWorld (mkFS false ∅) [].

(** The record [cmdStart] saves under an id. *)
Definition startInfo (tmpdir : jstring) (now : Z) (sessionId : jstring)
    (options : StartOptions) : SessionInfo :=
  mkSessionInfo sessionId (so_model options)
    (hd [] (split colon (so_model options)))
    (join [colon] (tl (split colon (so_model options))))
    (so_thinking options) (orStr (so_tools options) DEFAULT_TOOLS)
    (filePathOf tmpdir sessionId) now None None.

(** The name [cmdStart] takes as given: [options.name] when it is truthy. *)
Definition nameGiven (options : StartOptions) : option jstring :=
  match so_name options with
  | Some name => if truthyStr name then Some name else None
  | None => None
  end.

(** ** A sample store, for the statements *)

Definition uuid0 : jstring := js "123e4567-e89b-42d3-a456-426614174000".

Definition demoOptions : StartOptions :=
  mkStartOptions (js "p:m") None None (Some (js "demo")).

(** The store after [start -m p:m -n demo] on an empty one. *)
Definition demoWorld : World :=
  snd (cmdStart (js "/tmp") 1700000000000 uuid0 demoOptions emptyWorld).

(** ** Usage and text, for the statements *)

(** A message the usage loop counts: assistant-authored, with a usage. *)
Definition countsUsage (msg : json) : bool :=
  isStr (prop msg "role") "assistant" && truthy (prop msg "usage").

(** The number a usage field contributes: [field || 0]. *)
Definition numberOrZero (v : option json) : float :=
  match v with
  | Some (JNum x) => if is_zero x || is_nan x then 0%float else x
  | _ => 0%float
  end.

Definition inputOf (msg : json) : float :=
  numberOrZero (getOpt (prop msg "usage") "input").
Definition outputOf (msg : json) : float :=
  numberOrZero (getOpt (prop msg "usage") "output").
Definition costOf (msg : json) : float :=
  numberOrZero (getOpt (getOpt (prop msg "usage") "cost") "total").

(** The sum of a field over messages, in the order of the list. *)
Definition sumOf (f : json -> float) (msgs : list json) : float :=
  fold_left (fun acc msg => (acc + f msg)%float) msgs 0%float.

(** A usage field as the protocol types it: a number, or missing. *)
Definition numericField (v : option json) : bool :=
  match v with
  | Some (JNum _) => true
  | _ => negb (truthy v)
  end.

(** A message of the terminal list as the protocol types it: an object
    (not [null]) whose usage fields, when it is counted, are numbers. *)
Definition usageTyped (msg : json) : bool :=
  match msg with
  | JNull => false
  | _ =>
      if countsUsage msg then
        numericField (getOpt (prop msg "usage") "input")
        && numericField (getOpt (prop msg "usage") "output")
        && numericField (getOpt (getOpt (prop msg "usage") "cost") "total")
      else true
  end.



(** Empty or whitespace-only. *)
Definition isBlank (s : jstring) : bool := forallb isWhiteSpace s.

(** [r] is [s] without its leading and trailing white space: what was
    taken away at the two ends is white space, and [r] neither starts nor
    ends with white space. *)
Definition strippedOf (s r : jstring) : Prop :=
  exists leading trailing,
    s = leading ++ r ++ trailing
    /\ isBlank leading = true /\ isBlank trailing = true
    /\ (forall c rest, r = c :: rest -> isWhiteSpace c = false)
    /\ (forall rest c, r = rest ++ [c] -> isWhiteSpace c = false).


Definition agentEndEvent (msgs : list json) : json :=
  JObj [(js "type", JStr (js "agent_end")); (js "messages", JArr msgs)].

(** ** Effects, activity and pacing, for the statements *)

(** The calls only the [finally] block makes. *)
Definition isCleanup (e : effect) : bool :=
  match e with
  | ClearProgress | RlClose | StdinEnd | Kill _ => true
  | _ => false
  end.

(** What the [finally] block does, [h] being the current timer handle. *)
Definition finallyEffects (h : nat) : list effect :=
  [ClearTimeout h; ClearProgress; RlClose; StdinEnd; Kill (js "SIGTERM")].

(** [sendToAgent] is over: it returned or threw. *)
Definition over (t : Turn) : bool :=
  match t_stage t with
  | Returned _ | Threw _ => true
  | _ => false
  end.

Definition isTimeoutError (e : turnError) : bool :=
  match e with
  | TimeoutWaiting _ _ | TimeoutInactivity _ _ => true
  | _ => false
  end.

Definition timedOut (t : Turn) : bool :=
  match t_stage t with
  | Threw e => isTimeoutError e
  | _ => false
  end.

(** The protocol activity events: the two deltas and the three tool
    events. *)
Definition isActivity (event : json) : bool :=
  let type := prop event "type" in
  let delta := getOpt (prop event "assistantMessageEvent") "type" in
  isStr type "message_update"
    && (isStr delta "text_delta" || isStr delta "thinking_delta")
  || isStr type "tool_execution_start"
  || isStr type "tool_execution_update"
  || isStr type "tool_execution_end".

Definition isActivityInput (i : input) : bool :=
  match i with
  | Line (Some event) => isActivity event
  | _ => false
  end.

(** A trace in which less than [timeout] milliseconds pass between the
    start of the turn and the first activity event, between consecutive
    activity events, and after the last one; [quiet] is the time since
    the last of them. *)
Fixpoint paced (timeout quiet : Z) (trace : list (N * input)) : bool :=
  match trace with
  | [] => true
  | (delay, i) :: rest =>
      (quiet + Z.of_N delay <? timeout)
      && paced timeout (if isActivityInput i then 0 else quiet + Z.of_N delay) rest
  end.

(** The time a trace takes. *)
Definition duration (trace : list (N * input)) : Z :=
  fold_right (fun i acc => Z.of_N (fst i) + acc) 0 trace.

(** ** Sample protocol traffic, for the statements *)

(** An object literal. *)
Definition obj (props : list (string * json)) : json :=
  JObj (List.map (fun kv => (js (fst kv), snd kv)) props).

Definition str (s : string) : json := JStr (js s).

(** A successful [response] to the command [id]. *)
Definition okResponse (id : string) : json :=
  obj [("type", str "response"); ("id", str id); ("success", JBool true)]%string.

Definition textDelta (delta : string) : json :=
  obj [("type", str "message_update");
       ("assistantMessageEvent",
        obj [("type", str "text_delta"); ("delta", str delta)])]%string.

Definition toolStart : json :=
  obj [("type", str "tool_execution_start"); ("toolName", str "read")]%string.






Definition hookError : json :=
  obj [("type", str "hook_error"); ("error", str "denied")]%string.

(** An assistant message with a usage and one text part. *)
Definition assistantMessage (input output cost : float) (text : string) : json :=
  obj [("role", str "assistant");
       ("usage", obj [("input", JNum input); ("output", JNum output);
                      ("cost", obj [("total", JNum cost)])]);
       ("content", JArr [obj [("type", str "text"); ("text", str text)]])]%string.

Definition twoStepMessages : list json :=
  [assistantMessage 10 5 0.01 "Let me check.";
   assistantMessage 20 8 0.02 "Answer: 42"].

Definition sampleInfo : SessionInfo :=
  mkSessionInfo (js "demo") (js "p:m") (js "p") (js "m") None
    (js "read,grep,find,ls") (js "/tmp/pi-consult-sessions/demo.jsonl")
    1700000000000 None None.

(** Handshake and prompt acknowledged, 5 ms apart. *)
Definition acknowledged : list (N * input) :=
  [(5%N, Line (Some (okResponse "req-1"))); (5%N, Line (Some (okResponse "req-2")))].

Definition sampleNumToString (x : float) : jstring := js "0".
Definition sampleStringify (v : json) : jstring := js "{}".

(** A tool event every 500 ms, under a timeout of 1000 ms. *)
Definition steadyTools : list (N * input) :=
  acknowledged
  ++ [(500%N, Line (Some toolStart)); (500%N, Line (Some toolStart));
      (500%N, Line (Some toolStart))].

(** ** Invariants of the turn *)

Definition cleanupFree (es : list effect) : Prop :=
  Forall (fun e => isCleanup e = false) es.

(** Every armed timer is the one [timeoutHandle] names. *)
Definition timersOwned (t : Turn) : Prop :=
  forall tm, In tm (t_timers t) -> tm_handle tm = t_timeoutHandle t.

(** A promise that is not rejected with a timeout error. *)
Definition quietPromise {A} (p : promise A) : Prop :=
  match p with
  | Rejected e => isTimeoutError e = false
  | _ => True
  end.

Definition quietErrors (t : Turn) : Prop :=
  quietPromise (t_done t)
  /\ Forall (fun c => quietPromise (snd c)) (t_commands t).

(** What a listener may change: it leaves the stage, the clock, the
    configuration and [timeoutPromise] alone, adds no call of the
    [finally] block, rejects no promise with a timeout error, and leaves
    the timers alone ([reset = false]) or leaves the one timer that
    [resetTimeout] arms ([reset = true]). *)
Record Frame (reset : bool) (t t' : Turn) : Prop := mkFrame {
  fr_stage : t_stage t' = t_stage t;
  fr_now : t_now t' = t_now t;
  fr_timeout : t_timeout t' = t_timeout t;
  fr_tp : t_timeoutPromise t' = t_timeoutPromise t;
  fr_effects : exists extra, t_effects t' = t_effects t ++ extra /\ cleanupFree extra;
  fr_errors : quietErrors t -> quietErrors t';
  fr_timers :
    timersOwned t ->
    if reset
    then t_timers t' = [mkTimer (t_timeoutHandle t')
                          (t_now t + timerDelay (t_timeout t)) InactivityTimer]
    else t_timers t' = t_timers t /\ t_timeoutHandle t' = t_timeoutHandle t
}.

(** What holds of the timers and of the calls made, while the turn runs
    and once it is over. *)
Definition Good (t : Turn) : Prop :=
  match t_stage t with
  | AwaitHandshake _ | AwaitPrompt _ | AwaitDone =>
      timersOwned t /\ cleanupFree (t_effects t)
  | Returned _ | Threw _ =>
      t_timers t = [] /\ t_progress t = None
      /\ exists before, t_effects t = before ++ finallyEffects (t_timeoutHandle t)
                         /\ cleanupFree before
  | Uncaught => True
  end.

(** The promise [sendToAgent] is suspended on is pending. *)
Definition awaitsPending (t : Turn) : Prop :=
  match t_stage t with
  | AwaitHandshake p | AwaitPrompt p => commandPromise p (t_commands t) = Pending
  | AwaitDone => t_done t = Pending
  | _ => True
  end.

(** The state between two turns of the event loop, [q] milliseconds
    after the timer, of kind [k], was armed. *)
Record Shape (timeout q : Z) (k : timerKind) (t : Turn) : Prop := mkShape {
  sh_errors : quietErrors t;
  sh_timeout : t_timeout t = timeout;
  sh_tp : t_timeoutPromise t = Pending;
  sh_await : awaitsPending t;
  sh_timer : t_timers t
             = [mkTimer (t_timeoutHandle t) (t_now t - q + timerDelay timeout) k]
}.

Definition Inv (timeout q : Z) (k : timerKind) (t : Turn) : Prop :=
  0 <= q /\ (live t = true -> Shape timeout q k t).

(** * The rest of the program *)

(** ** The remaining commands: [ask] and [list] *)

(** [[0-9a-f]] under the flag [i]. *)
Definition isHexDigit (c : N) : bool :=
  ((48 <=? c) && (c <=? 57) || (97 <=? c) && (c <=? 102)
   || (65 <=? c) && (c <=? 70))%N.

(** [n] hexadecimal digits at the head of [s]: what follows them. *)
Fixpoint hexRun (n : nat) (s : jstring) : option jstring :=
  match n with
  | O => Some s
  | S n' =>
      match s with
      | c :: r => if isHexDigit c then hexRun n' r else None
      | [] => None
      end
  end.

(** Groups of hexadecimal digits of the given lengths, separated by
    dashes, and nothing else. *)
Fixpoint hexGroups (groups : list nat) (s : jstring) : bool :=
  match groups with
  | [] => false
  | n :: rest =>
      match rest with
      | [] => match hexRun n s with Some [] => true | _ => false end
      | _ :: _ =>
          match hexRun n s with
          | Some (c :: r) => (c =? 45)%N && hexGroups rest r
          | _ => false
          end
      end
  end.

(** [isUUID]: the test of
    [/^[0-9a-f]{8}-[0-9a-f]{4}-[0-9a-f]{4}-[0-9a-f]{4}-[0-9a-f]{12}$/i]. *)
Definition isUUID (str : jstring) : bool :=
  hexGroups [8; 4; 4; 4; 12]%nat str.

(** [s.padEnd(n)]: spaces are added up to the length [n]. *)
Definition padEnd (n : nat) (s : jstring) : jstring :=
  s ++ repeat 32%N (n - length s).

(** [s.endsWith(suffix)]. *)
Definition endsWith (suffix s : jstring) : bool :=
  (length suffix <=? length s)%nat
  && bool_decide (skipn (length s - length suffix) s = suffix).

(** What follows [prefix] in [s], when [s] starts with it. *)
Fixpoint stripPrefix (prefix s : jstring) : option jstring :=
  match prefix with
  | [] => Some s
  | p :: prefix' =>
      match s with
      | c :: s' => if (p =? c)%N then stripPrefix prefix' s' else None
      | [] => None
      end
  end.

(** [s.startsWith(prefix)]. *)
Definition startsWith (prefix s : jstring) : bool :=
  match stripPrefix prefix s with Some _ => true | None => false end.

(** The entry of the directory [dir] that a path lies in or is: the first
    segment after [dir]. *)
Definition entryOf (dir path : jstring) : option jstring :=
  match stripPrefix (dir ++ js "/") path with
  | Some rest => Some (hd [] (split 47%N rest))
  | None => None
  end.

(** [fs.readdirSync(dir)] for the sessions directory: the names of its
    entries, in an order of the system's choosing; it is logged as a read
    of the directory. *)
Definition readdirSync (dir : jstring) : M (list jstring) :=
  fun w =>
    if fs_dir (w_fs w)
    then (Ok (remove_dups
                (omap (entryOf dir) (List.map fst (map_to_list (fs_files (w_fs w)))))),
          logged (OpRead dir) w)
    else (Err (ENOENT dir), logged (OpRead dir) w).

(** [try { ... } catch { ... }]. *)
Definition catch {A} (body : M A) (handler : M A) : M A :=
  fun w => match body w with
           | (Ok a, w') => (Ok a, w')
           | (Err _, w') => handler w'
           end.

(** [interface AskOptions]. *)
Record AskOptions := mkAskOptions {
  ao_model : jstring;
  ao_thinking : option jstring;
  ao_tools : option jstring;
  ao_timeout : option Z
}.

(** What [await] gives: the value of a fulfilled promise, the exception
    of a rejected one, or nothing as long as the promise is pending. *)
Inductive thrown :=
| StoreError (e : error)
| TurnError (e : turnError).

Inductive awaited (A : Type) :=
| Fulfilled (a : A)
| Thrown (e : thrown)
| Unsettled.
Arguments Fulfilled {A} a.
Arguments Thrown {A} e.
Arguments Unsettled {A}.

(** The promise [sendToAgent] returned, for the turn as it stands. *)
Definition settled (t : Turn) : awaited SendResult :=
  match t_stage t with
  | Returned r => Fulfilled r
  | Threw e => Thrown (TurnError e)
  | AwaitHandshake _ | AwaitPrompt _ | AwaitDone | Uncaught => Unsettled
  end.

Section Commands.

Variable tmpdir : jstring.
Variable rt : Runtime.
Variable numToString : float -> jstring.
Variable stringify : json -> jstring.

(** [sendToAgent] on a value that is no record: what [spawn] does with
    arguments that are not strings is the runtime's. [cmdAsk] loads the
    record it has just saved and does not come there. *)
Variable foreignTurn : jstring -> json -> Z -> Turn.

(** The [finally] block of [cmdAsk], entered with the outcome of the
    [try] block: an exception of [cmdEnd] replaces that outcome. *)
Definition askFinally (nowEnd : Z) (sessionId : jstring)
    (outcome : awaited SendResult) (w : World) : awaited SendResult * World :=
  match cmdEnd tmpdir rt nowEnd sessionId w with
  | (Ok _, w') => (outcome, w')
  | (Err e, w') => (Thrown (StoreError e), w')
  end.

(** [cmdAsk]; [nowStart], [nowTurn] and [nowEnd] are what [Date.now()]
    returns in [cmdStart], at the start of [sendToAgent] and in
    [closeSession]; [trace] is what happens to the turn. When the promise
    of [cmdSend] is not settled, [cmdAsk] is still at its [await]. The
    world is the store of the sessions; what the turn does to the progress
    file and to the subordinate is recorded in the turn. *)
Definition cmdAsk (nowStart : Z) (uuid : jstring) (nowTurn : Z)
    (envBin : option jstring) (trace : list (N * input)) (nowEnd : Z)
    (message : jstring) (options : AskOptions) (w : World) :
    awaited SendResult * World :=
  match cmdStart tmpdir nowStart uuid
          (mkStartOptions (ao_model options) (ao_thinking options)
             (Some (orStr (ao_tools options) DEFAULT_TOOLS)) None) w with
  | (Err e, w1) => (Thrown (StoreError e), w1)
  | (Ok sessionId, w1) =>
      match cmdSend tmpdir rt
              (fun message info timeout =>
                 ret (match info with
                      | Saved info =>
                          sendToAgent numToString stringify nowTurn envBin message
                            info timeout trace
                      | Foreign v => foreignTurn message v timeout
                      end))
              message sessionId (ao_timeout options) w1 with
      | (Err e, w2) => askFinally nowEnd sessionId (Thrown (StoreError e)) w2
      | (Ok t, w2) =>
          match settled t with
          | Unsettled => (Unsettled, w2)
          | outcome => askFinally nowEnd sessionId outcome w2
          end
      end
  end.

(** The text of [Math.round((Date.now() - info.createdAt) / 1000 / 60)]
    in a template literal, for the two times: the arithmetic and the
    printing of numbers are the runtime's. *)
Variable ageText : Z -> Z -> jstring.

(** The line [cmdList] prints for a record. *)
Definition listLine (now : Z) (info : SessionInfo) : jstring :=
  let age := ageText now (si_createdAt info) in
  let idDisplay :=
    if isUUID (si_id info) then firstn 8 (si_id info) ++ js "..."
    else si_id info in
  let status := listStatus info in
  js "  " ++ padEnd 20 idDisplay ++ js "  " ++ padEnd 25 (si_model info)
  ++ js "  " ++ padEnd 8 status ++ js "  (" ++ age ++ js "m ago)".

(** The line [cmdList] prints for a value that is no record, when the
    computation of the line does not throw. It throws on [null], whose
    [createdAt] cannot be read, when a conversion throws, and when
    [idDisplay] or [info.model] has no [padEnd], which only strings have.
    [idDisplay] is a string when [info.id] is one, and when [info.id] is
    an array that converts to a UUID, of which [slice] then takes the
    first eight elements. *)
Definition foreignLine (now : Z) (v : json) : option jstring :=
  match v with
  | JNull => None
  | _ =>
      let idDisplay :=
        match prop v "id" with
        | Some (JStr id) => Some (if isUUID id then firstn 8 id ++ js "..." else id)
        | Some (JArr items) =>
            match toText (numberText rt) (JArr items) with
            | Some text =>
                if isUUID text
                then option_map (fun first => first ++ js "...")
                       (toText (numberText rt) (JArr (firstn 8 items)))
                else None
            | None => None
            end
        | _ => None
        end in
      let status := if isStr (prop v "status") "closed" then js "closed" else js "active" in
      match ageOf rt now (prop v "createdAt"), idDisplay, prop v "model" with
      | Some age, Some idDisplay, Some (JStr model) =>
          Some (js "  " ++ padEnd 20 idDisplay ++ js "  " ++ padEnd 25 model
                ++ js "  " ++ padEnd 8 status ++ js "  (" ++ age ++ js "m ago)")
      | _, _, _ => None
      end
  end.

(** The loop of [cmdList]: the lines printed for the files, a file being
    skipped when reading it, parsing it or computing its line throws;
    [now file] is what [Date.now()] returns when [file] is handled. *)
Fixpoint listFiles (now : jstring -> Z) (dir : jstring) (files : list jstring) :
    M (list jstring) :=
  match files with
  | [] => ret []
  | file :: rest =>
      let* printed :=
        catch
          (let* text := readFileSync (pathJoin dir file) in
           let* info := parseInfo rt (pathJoin dir file) text in
           match info with
           | Saved info => ret [listLine (now file) info]
           | Foreign v =>
               match foreignLine (now file) v with
               | Some line => ret [line]
               | None => throw StoreTypeError
               end
           end)
          (ret []) in
      let* more := listFiles now dir rest in
      ret (printed ++ more)
  end.

(** [cmdList]: the lines written to the standard output. *)
Definition cmdList (now : jstring -> Z) : M (list jstring) :=
  let* dir := getSessionDir tmpdir in
  let* entries := readdirSync dir in
  let files := List.filter (endsWith (js ".info.json")) entries in
  match files with
  | [] => ret [js "No sessions"]
  | _ :: _ =>
      let* rows := listFiles now dir files in
      ret (js "Sessions:" :: rows)
  end.

End Commands.

(** ** The command line *)

(** The options of [main] that take a value. *)
Inductive flag :=
| FlagModel | FlagSession | FlagThinking | FlagTools | FlagTimeout | FlagName.

(** The [case] labels of the option loop. *)
Definition flagOf (arg : jstring) : option flag :=
  if bool_decide (arg = js "--model") || bool_decide (arg = js "-m") then Some FlagModel
  else if bool_decide (arg = js "--session") || bool_decide (arg = js "-s")
  then Some FlagSession
  else if bool_decide (arg = js "--thinking") || bool_decide (arg = js "-t")
  then Some FlagThinking
  else if bool_decide (arg = js "--tools") then Some FlagTools
  else if bool_decide (arg = js "--timeout") then Some FlagTimeout
  else if bool_decide (arg = js "--name") || bool_decide (arg = js "-n") then Some FlagName
  else None.

(** The variable [timeout] of [main]: the number 300000, or
    [parseInt(arg, 10)] for the argument that follows [--timeout]
    ([undefined] when nothing follows); the number is left to the
    runtime. *)
Inductive timeoutValue :=
| DefaultTimeout
| ParseInt (arg : option jstring).

(** The variables the option loop assigns; a string variable is
    [undefined] ([None]) once its option came last, without a value. *)
Record CliOptions := mkCliOptions {
  cli_model : option jstring;
  cli_session : option jstring;
  cli_thinking : option jstring;
  cli_tools : option jstring;
  cli_timeout : timeoutValue;
  cli_name : option jstring;
  cli_messageArgs : list jstring
}.

Definition cliDefaults : CliOptions :=
  mkCliOptions (Some []) (Some []) (Some []) (Some []) DefaultTimeout (Some []) [].

(** [variable = restArgs[++i]] for the variable of the option. *)
Definition setOption (f : flag) (value : option jstring) (o : CliOptions) : CliOptions :=
  match f with
  | FlagModel =>
      mkCliOptions value (cli_session o) (cli_thinking o) (cli_tools o)
        (cli_timeout o) (cli_name o) (cli_messageArgs o)
  | FlagSession =>
      mkCliOptions (cli_model o) value (cli_thinking o) (cli_tools o)
        (cli_timeout o) (cli_name o) (cli_messageArgs o)
  | FlagThinking =>
      mkCliOptions (cli_model o) (cli_session o) value (cli_tools o)
        (cli_timeout o) (cli_name o) (cli_messageArgs o)
  | FlagTools =>
      mkCliOptions (cli_model o) (cli_session o) (cli_thinking o) value
        (cli_timeout o) (cli_name o) (cli_messageArgs o)
  | FlagTimeout =>
      mkCliOptions (cli_model o) (cli_session o) (cli_thinking o) (cli_tools o)
        (ParseInt value) (cli_name o) (cli_messageArgs o)
  | FlagName =>
      mkCliOptions (cli_model o) (cli_session o) (cli_thinking o) (cli_tools o)
        (cli_timeout o) value (cli_messageArgs o)
  end.

Definition setMessageArgs (messageArgs : list jstring) (o : CliOptions) : CliOptions :=
  mkCliOptions (cli_model o) (cli_session o) (cli_thinking o) (cli_tools o)
    (cli_timeout o) (cli_name o) messageArgs.

(** The option loop of [main], from the index it is at: the variables at
    the end of the loop, or the option that is not known, on which the
    process exits. *)
Fixpoint parseOptions (o : CliOptions) (restArgs : list jstring) :
    CliOptions + jstring :=
  match restArgs with
  | [] => inl o
  | arg :: rest =>
      match flagOf arg with
      | Some f =>
          match rest with
          | value :: rest' => parseOptions (setOption f (Some value) o) rest'
          | [] => inl (setOption f None o)
          end
      | None =>
          if negb (startsWith (js "-") arg) then inl (setMessageArgs restArgs o)
          else inr arg
      end
  end.

(** The command [main] calls, with its arguments. *)
Inductive call :=
| CallStart (options : StartOptions)
| CallSend (message session : jstring) (timeout : timeoutValue)
| CallEnd (session : jstring)
| CallPurge (session : jstring)
| CallAsk (message model : jstring) (thinking tools : option jstring)
    (timeout : timeoutValue)
| CallList.

(** What [main] does with the arguments, up to the command it calls:
    [printUsage] and an exit, a line on the standard error and the exit
    code 1, that line followed by [printUsage], or the call. *)
Inductive outcome :=
| PrintUsage (exitCode : Z)
| Failure (line : jstring)
| FailWithUsage (line : jstring)
| Run (c : call).

(** [args.includes(x)]. *)
Definition includes (x : jstring) (args : list jstring) : bool :=
  existsb (fun a => bool_decide (a = x)) args.

(** [main], for [args = process.argv.slice(2)]. *)
Definition main (args : list jstring) : outcome :=
  if (length args =? 0)%nat || includes (js "--help") args || includes (js "-h") args
  then PrintUsage (if (length args =? 0)%nat then 1 else 0)
  else
    let command := hd [] args in
    let restArgs := tl args in
    match parseOptions cliDefaults restArgs with
    | inr arg => Failure (js "Unknown option: " ++ arg)
    | inl o =>
        let message := join (js " ") (cli_messageArgs o) in
        if bool_decide (command = js "start") then
          match cli_model o with
          | Some model =>
              if truthyStr model
              then Run (CallStart (mkStartOptions model (cli_thinking o)
                                     (cli_tools o) (cli_name o)))
              else Failure (js "Error: --model is required for start")
          | None => Failure (js "Error: --model is required for start")
          end
        else if bool_decide (command = js "send") then
          match cli_session o with
          | Some session =>
              if truthyStr session then
                if truthyStr message
                then Run (CallSend message session (cli_timeout o))
                else Failure (js "Error: message is required for send")
              else Failure (js "Error: --session is required for send")
          | None => Failure (js "Error: --session is required for send")
          end
        else if bool_decide (command = js "end") then
          match cli_session o with
          | Some session =>
              if truthyStr session then Run (CallEnd session)
              else Failure (js "Error: --session is required for end")
          | None => Failure (js "Error: --session is required for end")
          end
        else if bool_decide (command = js "purge") then
          match cli_session o with
          | Some session =>
              if truthyStr session then Run (CallPurge session)
              else Failure (js "Error: --session is required for purge")
          | None => Failure (js "Error: --session is required for purge")
          end
        else if bool_decide (command = js "ask") then
          match cli_model o with
          | Some model =>
              if truthyStr model then
                if truthyStr message
                then Run (CallAsk message model (cli_thinking o) (cli_tools o)
                            (cli_timeout o))
                else Failure (js "Error: message is required for ask")
              else Failure (js "Error: --model is required for ask")
          | None => Failure (js "Error: --model is required for ask")
          end
        else if bool_decide (command = js "list") then Run CallList
        else FailWithUsage (js "Unknown command: " ++ command)
    end.

(** ** The listing, for the statements *)

(** The line [cmdList] prints for what a file holds, when it prints one:
    the line of the record, for a session document; for another text, the
    line of the value it parses to, when it parses and that line can be
    computed. *)
Definition lineOf (rt : Runtime) (ageText : Z -> Z -> jstring) (now : Z)
    (c : content) : option jstring :=
  match c with
  | InfoDoc info => Some (listLine ageText now info)
  | Bytes raw =>
      match jsonParse rt raw with
      | Some v => foreignLine rt now v
      | None => None
      end
  end.

(** What [cmdList] prints for a file of the directory. *)
Definition printedFor (rt : Runtime) (ageText : Z -> Z -> jstring) (now : jstring -> Z)
    (fs : gmap (list N) content) (dir file : jstring) : list jstring :=
  match fs !! pathJoin dir file with
  | Some c =>
      match lineOf rt ageText (now file) c with
      | Some line => [line]
      | None => []
      end
  | None => []
  end.

(** The file of the sessions directory that holds the record of an id. *)
Definition infoFileOf (sessionId : jstring) : jstring := sessionId ++ js ".info.json".

(** [options.timeout || 300000]. *)
Definition timeoutOr (timeout : option Z) : Z :=
  match timeout with
  | Some t => if t =? 0 then 300000 else t
  | None => 300000
  end.

(** The options [cmdAsk] starts its session with. *)
Definition askStartOptions (options : AskOptions) : StartOptions :=
  mkStartOptions (ao_model options) (ao_thinking options)
    (Some (orStr (ao_tools options) DEFAULT_TOOLS)) None.

(** A store in which the file of the id [moved] holds the record of the
    session [demo]: a metadata file that was renamed. *)
Definition renamedWorld : World :=
  mkWorld (mkFS true {[ infoPathOf (js "/tmp") (js "moved") := InfoDoc sampleInfo ]}) [].

(** A runtime for the samples: it parses the texts [{}] and [null] and the
    text of an object with the id [x] and the model [m], writes every
    value as [{}] and every number as [0], gives [NaN] for every age, and
    has no place for a name that is not plain. *)
Definition partialText : jstring :=
  [123; 34]%N ++ js "id" ++ [34; 58; 34]%N ++ js "x" ++ [34; 44; 34]%N ++ js "model"
  ++ [34; 58; 34]%N ++ js "m" ++ [34; 125]%N.

Definition sampleParse (raw : jstring) : option json :=
  if decide (raw = js "{}") then Some (JObj [])
  else if decide (raw = js "null") then Some JNull
  else if decide (raw = partialText)
  then Some (JObj [(js "id", JStr (js "x")); (js "model", JStr (js "m"))])
  else None.

Definition sampleRuntime : Runtime :=
  mkRuntime sampleParse sampleStringify sampleNumToString
    (fun _ _ => Some (js "NaN")) (fun _ _ => None).

(** [sendToAgent] is not run on values that are no records in the
    samples. *)
Definition noForeignTurn (message : jstring) (v : json) (timeout : Z) : Turn :=
  sendToAgentStart 0 None message sampleInfo timeout.

(** A store whose metadata file for the id [p] holds the text of an
    object with an id and a model only. *)
Definition partialWorld : World :=
  mkWorld (mkFS true {[ infoPathOf (js "/tmp") (js "p") := Bytes partialText ]}) [].

(** A store whose metadata file for the id [odd] holds the text [{}]. *)
Definition oddWorld : World :=
  mkWorld (mkFS true {[ infoPathOf (js "/tmp") (js "odd") := Bytes (js "{}") ]}) [].

(** A one-shot question, and a turn that answers it. *)
Definition sampleAsk : AskOptions := mkAskOptions (js "p:m") None None None.

Definition answered : list (N * input) :=
  acknowledged ++ [(10%N, Line (Some (agentEndEvent twoStepMessages)))].

(** ** The command line, for the statements *)

(** Options with their values, as they are written on the command line. *)
Definition written (pairs : list (jstring * jstring)) : list jstring :=
  flat_map (fun p => [fst p; snd p]) pairs.

(** The assignment an option and its value stand for. *)
Definition assign (o : CliOptions) (p : jstring * jstring) : CliOptions :=
  match flagOf (fst p) with
  | Some f => setOption f (Some (snd p)) o
  | None => o
  end.

(** The variables after the assignments, from left to right. *)
Definition assigned (pairs : list (jstring * jstring)) : CliOptions :=
  fold_left assign pairs cliDefaults.

Definition isFlag (arg : jstring) : bool :=
  match flagOf arg with Some _ => true | None => false end.

(** No argument asks for the usage. *)
Definition noHelp (args : list jstring) : bool :=
  negb (includes (js "--help") args) && negb (includes (js "-h") args).

(** What [main] checks before it calls a command. *)
Definition wellCalled (c : call) : Prop :=
  match c with
  | CallStart options => so_model options <> []
  | CallSend message session _ => message <> [] /\ session <> []
  | CallEnd session => session <> []
  | CallPurge session => session <> []
  | CallAsk message model _ _ _ => message <> [] /\ model <> []
  | CallList => True
  end.

(** The command name of a call. *)
Definition commandOf (c : call) : jstring :=
  match c with
  | CallStart _ => js "start"
  | CallSend _ _ _ => js "send"
  | CallEnd _ => js "end"
  | CallPurge _ => js "purge"
  | CallAsk _ _ _ _ _ => js "ask"
  | CallList => js "list"
  end.

(** ** The turn and the subordinate, for the statements *)

(** What reaches the subordinate process: its start and the lines
    written to its input. *)
Definition isWire (e : effect) : bool :=
  match e with
  | Spawn _ _ | StdinWrite _ => true
  | _ => false
  end.

Definition wire (t : Turn) : list effect := List.filter isWire (t_effects t).

(** The arguments [sendToAgent] gives to the subordinate for a record. *)
Definition piArgs (info : SessionInfo) : list jstring :=
  [js "--mode"; js "rpc"; js "--no-extensions";
   js "--provider"; si_provider info;
   js "--model"; si_modelId info;
   js "--session"; si_sessionFile info]
  ++ (match si_thinking info with
      | Some th => if truthyStr th then [js "--thinking"; th] else []
      | None => []
      end)
  ++ (if truthyStr (si_tools info) then [js "--tools"; si_tools info] else []).

(** The two lines of the protocol the turn writes. *)
Definition handshakeLine : effect := StdinWrite (GetState (reqName 1)).
Definition promptLine (message : jstring) : effect :=
  StdinWrite (Prompt (reqName 2) message).

Definition isAgentEnd (i : input) : bool :=
  match i with
  | Line (Some event) => isStr (prop event "type") "agent_end"
  | _ => false
  end.

(** The chunk of the diagnostic stream an input brings. *)
Definition stderrOf (i : input) : jstring :=
  match i with
  | StderrData chunk => chunk
  | _ => []
  end.

(** The id a [response] line answers, when it is a non-empty string. *)
Definition responseId (i : input) : option jstring :=
  match i with
  | Line (Some event) =>
      if isStr (prop event "type") "response" then
        match prop event "id" with
        | Some (JStr k) => if truthyStr k then Some k else None
        | _ => None
        end
      else None
  | _ => None
  end.

Section TurnStatements.

Variable numToString : float -> jstring.

(** The text a line adds to the streamed text: the [delta] of a
    [text_delta] update, converted to a string. *)
Definition streamedOf (i : input) : jstring :=
  match i with
  | Line (Some event) =>
      if isStr (prop event "type") "message_update"
         && isStr (getOpt (prop event "assistantMessageEvent") "type") "text_delta"
      then toStrOpt numToString (getOpt (prop event "assistantMessageEvent") "delta")
      else []
  | _ => []
  end.

(** The error of a [response] that reports a failure. *)
Definition failureOf (event : json) : turnError :=
  ErrorOf (toStr numToString (orElse (prop event "error") (JStr (js "Unknown error")))).

(** How a [response] settles the command it answers. *)
Definition responseOutcome (i : input) : promise (option json) :=
  match i with
  | Line (Some event) =>
      if negb (truthy (prop event "success")) then Rejected (failureOf event)
      else Resolved (prop event "data")
  | _ => Pending
  end.

End TurnStatements.

(** The streamed text and the diagnostic output a trace brings. *)
Definition streamed (numToString : float -> jstring) (trace : list (N * input)) : jstring :=
  flat_map (fun x => streamedOf numToString (snd x)) trace.

Definition diagnostics (trace : list (N * input)) : jstring :=
  flat_map (fun x => stderrOf (snd x)) trace.

(** The error of the timer of a kind. *)
Definition timeoutError (k : timerKind) (timeout : Z) (stderr : jstring) : turnError :=
  match k with
  | InitialTimer => TimeoutWaiting timeout stderr
  | InactivityTimer => TimeoutInactivity timeout stderr
  end.


(** Diagnostic output after the acknowledgments. *)
Definition complaining : list (N * input) :=
  acknowledged ++ [(10%N, StderrData (js "boom"))].

(** A [response] that reports the failure of the command [id]. *)
Definition failedResponse (id error : string) : json :=
  obj [("type", str "response"); ("id", str id); ("success", JBool false);
       ("error", str error)]%string.

(** A line that answers the command [id] with success. *)
Definition acknowledges (id : jstring) (i : input) : bool :=
  match i with
  | Line (Some event) =>
      isStr (prop event "type") "response"
      && match prop event "id" with
         | Some (JStr k) => bool_decide (k = id)
         | _ => false
         end
      && truthy (prop event "success")
  | _ => false
  end.

(** [sendToAgent] threw, or the host ended. *)
Definition failed (t : Turn) : bool :=
  match t_stage t with
  | Threw _ | Uncaught => true
  | _ => false
  end.

(** [sendToAgent] has not come to its third [await]. *)
Definition early (t : Turn) : Prop :=
  match t_stage t with
  | AwaitDone | Returned _ => False
  | _ => True
  end.

(** The event types the listener knows. *)
Definition isKnownType (event : json) : bool :=
  let type := prop event "type" in
  isStr type "response" || isStr type "message_update" || isStr type "message_end"
  || isStr type "tool_execution_start" || isStr type "tool_execution_update"
  || isStr type "tool_execution_end" || isStr type "agent_end"
  || isStr type "hook_error".

(** An [agent_end] whose list of messages holds [null]. *)
Definition agentEndWithNull : json :=
  agentEndEvent [assistantMessage 10 5 0.01 "Let me check."; JNull].

(** The progress file of a turn, as the turn last wrote it: as long as
    the turn runs it names the model and the start time of the turn,
    counts whole seconds between the start and now, and holds at most 100
    code units of tool arguments. *)
Definition progressKept (modelName : jstring) (start : Z) (t : Turn) : Prop :=
  t_modelName t = modelName /\ t_startTime t = start /\ start <= t_now t
  /\ (live t = true ->
      exists p,
        t_progress t = Some p /\ p_model p = modelName /\ p_startTime p = start
        /\ 0 <= p_elapsed p <= (t_now t - start) / 1000
        /\ match p_toolArgs p with
           | Some a => (length a <= 100)%nat
           | None => True
           end).

(** The commands and their waiters, along the stages: the command
    awaited is the only one in [pending] as long as its promise is
    pending, and what went to the subordinate is its start, the handshake
    and, once the handshake succeeded, the prompt. *)
Definition waiting (p : jstring) (t : Turn) : Prop :=
  In p (List.map fst (t_commands t))
  /\ (t_pending t = [p] /\ commandPromise p (t_commands t) = Pending
      \/ t_pending t = [] /\ commandPromise p (t_commands t) <> Pending).

Definition Proto (spawned : effect) (message : jstring) (t : Turn) : Prop :=
  t_message t = message
  /\ (t_finished t = true -> t_done t <> Pending)
  /\ match t_stage t with
     | AwaitHandshake p =>
         p = reqName 1 /\ t_reqId t = 1%nat /\ waiting p t
         /\ wire t = [spawned; handshakeLine]
     | AwaitPrompt p =>
         p = reqName 2 /\ waiting p t
         /\ wire t = [spawned; handshakeLine; promptLine message]
     | AwaitDone | Returned _ =>
         t_pending t = [] /\ wire t = [spawned; handshakeLine; promptLine message]
     | Threw _ | Uncaught =>
         wire t = [spawned; handshakeLine]
         \/ wire t = [spawned; handshakeLine; promptLine message]
     end.

(** What a listener does to the variables of the turn, for an input. *)
Record Handled (numToString : float -> jstring) (i : input) (t t' : Turn) : Prop :=
  mkHandled {
  hd_stage : t_stage t' = t_stage t;
  hd_now : t_now t' = t_now t;
  hd_message : t_message t' = t_message t;
  hd_model : t_modelName t' = t_modelName t;
  hd_start : t_startTime t' = t_startTime t;
  hd_reqId : t_reqId t' = t_reqId t;
  hd_wire : wire t' = wire t;
  hd_stderr : t_stderr t' = t_stderr t ++ stderrOf i;
  hd_text :
    isAgentEnd i = false ->
    t_responseText t' = t_responseText t ++ streamedOf numToString i;
  hd_pending :
    t_pending t' = match responseId i with
                   | Some k => mapDelete k (t_pending t)
                   | None => t_pending t
                   end;
  hd_commands :
    t_commands t' = match responseId i with
                    | Some k =>
                        if mapHas k (t_pending t)
                        then settleCommand k (responseOutcome numToString i) (t_commands t)
                        else t_commands t
                    | None => t_commands t
                    end;
  hd_progress :
    t_progress t' = t_progress t
    \/ exists k name args,
         t_progress t'
         = Some (mkProgress (t_modelName t) (t_startTime t) k name args
                   ((t_now t - t_startTime t) / 1000))
         /\ match args with
            | Some a => (length a <= 100)%nat
            | None => True
            end;
  hd_done : t_done t <> Pending -> t_done t' <> Pending;
  hd_finished : t_finished t' = true -> t_finished t = true \/ t_done t' <> Pending
}.

(** ** Triples over well-formed stores, for the invariants *)

(** From a well-formed store whose files satisfy [P], [m] ends in a
    well-formed store, whether it returns or throws; the value it returns
    and the files then satisfy [Q]. *)
Definition hoare {A : Type} (tmpdir : jstring) (P : gmap (list N) content -> Prop)
    (m : M A) (Q : A -> gmap (list N) content -> Prop) : Prop :=
  forall w r w',
    wellFormed tmpdir w -> P (fs_files (w_fs w)) -> m w = (r, w') ->
    wellFormed tmpdir w'
    /\ match r with
       | Ok a => Q a (fs_files (w_fs w'))
       | Err _ => True
       end.

(** * Properties *)

(** ** Strings *)

Lemma split_nonempty sep s : split sep s <> [].
Proof.
  destruct s as [|c r]; simpl; [discriminate|].
  destruct (N.eqb c sep); [discriminate|].
  destruct (split sep r); discriminate.
Qed.

Lemma split_length sep s :
  length (split sep s) = S (length (List.filter (N.eqb sep) s)).
Proof.
  induction s as [|c r IH]; simpl; [reflexivity|].
  rewrite (N.eqb_sym sep c).
  destruct (N.eqb c sep); simpl.
  - now rewrite IH.
  - destruct (split sep r) eqn:E; simpl in *; lia.
Qed.

Lemma filter_none_not_in sep (s : list N) :
  List.filter (N.eqb sep) s = [] <-> ~ In sep s.
Proof.
  induction s as [|c r IH]; simpl; [tauto|].
  destruct (N.eqb_spec sep c) as [->|Hne].
  - split; [discriminate|]. intros H. exfalso. apply H. now left.
  - rewrite IH. split.
    + intros H [Hc|Hr]; [congruence|tauto].
    + tauto.
Qed.

Lemma split_short_iff s :
  (length (split colon s) <? 2)%nat = true <-> ~ In colon s.
Proof.
  rewrite split_length, Nat.ltb_lt, <- filter_none_not_in.
  destruct (List.filter (N.eqb colon) s); simpl; split; intros; try lia; try reflexivity; try discriminate.
Qed.

Lemma split_first sep p rest :
  ~ In sep p -> split sep (p ++ sep :: rest) = p :: split sep rest.
Proof.
  induction p as [|c p IH]; simpl; intros Hn.
  - now rewrite N.eqb_refl.
  - destruct (N.eqb_spec c sep) as [->|Hne]; [exfalso; apply Hn; now left|].
    rewrite IH by tauto. reflexivity.
Qed.

Lemma join_split sep s : join [sep] (split sep s) = s.
Proof.
  induction s as [|c r IH]; simpl; [reflexivity|].
  destruct (N.eqb_spec c sep) as [->|Hne].
  - pose proof (split_nonempty sep r).
    destruct (split sep r) eqn:E; [congruence|]. simpl in *. now rewrite IH.
  - pose proof (split_nonempty sep r).
    destruct (split sep r) as [|p ps] eqn:E; [congruence|].
    simpl in *. destruct ps; simpl in *; now rewrite <- IH.
Qed.

(** ** The store *)

Arguments js : simpl never.
Arguments pathJoin : simpl never.
Arguments sessionDir : simpl never.

Section StoreFacts.
Variable tmpdir : list N.
Variable rt : Runtime.

Ltac run :=
  unfold cmdSend, cmdEnd, cmdPurge, cmdStart, purgeSession, closeSession, loadSessionInfo,
    saveSessionInfo, saveForeign, getSessionInfoPath, getSessionFilePath,
    getSessionDir, validateSessionId, validateSessionName, parseInfo,
    mkdirSync, existsSync, readFileSync, writeFileSync, unlinkSync,
    bind, ret, throw, logged; simpl.

Lemma purge_run id w :
  matchesIdRegex id = true ->
  exists w', purgeSession tmpdir id w = (Ok tt, w') /\
    w_fs w' = mkFS true (delete (filePathOf tmpdir id)
                           (delete (infoPathOf tmpdir id) (fs_files (w_fs w)))).
Proof.
  intros Hv. run. rewrite Hv. simpl.
  fold (infoPathOf tmpdir id). fold (filePathOf tmpdir id).
  destruct (fs_files (w_fs w) !! infoPathOf tmpdir id) eqn:Ei; simpl.
  - rewrite Ei. simpl.
    destruct (delete (infoPathOf tmpdir id) (fs_files (w_fs w)) !! filePathOf tmpdir id) eqn:Ef; simpl.
    + rewrite Ef. simpl. eexists; split; [reflexivity|]. reflexivity.
    + eexists; split; [reflexivity|]. simpl. f_equal. symmetry. now apply delete_id.
  - rewrite (delete_id _ _ Ei).
    destruct (fs_files (w_fs w) !! filePathOf tmpdir id) eqn:Ef; simpl.
    + rewrite Ef. simpl. eexists; split; [reflexivity|]. reflexivity.
    + eexists; split; [reflexivity|]. simpl. f_equal. symmetry. now apply delete_id.
Qed.

Lemma pathJoin_inj dir a b : pathJoin dir a = pathJoin dir b -> a = b.
Proof.
  unfold pathJoin. intros H. apply app_inv_head in H. now apply app_inv_head in H.
Qed.

Lemma infoPathOf_inj a b : infoPathOf tmpdir a = infoPathOf tmpdir b -> a = b.
Proof.
  unfold infoPathOf. intros H. apply pathJoin_inj in H. now apply app_inv_tail in H.
Qed.

Lemma load_invalid id w :
  matchesIdRegex id = false ->
  loadSessionInfo tmpdir rt id w = (Err (InvalidSessionId id), w).
Proof. intros Hv. run. now rewrite Hv. Qed.

Lemma close_invalid now id w :
  matchesIdRegex id = false ->
  closeSession tmpdir rt now id w = (Err (InvalidSessionId id), w).
Proof. intros Hv. run. now rewrite Hv. Qed.

Lemma purge_invalid id w :
  matchesIdRegex id = false ->
  purgeSession tmpdir id w = (Err (InvalidSessionId id), w).
Proof. intros Hv. run. now rewrite Hv. Qed.

Lemma close_run now id info w :
  matchesIdRegex id = true ->
  fs_files (w_fs w) !! infoPathOf tmpdir id = Some (InfoDoc info) ->
  exists w', closeSession tmpdir rt now id w = (Ok tt, w') /\
    w_fs w' = mkFS true (<[infoPathOf tmpdir (si_id info) := InfoDoc (closedInfo now info)]>
                           (fs_files (w_fs w))).
Proof.
  intros Hv Hl. run. rewrite Hv. simpl.
  fold (infoPathOf tmpdir id). rewrite Hl. simpl. rewrite Hl. simpl.
  eexists; split; reflexivity.
Qed.

Lemma close_missing now id w :
  matchesIdRegex id = true ->
  fs_files (w_fs w) !! infoPathOf tmpdir id = None ->
  exists w', closeSession tmpdir rt now id w = (Err (SessionNotFound id), w') /\
    fs_files (w_fs w') = fs_files (w_fs w).
Proof.
  intros Hv Hl. run. rewrite Hv. simpl.
  fold (infoPathOf tmpdir id). rewrite Hl. simpl.
  eexists; split; reflexivity.
Qed.

Lemma wellFormed_bytes w w' path raw :
  wellFormed tmpdir w ->
  w_fs w' = mkFS true (<[path := Bytes raw]> (fs_files (w_fs w))) ->
  wellFormed tmpdir w'.
Proof.
  intros [Hd Hi] F. split; rewrite F; simpl; [intros; reflexivity|].
  intros id' info' H.
  destruct (decide (path = infoPathOf tmpdir id')) as [->|n].
  - rewrite lookup_insert_eq in H. discriminate.
  - rewrite lookup_insert_ne in H by assumption. eauto.
Qed.

(** What [saveForeign] leaves: the files as they were, or with one text
    written. *)
Lemma save_foreign_files v w r w' :
  saveForeign tmpdir rt v w = (r, w') ->
  fs_dir (w_fs w') = true
  /\ (fs_files (w_fs w') = fs_files (w_fs w)
      \/ exists path, r = Ok tt
           /\ fs_files (w_fs w') = <[path := Bytes (jsonText rt v)]> (fs_files (w_fs w))).
Proof.
  unfold saveForeign, getSessionDir, bind, mkdirSync, logged. simpl.
  destruct (toTextOpt _ _) as [id|]; [|intros E; injection E as <- <-; simpl; tauto].
  destruct (plainName _).
  - unfold writeFileSync. simpl. intros E; injection E as <- <-; simpl.
    split; [reflexivity|]. right. eexists; split; reflexivity.
  - destruct (placeOf _ _ _) as [path|]; unfold writeFileSync, throw; simpl;
      intros E; injection E as <- <-; simpl; (split; [reflexivity|]).
    + right. eexists; split; reflexivity.
    + now left.
Qed.

(** What [closeSession] does on a metadata file that holds another text. *)
Lemma close_foreign now id raw w :
  matchesIdRegex id = true ->
  fs_files (w_fs w) !! infoPathOf tmpdir id = Some (Bytes raw) ->
  exists w0, fs_files (w_fs w0) = fs_files (w_fs w) /\ fs_dir (w_fs w0) = true
    /\ closeSession tmpdir rt now id w =
       match jsonParse rt raw with
       | None => (Err (JsonSyntaxError (infoPathOf tmpdir id)), w0)
       | Some v =>
           match closedValue now v with
           | None => (Err StoreTypeError, w0)
           | Some v' => saveForeign tmpdir rt v' w0
           end
       end.
Proof.
  intros Hv Hl.
  unfold closeSession, loadSessionInfo, getSessionInfoPath, getSessionDir,
    validateSessionId, parseInfo, closedValue, mkdirSync, existsSync, readFileSync,
    bind, ret, throw, logged.
  rewrite Hv. simpl. fold (infoPathOf tmpdir id). rewrite Hl. simpl. rewrite Hl.
  eexists (mkWorld (mkFS true (fs_files (w_fs w))) _). split; [reflexivity|].
  split; [reflexivity|].
  destruct (jsonParse rt raw) as [v|]; [|reflexivity].
  destruct (assignProp "status" _ v) as [v1|]; [|reflexivity].
  destruct (assignProp "closedAt" _ v1) as [v2|]; reflexivity.
Qed.

Lemma start_bad_model now uuid o w :
  ~ In colon (so_model o) ->
  cmdStart tmpdir now uuid o w = (Err (InvalidModelFormat (so_model o)), w).
Proof.
  intros Hc. apply split_short_iff in Hc. unfold cmdStart. now rewrite Hc.
Qed.

Lemma model_ok o : In colon (so_model o) -> (length (split colon (so_model o)) <? 2)%nat = false.
Proof.
  intros Hc. destruct (length (split colon (so_model o)) <? 2)%nat eqn:E; [|reflexivity].
  apply split_short_iff in E. tauto.
Qed.

Lemma start_unnamed now uuid o w :
  In colon (so_model o) -> nameGiven o = None ->
  exists w', cmdStart tmpdir now uuid o w = (Ok uuid, w') /\
    w_fs w' = mkFS true (<[infoPathOf tmpdir uuid := InfoDoc (startInfo tmpdir now uuid o)]>
                           (fs_files (w_fs w))).
Proof.
  intros Hc Hn. unfold cmdStart. rewrite (model_ok _ Hc).
  unfold nameGiven in Hn.
  destruct (so_name o) as [name|]; [destruct (truthyStr name); [discriminate|]|];
    run; eexists; split; reflexivity.
Qed.

Lemma start_named_invalid now uuid o name w :
  In colon (so_model o) -> nameGiven o = Some name ->
  matchesIdRegex name = false ->
  cmdStart tmpdir now uuid o w = (Err (InvalidSessionName name), w).
Proof.
  intros Hc Hn Hv. unfold cmdStart. rewrite (model_ok _ Hc).
  unfold nameGiven in Hn.
  destruct (so_name o) as [name'|]; [|discriminate].
  destruct (truthyStr name'); [|discriminate]. injection Hn as ->.
  run. now rewrite Hv.
Qed.

Lemma start_named_long now uuid o name w :
  In colon (so_model o) -> nameGiven o = Some name ->
  matchesIdRegex name = true -> (64 < length name)%nat ->
  cmdStart tmpdir now uuid o w = (Err (SessionNameTooLong name), w).
Proof.
  intros Hc Hn Hv Hl. unfold cmdStart. rewrite (model_ok _ Hc).
  unfold nameGiven in Hn.
  destruct (so_name o) as [name'|]; [|discriminate].
  destruct (truthyStr name'); [|discriminate]. injection Hn as ->.
  run. rewrite Hv. apply Nat.ltb_lt in Hl. now rewrite Hl.
Qed.

Lemma start_named_exists now uuid o name c w :
  In colon (so_model o) -> nameGiven o = Some name ->
  matchesIdRegex name = true -> (length name <= 64)%nat ->
  fs_files (w_fs w) !! infoPathOf tmpdir name = Some c ->
  exists w', cmdStart tmpdir now uuid o w = (Err (SessionExists name), w') /\
    fs_files (w_fs w') = fs_files (w_fs w).
Proof.
  intros Hc Hn Hv Hl He. unfold cmdStart. rewrite (model_ok _ Hc).
  unfold nameGiven in Hn.
  destruct (so_name o) as [name'|]; [|discriminate].
  destruct (truthyStr name'); [|discriminate]. injection Hn as ->.
  run. rewrite Hv. apply Nat.ltb_ge in Hl. rewrite Hl. simpl.
  fold (infoPathOf tmpdir name). rewrite He. simpl.
  eexists; split; reflexivity.
Qed.

Lemma start_named_fresh now uuid o name w :
  In colon (so_model o) -> nameGiven o = Some name ->
  matchesIdRegex name = true -> (length name <= 64)%nat ->
  fs_files (w_fs w) !! infoPathOf tmpdir name = None ->
  exists w', cmdStart tmpdir now uuid o w = (Ok name, w') /\
    w_fs w' = mkFS true (<[infoPathOf tmpdir name := InfoDoc (startInfo tmpdir now name o)]>
                           (fs_files (w_fs w))).
Proof.
  intros Hc Hn Hv Hl He. unfold cmdStart. rewrite (model_ok _ Hc).
  unfold nameGiven in Hn.
  destruct (so_name o) as [name'|]; [|discriminate].
  destruct (truthyStr name'); [|discriminate]. injection Hn as ->.
  run. rewrite Hv. apply Nat.ltb_ge in Hl. rewrite Hl. simpl.
  fold (infoPathOf tmpdir name). rewrite He. simpl.
  eexists; split; reflexivity.
Qed.

(** Every successful start stored [startInfo] under the returned id. *)
Lemma start_ok now uuid o w sessionId w' :
  cmdStart tmpdir now uuid o w = (Ok sessionId, w') ->
  w_fs w' = mkFS true (<[infoPathOf tmpdir sessionId :=
                           InfoDoc (startInfo tmpdir now sessionId o)]>
                         (fs_files (w_fs w))).
Proof.
  intros H.
  destruct (in_dec N.eq_dec colon (so_model o)) as [Hc|Hc];
    [|rewrite (start_bad_model _ _ _ _ Hc) in H; discriminate].
  destruct (nameGiven o) as [name|] eqn:Hn.
  - destruct (matchesIdRegex name) eqn:Hv;
      [|rewrite (start_named_invalid _ _ _ _ _ Hc Hn Hv) in H; discriminate].
    destruct (le_lt_dec (length name) 64) as [Hl|Hl];
      [|rewrite (start_named_long _ _ _ _ _ Hc Hn Hv Hl) in H; discriminate].
    destruct (fs_files (w_fs w) !! infoPathOf tmpdir name) as [c|] eqn:He.
    + destruct (start_named_exists now uuid _ _ _ w Hc Hn Hv Hl He) as (w1 & E & _).
      rewrite E in H. discriminate.
    + destruct (start_named_fresh now uuid _ _ w Hc Hn Hv Hl He) as (w1 & E & F).
      rewrite E in H. injection H as <- <-. exact F.
  - destruct (start_unnamed now uuid _ w Hc Hn) as (w1 & E & F).
    rewrite E in H. injection H as <- <-. exact F.
Qed.

End StoreFacts.

Lemma storedInfo_insert tmpdir id info (w w' : World) files :
  w_fs w' = mkFS true (<[infoPathOf tmpdir id := InfoDoc info]> files) ->
  storedInfo tmpdir id w' = Some info.
Proof. intros H. unfold storedInfo. rewrite H. simpl. now rewrite lookup_insert_eq. Qed.

Lemma nameGiven_some model th tools name :
  name <> [] -> nameGiven (mkStartOptions model th tools (Some name)) = Some name.
Proof. unfold nameGiven. simpl. destruct name; [congruence|reflexivity]. Qed.

Lemma start_never_bad_model_with_colon tmpdir now uuid o w m w' :
  In colon (so_model o) ->
  cmdStart tmpdir now uuid o w <> (Err (InvalidModelFormat m), w').
Proof.
  intros Hc H.
  destruct (nameGiven o) as [name|] eqn:Hn.
  - destruct (matchesIdRegex name) eqn:Hv;
      [|rewrite (start_named_invalid _ _ _ _ _ _ Hc Hn Hv) in H; discriminate].
    destruct (le_lt_dec (length name) 64) as [Hl|Hl];
      [|rewrite (start_named_long _ _ _ _ _ _ Hc Hn Hv Hl) in H; discriminate].
    destruct (fs_files (w_fs w) !! infoPathOf tmpdir name) as [c|] eqn:He.
    + destruct (start_named_exists tmpdir now uuid _ _ _ w Hc Hn Hv Hl He) as (w1 & E & _).
      rewrite E in H. discriminate.
    + destruct (start_named_fresh tmpdir now uuid _ _ w Hc Hn Hv Hl He) as (w1 & E & F).
      rewrite E in H. discriminate.
  - destruct (start_unnamed tmpdir now uuid _ w Hc Hn) as (w1 & E & F).
    rewrite E in H. discriminate.
Qed.

(** The commands keep the store well formed. *)

Section Preservation.
Variable tmpdir : list N.
Variable rt : Runtime.

Lemma wellFormed_empty : wellFormed tmpdir emptyWorld.
Proof. split; intros ? ? H; simpl in H; now rewrite lookup_empty in H. Qed.

Lemma wellFormed_insert w w' sessionId info :
  wellFormed tmpdir w -> si_id info = sessionId ->
  w_fs w' = mkFS true (<[infoPathOf tmpdir sessionId := InfoDoc info]> (fs_files (w_fs w))) ->
  wellFormed tmpdir w'.
Proof.
  intros [Hd Hi] Hid F. split; rewrite F; simpl; [intros; reflexivity|].
  intros id' info' H.
  destruct (decide (infoPathOf tmpdir sessionId = infoPathOf tmpdir id')) as [e|n].
  - rewrite e, lookup_insert_eq in H. injection H as <-.
    apply infoPathOf_inj in e. congruence.
  - rewrite lookup_insert_ne in H by assumption. eauto.
Qed.

Lemma wellFormed_start now uuid options w sessionId w' :
  wellFormed tmpdir w ->
  cmdStart tmpdir now uuid options w = (Ok sessionId, w') ->
  wellFormed tmpdir w'.
Proof.
  intros Hw H. apply start_ok in H.
  eapply wellFormed_insert; [exact Hw| |exact H]. reflexivity.
Qed.

Lemma wellFormed_end now sessionId w w' :
  wellFormed tmpdir w ->
  cmdEnd tmpdir rt now sessionId w = (Ok tt, w') ->
  wellFormed tmpdir w'.
Proof.
  intros Hw H. unfold cmdEnd in H.
  destruct (matchesIdRegex sessionId) eqn:Hv;
    [|rewrite close_invalid in H by assumption; discriminate].
  destruct (fs_files (w_fs w) !! infoPathOf tmpdir sessionId) as [[info|raw]|] eqn:Hl.
  - destruct (close_run tmpdir rt now _ _ w Hv Hl) as (w1 & E & F).
    rewrite E in H. injection H as <-.
    eapply wellFormed_insert; [exact Hw| |exact F]. reflexivity.
  - destruct (close_foreign tmpdir rt now _ _ w Hv Hl) as (w0 & F0 & D0 & E).
    rewrite E in H. destruct (jsonParse rt raw) as [v|]; [|discriminate].
    destruct (closedValue now v) as [v'|]; [|discriminate].
    apply save_foreign_files in H as [Hd [F|(path & _ & F)]].
    + destruct Hw as [_ Hi]. split; [intros; exact Hd|]. rewrite F, F0. exact Hi.
    + eapply wellFormed_bytes; [exact Hw|]. destruct (w_fs w'); simpl in *.
      subst. now rewrite F0.
  - destruct (close_missing tmpdir rt now _ w Hv Hl) as (w1 & E & _).
    rewrite E in H. discriminate.
Qed.

Lemma wellFormed_purge sessionId w w' :
  wellFormed tmpdir w ->
  cmdPurge tmpdir sessionId w = (Ok tt, w') ->
  wellFormed tmpdir w'.
Proof.
  intros [Hd Hi] H. unfold cmdPurge in H.
  destruct (matchesIdRegex sessionId) eqn:Hv;
    [|rewrite purge_invalid in H by assumption; discriminate].
  destruct (purge_run tmpdir _ w Hv) as (w1 & E & F).
  rewrite E in H. injection H as <-.
  split; rewrite F; simpl; [intros; reflexivity|].
  intros id' info' H. apply lookup_delete_Some in H as [_ H].
  apply lookup_delete_Some in H as [_ H]. eauto.
Qed.

End Preservation.

Lemma demoWorld_started :
  cmdStart (js "/tmp") 1700000000000 uuid0 demoOptions emptyWorld = (Ok (js "demo"), demoWorld).
Proof. vm_compute. reflexivity. Qed.

(** ** Claims about the store and the commands *)

(** Claim C5, amended. Every successful [start] persists a record without a
    [status] field and without [closedAt]; a record without a status is
    what [list] shows as active. *)
Theorem start_persists_record_without_status tmpdir now uuid options w sessionId w' :
  cmdStart tmpdir now uuid options w = (Ok sessionId, w') ->
  exists info,
    storedInfo tmpdir sessionId w' = Some info
    /\ si_status info = None
    /\ si_closedAt info = None
    /\ ~ In "status"%string (infoKeys info)
    /\ listStatus info = js "active".
Proof.
  intros H. apply start_ok in H.
  exists (startInfo tmpdir now sessionId options).
  split; [eapply storedInfo_insert; eassumption|].
  repeat split; try reflexivity.
  unfold infoKeys. simpl. destruct (so_thinking options); simpl; intuition discriminate.
Qed.

Lemma start_persists_record_without_status_witness :
  exists info,
    storedInfo (js "/tmp") (js "demo")
      (snd (cmdStart (js "/tmp") 1700000000000 uuid0
              (mkStartOptions (js "p:m") None None (Some (js "demo"))) emptyWorld))
    = Some info
    /\ si_status info = None
    /\ si_closedAt info = None
    /\ ~ In "status"%string (infoKeys info)
    /\ listStatus info = js "active".
Proof.
  apply (start_persists_record_without_status (js "/tmp") 1700000000000 uuid0
           (mkStartOptions (js "p:m") None None (Some (js "demo"))) emptyWorld (js "demo")).
  vm_compute. reflexivity.
Defined.

(** The claim as stated fails: the record [start -m p:m -n demo] persists on
    an empty store has no status [active]. *)
Lemma start_record_has_no_active_status :
  exists w' info,
    cmdStart (js "/tmp") 1700000000000 uuid0
      (mkStartOptions (js "p:m") None None (Some (js "demo"))) emptyWorld
    = (Ok (js "demo"), w')
    /\ storedInfo (js "/tmp") (js "demo") w' = Some info
    /\ si_status info <> Some (js "active").
Proof.
  eexists. eexists. split; [vm_compute; reflexivity|].
  split; [vm_compute; reflexivity|]. discriminate.
Qed.

(** Claim C6. For an existing session of a well-formed store, [end] called
    twice succeeds twice and leaves the store as a single [end] at the time
    of the second call does; the record keeps the same fields, with status
    [closed] and [closedAt] set (to the time of the latest call); the set
    of files, the sessions directory and every file other than the record,
    the transcript included, are as they were. *)
Theorem end_is_idempotent tmpdir rt t1 t2 sessionId info w :
  wellFormed tmpdir w ->
  matchesIdRegex sessionId = true ->
  storedInfo tmpdir sessionId w = Some info ->
  exists w1 w2 w2',
    cmdEnd tmpdir rt t1 sessionId w = (Ok tt, w1)
    /\ cmdEnd tmpdir rt t2 sessionId w1 = (Ok tt, w2)
    /\ cmdEnd tmpdir rt t2 sessionId w = (Ok tt, w2')
    /\ w_fs w2 = w_fs w2'
    /\ (t1 = t2 -> w_fs w2 = w_fs w1)
    /\ storedInfo tmpdir sessionId w1 = Some (closedInfo t1 info)
    /\ storedInfo tmpdir sessionId w2 = Some (closedInfo t2 info)
    /\ infoKeys (closedInfo t2 info) = infoKeys (closedInfo t1 info)
    /\ si_status (closedInfo t2 info) = Some (js "closed")
    /\ si_closedAt (closedInfo t2 info) = Some t2
    /\ dom (fs_files (w_fs w1)) = dom (fs_files (w_fs w))
    /\ dom (fs_files (w_fs w2)) = dom (fs_files (w_fs w))
    /\ fs_dir (w_fs w2) = fs_dir (w_fs w)
    /\ (forall path, path <> infoPathOf tmpdir sessionId ->
          fs_files (w_fs w2) !! path = fs_files (w_fs w) !! path).
Proof.
  intros [Hdir Hid] Hv Hs. unfold storedInfo in Hs.
  destruct (fs_files (w_fs w) !! infoPathOf tmpdir sessionId) as [[i|]|] eqn:Hl;
    try discriminate.
  injection Hs as ->.
  pose proof (Hid _ _ Hl) as Hi. pose proof (Hdir _ _ Hl) as Hd.
  unfold cmdEnd.
  destruct (close_run tmpdir rt t1 _ _ w Hv Hl) as (w1 & E1 & F1).
  destruct (close_run tmpdir rt t2 _ _ w Hv Hl) as (w2' & E2' & F2').
  rewrite Hi in F1, F2'.
  assert (Hl1 : fs_files (w_fs w1) !! infoPathOf tmpdir sessionId
                = Some (InfoDoc (closedInfo t1 info)))
    by (rewrite F1; simpl; apply lookup_insert_eq).
  destruct (close_run tmpdir rt t2 _ _ w1 Hv Hl1) as (w2 & E2 & F2).
  simpl in F2. rewrite Hi in F2.
  assert (F2eq : w_fs w2 = w_fs w2').
  { rewrite F2, F2', F1. simpl. f_equal. apply insert_insert_eq. }
  exists w1, w2, w2'. repeat split; try assumption; try reflexivity.
  - intros <-. rewrite F2eq, F2', F1. reflexivity.
  - unfold storedInfo. now rewrite Hl1.
  - unfold storedInfo. rewrite F2eq, F2'. simpl. now rewrite lookup_insert_eq.
  - rewrite F1. simpl. rewrite dom_insert_L.
    apply subseteq_union_1_L, singleton_subseteq_l. now apply elem_of_dom_2 in Hl.
  - rewrite F2eq, F2'. simpl. rewrite dom_insert_L.
    apply subseteq_union_1_L, singleton_subseteq_l. now apply elem_of_dom_2 in Hl.
  - rewrite F2eq, F2'. simpl. now rewrite Hd.
  - intros path Hp. rewrite F2eq, F2'. simpl. now rewrite lookup_insert_ne.
Qed.

Lemma end_is_idempotent_witness :
  (wellFormed (js "/tmp") demoWorld
   /\ matchesIdRegex (js "demo") = true
   /\ storedInfo (js "/tmp") (js "demo") demoWorld
      = Some (startInfo (js "/tmp") 1700000000000 (js "demo") demoOptions))
  /\ exists w1 w2,
       cmdEnd (js "/tmp") sampleRuntime 1700000000001 (js "demo") demoWorld = (Ok tt, w1)
       /\ cmdEnd (js "/tmp") sampleRuntime 1700000000002 (js "demo") w1 = (Ok tt, w2)
       /\ storedInfo (js "/tmp") (js "demo") w2
          = Some (closedInfo 1700000000002
                    (startInfo (js "/tmp") 1700000000000 (js "demo") demoOptions)).
Proof.
  assert (Hw : wellFormed (js "/tmp") demoWorld).
  { eapply wellFormed_start; [apply wellFormed_empty|apply demoWorld_started]. }
  assert (Hs : storedInfo (js "/tmp") (js "demo") demoWorld
               = Some (startInfo (js "/tmp") 1700000000000 (js "demo") demoOptions))
    by (vm_compute; reflexivity).
  split; [split; [exact Hw|split; [reflexivity|exact Hs]]|].
  destruct (end_is_idempotent (js "/tmp") sampleRuntime 1700000000001 1700000000002 (js "demo") _
              demoWorld Hw eq_refl Hs)
    as (w1 & w2 & w2' & E1 & E2 & _ & _ & _ & _ & S2 & _).
  exists w1, w2. repeat split; assumption.
Defined.

(** Claim C7, amended. An id that does not match [[A-Za-z0-9_-]+] is
    rejected with a validation error by load, send, end and purge, and a
    non-empty name that does not match it or is longer than 64 code units
    is rejected with a validation error by [start], each time before any
    call to the file system: the files and the log of [fs] calls are
    unchanged. *)
Theorem invalid_id_is_rejected_before_any_fs_access tmpdir rt s w :
  matchesIdRegex s = false \/ (64 < length s)%nat ->
  (matchesIdRegex s = false ->
     loadSessionInfo tmpdir rt s w = (Err (InvalidSessionId s), w)
     /\ (forall R (turn : jstring -> loaded -> Z -> M R) message timeout,
           cmdSend tmpdir rt turn message s timeout w = (Err (InvalidSessionId s), w))
     /\ (forall now, cmdEnd tmpdir rt now s w = (Err (InvalidSessionId s), w))
     /\ cmdPurge tmpdir s w = (Err (InvalidSessionId s), w))
  /\ (s <> [] ->
      forall now uuid model thinking tools,
      exists e,
        cmdStart tmpdir now uuid (mkStartOptions model thinking tools (Some s)) w
        = (Err e, w)
        /\ (e = InvalidModelFormat model \/ e = InvalidSessionName s
            \/ e = SessionNameTooLong s)).
Proof.
  intros Hbad. split.
  - intros Hv. split; [now apply load_invalid|].
    split; [|split].
    + intros R turn message timeout. unfold cmdSend, bind.
      now rewrite (load_invalid tmpdir rt s w Hv).
    + intros now. now apply close_invalid.
    + now apply purge_invalid.
  - intros Hne now uuid model thinking tools.
    set (o := mkStartOptions model thinking tools (Some s)).
    destruct (in_dec N.eq_dec colon model) as [Hc|Hc].
    + pose proof (nameGiven_some model thinking tools s Hne) as Hn.
      destruct (matchesIdRegex s) eqn:Hv.
      * destruct Hbad as [Hb|Hl]; [discriminate|].
        exists (SessionNameTooLong s). split; [|tauto].
        now apply (start_named_long tmpdir now uuid o s w).
      * exists (InvalidSessionName s). split; [|tauto].
        now apply (start_named_invalid tmpdir now uuid o s w).
    + exists (InvalidModelFormat model). split; [|tauto].
      now apply (start_bad_model tmpdir now uuid o w).
Qed.

Lemma invalid_id_is_rejected_before_any_fs_access_witness :
  (matchesIdRegex (js "a/../b") = false \/ (64 < length (js "a/../b"))%nat)
  /\ loadSessionInfo (js "/tmp") sampleRuntime (js "a/../b") emptyWorld
     = (Err (InvalidSessionId (js "a/../b")), emptyWorld).
Proof.
  split; [left; reflexivity|].
  apply (invalid_id_is_rejected_before_any_fs_access (js "/tmp") sampleRuntime (js "a/../b") emptyWorld);
    [left|]; reflexivity.
Defined.

(** The claim as stated fails on the empty string, which does not match
    the pattern: [start] with the name [""] is not rejected, it creates a
    session under the generated id. *)
Lemma start_with_empty_name_is_not_rejected :
  matchesIdRegex [] = false
  /\ exists w',
       cmdStart (js "/tmp") 1700000000000 uuid0
         (mkStartOptions (js "p:m") None None (Some [])) emptyWorld
       = (Ok uuid0, w')
       /\ w_log w' <> []
       /\ fs_files (w_fs w') !! infoPathOf (js "/tmp") uuid0 <> None.
Proof.
  split; [reflexivity|]. eexists. split; [vm_compute; reflexivity|].
  split; [discriminate|]. vm_compute. discriminate.
Qed.

(** Claim C8. With a well-formed model string and a valid name, [start]
    fails with the collision error when the metadata file of that name
    exists (an active session in particular), and creates no record: the
    files are unchanged. Uniqueness is checked there only: a [start]
    without a name whose generated id already has a record replaces that
    record. *)
Theorem start_name_collision tmpdir now uuid options name w :
  In colon (so_model options) ->
  nameGiven options = Some name ->
  matchesIdRegex name = true -> (length name <= 64)%nat ->
  is_Some (fs_files (w_fs w) !! infoPathOf tmpdir name) ->
  (exists w',
     cmdStart tmpdir now uuid options w = (Err (SessionExists name), w')
     /\ fs_files (w_fs w') = fs_files (w_fs w))
  /\ (forall unnamed,
        In colon (so_model unnamed) -> nameGiven unnamed = None ->
        exists w',
          cmdStart tmpdir now name unnamed w = (Ok name, w')
          /\ storedInfo tmpdir name w' = Some (startInfo tmpdir now name unnamed)).
Proof.
  intros Hc Hn Hv Hl [c He]. split.
  - now apply (start_named_exists tmpdir now uuid options name c w).
  - intros unnamed Hc' Hn'.
    destruct (start_unnamed tmpdir now name unnamed w Hc' Hn') as (w' & E & F).
    exists w'. split; [exact E|]. eapply storedInfo_insert; eassumption.
Qed.

Lemma start_name_collision_witness :
  (In colon (so_model demoOptions)
   /\ nameGiven demoOptions = Some (js "demo")
   /\ matchesIdRegex (js "demo") = true
   /\ (length (js "demo") <= 64)%nat
   /\ is_Some (fs_files (w_fs demoWorld) !! infoPathOf (js "/tmp") (js "demo")))
  /\ exists w',
       cmdStart (js "/tmp") 1700000000005 uuid0 demoOptions demoWorld
       = (Err (SessionExists (js "demo")), w')
       /\ fs_files (w_fs w') = fs_files (w_fs demoWorld).
Proof.
  assert (Hc : In colon (so_model demoOptions)) by (vm_compute; tauto).
  assert (Hl : (length (js "demo") <= 64)%nat) by (vm_compute; lia).
  assert (He : is_Some (fs_files (w_fs demoWorld) !! infoPathOf (js "/tmp") (js "demo")))
    by (vm_compute; eauto).
  split; [split; [exact Hc|split; [reflexivity|split; [reflexivity|split; [exact Hl|exact He]]]]|].
  exact (proj1 (start_name_collision (js "/tmp") 1700000000005 uuid0 demoOptions (js "demo")
                  demoWorld Hc eq_refl eq_refl Hl He)).
Defined.

(** Claim C9. For every valid id, [purge] succeeds whatever files exist;
    afterwards neither the metadata file nor the transcript of that id
    exists and every other file is as it was; a second [purge] succeeds and
    leaves the file system as the first one left it. *)
Theorem purge_is_total_and_idempotent tmpdir sessionId w :
  matchesIdRegex sessionId = true ->
  exists w1 w2,
    cmdPurge tmpdir sessionId w = (Ok tt, w1)
    /\ fs_files (w_fs w1) !! infoPathOf tmpdir sessionId = None
    /\ fs_files (w_fs w1) !! filePathOf tmpdir sessionId = None
    /\ (forall path, path <> infoPathOf tmpdir sessionId ->
          path <> filePathOf tmpdir sessionId ->
          fs_files (w_fs w1) !! path = fs_files (w_fs w) !! path)
    /\ cmdPurge tmpdir sessionId w1 = (Ok tt, w2)
    /\ w_fs w2 = w_fs w1.
Proof.
  intros Hv. unfold cmdPurge.
  destruct (purge_run tmpdir _ w Hv) as (w1 & E1 & F1).
  destruct (purge_run tmpdir _ w1 Hv) as (w2 & E2 & F2).
  exists w1, w2. split; [exact E1|].
  assert (Hi : fs_files (w_fs w1) !! infoPathOf tmpdir sessionId = None).
  { rewrite F1. simpl. rewrite lookup_delete_None. right. apply lookup_delete_eq. }
  assert (Hf : fs_files (w_fs w1) !! filePathOf tmpdir sessionId = None).
  { rewrite F1. simpl. apply lookup_delete_eq. }
  repeat split; try assumption.
  - intros path Hp1 Hp2. rewrite F1. simpl.
    rewrite lookup_delete_ne by congruence. now rewrite lookup_delete_ne by congruence.
  - rewrite F2. rewrite (delete_id _ _ Hi), (delete_id _ _ Hf).
    rewrite F1. reflexivity.
Qed.

Lemma purge_is_total_and_idempotent_witness :
  matchesIdRegex (js "demo") = true
  /\ exists w1 w2,
       cmdPurge (js "/tmp") (js "demo") demoWorld = (Ok tt, w1)
       /\ storedInfo (js "/tmp") (js "demo") w1 = None
       /\ cmdPurge (js "/tmp") (js "demo") w1 = (Ok tt, w2)
       /\ w_fs w2 = w_fs w1.
Proof.
  split; [reflexivity|].
  destruct (purge_is_total_and_idempotent (js "/tmp") (js "demo") demoWorld eq_refl)
    as (w1 & w2 & E1 & Hi & _ & _ & E2 & F).
  exists w1, w2. repeat split; try assumption.
  unfold storedInfo. now rewrite Hi.
Defined.

(** Claim C10. [start] rejects a model string for its format exactly when
    it contains no colon. The provider is what precedes the first colon and
    the model id what follows it, and either may be empty: [start] with
    ["p:"] succeeds and persists the empty model id, [start] with [":m"]
    succeeds and persists the empty provider. *)
Theorem model_format_only_requires_a_colon tmpdir now uuid thinking tools w :
  (forall options,
     cmdStart tmpdir now uuid options w = (Err (InvalidModelFormat (so_model options)), w)
     <-> ~ In colon (so_model options))
  /\ (forall provider modelId,
        ~ In colon provider ->
        exists w',
          cmdStart tmpdir now uuid
            (mkStartOptions (provider ++ colon :: modelId) thinking tools None) w
          = (Ok uuid, w')
          /\ exists info,
               storedInfo tmpdir uuid w' = Some info
               /\ si_provider info = provider /\ si_modelId info = modelId)
  /\ (exists w' info,
        cmdStart tmpdir now uuid (mkStartOptions (js "p:") thinking tools None) w
        = (Ok uuid, w')
        /\ storedInfo tmpdir uuid w' = Some info
        /\ si_provider info = js "p" /\ si_modelId info = [])
  /\ (exists w' info,
        cmdStart tmpdir now uuid (mkStartOptions (js ":m") thinking tools None) w
        = (Ok uuid, w')
        /\ storedInfo tmpdir uuid w' = Some info
        /\ si_provider info = [] /\ si_modelId info = js "m").
Proof.
  assert (General : forall provider modelId,
        ~ In colon provider ->
        exists w',
          cmdStart tmpdir now uuid
            (mkStartOptions (provider ++ colon :: modelId) thinking tools None) w
          = (Ok uuid, w')
          /\ exists info,
               storedInfo tmpdir uuid w' = Some info
               /\ si_provider info = provider /\ si_modelId info = modelId).
  { intros provider modelId Hp.
    set (o := mkStartOptions (provider ++ colon :: modelId) thinking tools None).
    assert (Hc : In colon (so_model o)) by (simpl; apply in_or_app; right; now left).
    destruct (start_unnamed tmpdir now uuid o w Hc eq_refl) as (w' & E & F).
    exists w'. split; [exact E|].
    exists (startInfo tmpdir now uuid o).
    split; [eapply storedInfo_insert; eassumption|].
    unfold startInfo, o. simpl. rewrite (split_first colon provider modelId Hp).
    simpl. split; [reflexivity|apply join_split]. }
  split; [|split; [exact General|split]].
  - intros options. split.
    + intros H Hc. revert H. now apply start_never_bad_model_with_colon.
    + apply start_bad_model.
  - destruct (General (js "p") []) as (w' & E & info & Hs & Hp & Hm).
    { vm_compute. intros [H|[]]. discriminate. }
    exists w', info. repeat split; assumption.
  - destruct (General [] (js "m")) as (w' & E & info & Hs & Hp & Hm).
    { intros []. }
    exists w', info. repeat split; assumption.
Qed.

Lemma model_format_only_requires_a_colon_witness :
  ~ In colon (js "nocolon")
  /\ cmdStart (js "/tmp") 0 uuid0 (mkStartOptions (js "nocolon") None None None) emptyWorld
     = (Err (InvalidModelFormat (js "nocolon")), emptyWorld).
Proof.
  assert (H : ~ In colon (js "nocolon")).
  { apply filter_none_not_in. reflexivity. }
  split; [exact H|].
  apply (proj1 (model_format_only_requires_a_colon (js "/tmp") 0 uuid0 None None emptyWorld)
               (mkStartOptions (js "nocolon") None None None)).
  exact H.
Defined.

(** ** Usage *)

Section UsageFacts.
Variable numToString : float -> list N.

Lemma add_field a v :
  numericField v = true ->
  jsAdd numToString (JNum a) (orElse v (JNum 0)) = JNum (a + numberOrZero v).
Proof.
  destruct v as [[| [] | x | s | items | props]|]; simpl; try discriminate; try reflexivity.
  - intros _. destruct (is_zero x || is_nan x); reflexivity.
  - destruct s; simpl; [reflexivity|discriminate].
Qed.

Lemma usageStep_typed a b c msg :
  usageTyped msg = true ->
  usageStep numToString (mkUsage (JNum a) (JNum b) (JNum c)) msg
  = Normal (if countsUsage msg
            then mkUsage (JNum (a + inputOf msg)) (JNum (b + outputOf msg))
                   (JNum (c + costOf msg))
            else mkUsage (JNum a) (JNum b) (JNum c)).
Proof.
  intros Ht. unfold usageStep, usageTyped in *. fold (countsUsage msg).
  destruct msg; try discriminate;
    destruct (countsUsage _) eqn:Hc; try reflexivity.
  apply andb_prop in Ht as [Ht H3]. apply andb_prop in Ht as [H1 H2].
  cbn [u_input u_output u_cost]. unfold inputOf, outputOf, costOf.
  now rewrite !add_field by assumption.
Qed.

Lemma usageLoop_typed msgs : forall a b c,
  Forall (fun msg => usageTyped msg = true) msgs ->
  usageLoop numToString (mkUsage (JNum a) (JNum b) (JNum c)) msgs
  = Normal (mkUsage
      (JNum (fold_left (fun acc msg => (acc + inputOf msg)%float)
               (List.filter countsUsage msgs) a))
      (JNum (fold_left (fun acc msg => (acc + outputOf msg)%float)
               (List.filter countsUsage msgs) b))
      (JNum (fold_left (fun acc msg => (acc + costOf msg)%float)
               (List.filter countsUsage msgs) c))).
Proof.
  induction msgs as [|msg rest IH]; intros a b c Ht; [reflexivity|].
  inversion Ht as [|? ? Hm Hr]; subst.
  cbn [usageLoop]. rewrite (usageStep_typed _ _ _ _ Hm). cbn [List.filter].
  destruct (countsUsage msg); cbn [fold_left]; now apply IH.
Qed.


End UsageFacts.

(** ** Trimming *)

Lemma trimStart_blank s : isBlank s = true -> trimStart s = [].
Proof.
  induction s as [|c r IH]; simpl; [reflexivity|].
  destruct (isWhiteSpace c); simpl; [exact IH|discriminate].
Qed.

Lemma trimStart_nil_blank s : trimStart s = [] -> isBlank s = true.
Proof.
  induction s as [|c r IH]; simpl; [reflexivity|].
  destruct (isWhiteSpace c); simpl; [exact IH|discriminate].
Qed.

Lemma trimStart_head s c r : trimStart s = c :: r -> isWhiteSpace c = false.
Proof.
  induction s as [|c' r' IH]; simpl; [discriminate|].
  destruct (isWhiteSpace c') eqn:E; [exact IH|]. intros H. injection H as -> ->. exact E.
Qed.

Lemma trimStart_idem s : trimStart (trimStart s) = trimStart s.
Proof.
  destruct (trimStart s) as [|c r] eqn:E; [reflexivity|].
  simpl. now rewrite (trimStart_head _ _ _ E).
Qed.


Lemma isBlank_rev s : isBlank (rev s) = isBlank s.
Proof.
  unfold isBlank. induction s as [|c r IH]; simpl; [reflexivity|].
  rewrite forallb_app, IH. simpl. rewrite andb_true_r. apply andb_comm.
Qed.

Lemma trim_nil_iff s : trim s = [] <-> isBlank s = true.
Proof.
  unfold trim, trimEnd. split.
  - intros H. apply (f_equal (@rev N)) in H. rewrite rev_involutive in H. simpl in H.
    apply trimStart_nil_blank in H. rewrite isBlank_rev in H.
    destruct (trimStart s) as [|c r] eqn:E; [now apply trimStart_nil_blank|].
    simpl in H. now rewrite (trimStart_head _ _ _ E) in H.
  - intros H. now rewrite (trimStart_blank _ H).
Qed.

Lemma trimEnd_trim s : trimEnd (trim s) = trim s.
Proof.
  unfold trim, trimEnd. now rewrite rev_involutive, trimStart_idem.
Qed.






(** What is stripped of a text is determined by the text. *)
Lemma stripped_unique s r1 r2 : strippedOf s r1 -> strippedOf s r2 -> r1 = r2.
Proof.
  intros (l1 & t1 & E1 & Bl1 & Bt1 & H1 & L1) (l2 & t2 & E2 & Bl2 & Bt2 & H2 & L2).
  assert (S1 : forall l r t, isBlank l = true ->
                 (forall c rest, r = c :: rest -> isWhiteSpace c = false) ->
                 r <> [] -> trimStart (l ++ r ++ t) = r ++ t).
  { intros l r t Bl Hh Hne. induction l as [|c l IH]; simpl.
    - destruct r as [|c rest]; [contradiction|]. simpl. now rewrite (Hh c rest eq_refl).
    - simpl in Bl. apply andb_prop in Bl as [-> Bl]. now apply IH. }
  assert (S2 : forall r t, isBlank t = true ->
                 (forall rest c, r = rest ++ [c] -> isWhiteSpace c = false) ->
                 r <> [] -> trimEnd (r ++ t) = r).
  { intros r t Bt Hl Hne. unfold trimEnd. rewrite rev_app_distr.
    destruct (exists_last Hne) as (rest & c & ->).
    replace (rev t ++ rev (rest ++ [c])) with (rev t ++ rev (rest ++ [c]) ++ [])
      by now rewrite app_nil_r.
    rewrite S1.
    - now rewrite app_nil_r, rev_involutive.
    - now rewrite isBlank_rev.
    - intros d q Hq. rewrite rev_app_distr in Hq. simpl in Hq. injection Hq as <- _.
      now apply (Hl rest).
    - rewrite rev_app_distr. discriminate. }
  assert (S3 : forall l r t, isBlank l = true -> isBlank t = true ->
                 (forall c rest, r = c :: rest -> isWhiteSpace c = false) ->
                 (forall rest c, r = rest ++ [c] -> isWhiteSpace c = false) ->
                 trim (l ++ r ++ t) = r).
  { intros l r t Bl Bt Hh Hl. destruct r as [|c rest] eqn:Er.
    - simpl. apply trim_nil_iff. unfold isBlank in *. rewrite forallb_app. now rewrite Bl, Bt.
    - rewrite <- Er in *. unfold trim. rewrite S1; try assumption; [|now rewrite Er].
      apply S2; try assumption. now rewrite Er. }
  rewrite <- (S3 l1 r1 t1), <- (S3 l2 r2 t2); try assumption. now rewrite <- E1, <- E2.
Qed.

(** ** Text extraction *)

Section TextFacts.
Variable numToString : float -> list N.







End TextFacts.



(** ** Frames of the listeners *)

Ltac destruct_turn t :=
  destruct t as [now0 message0 timeout0 modelName0 startTime0 stderr0
                 responseText0 usage0 agentMessages0 finished0 reqId0 pending0
                 commands0 done0 timeoutPromise0 timers0 nextHandle0
                 timeoutHandle0 progress0 effects0 stage0].

Lemma filter_owned (l : list timer) h :
  (forall tm, In tm l -> tm_handle tm = h) ->
  List.filter (fun tm => negb (tm_handle tm =? h)%nat) l = [].
Proof.
  induction l as [|tm l IH]; intros Ho; [reflexivity|]. simpl.
  rewrite (Ho tm (or_introl eq_refl)), Nat.eqb_refl. simpl.
  apply IH. intros tm' H. apply Ho. now right.
Qed.

Lemma settleCommand_quiet k (o : promise (option json)) cs :
  quietPromise o ->
  Forall (fun c => quietPromise (snd c)) cs ->
  Forall (fun c => quietPromise (snd c)) (settleCommand k o cs).
Proof.
  intros Ho. induction 1 as [|[id p] rest Hp Hr IH]; simpl; [constructor|].
  destruct (decide (id = k)).
  - constructor; [|assumption]. simpl in *. now destruct p.
  - constructor; assumption.
Qed.

Lemma commandPromise_quiet p cs :
  Forall (fun c => quietPromise (snd c)) cs -> quietPromise (commandPromise p cs).
Proof.
  induction 1 as [|[id q] rest Hq Hr IH]; simpl; [exact I|].
  destruct (decide (id = p)); assumption.
Qed.

Lemma isStr_excl v a b : isStr v a = true -> js a <> js b -> isStr v b = false.
Proof.
  destruct v as [[| | |s| |]|]; simpl; try discriminate.
  intros Ha Hne. apply bool_decide_eq_true in Ha. subst s.
  now apply bool_decide_eq_false.
Qed.

(** Once one literal is known to match, the tests against the other
    literals are rewritten to [false]. *)
Ltac excl E :=
  match type of E with
  | isStr ?v ?a = true =>
      rewrite ?E;
      repeat match goal with
        | |- context [isStr v ?b] =>
            rewrite (isStr_excl v a b E) by (vm_compute; discriminate)
        end
  end.

Section TurnFacts.
Variable numToString : float -> list N.
Variable stringify : json -> list N.

Lemma Frame_refl t : Frame false t t.
Proof.
  constructor; try reflexivity; try tauto.
  exists []. rewrite app_nil_r. split; [reflexivity|constructor].
Qed.

Lemma timersOwned_frame r t t' : Frame r t t' -> timersOwned t -> timersOwned t'.
Proof.
  intros F Ho. pose proof (fr_timers _ _ _ F Ho) as H. destruct r.
  - intros tm. rewrite H. intros [<-|[]]. reflexivity.
  - destruct H as [E1 E2]. intros tm. rewrite E1, E2. apply Ho.
Qed.

Lemma Frame_trans r1 r2 t1 t2 t3 :
  Frame r1 t1 t2 -> Frame r2 t2 t3 -> Frame (r1 || r2) t1 t3.
Proof.
  intros F G. constructor.
  - now rewrite (fr_stage _ _ _ G), (fr_stage _ _ _ F).
  - now rewrite (fr_now _ _ _ G), (fr_now _ _ _ F).
  - now rewrite (fr_timeout _ _ _ G), (fr_timeout _ _ _ F).
  - now rewrite (fr_tp _ _ _ G), (fr_tp _ _ _ F).
  - destruct (fr_effects _ _ _ F) as (e1 & E1 & C1).
    destruct (fr_effects _ _ _ G) as (e2 & E2 & C2).
    exists (e1 ++ e2). rewrite E2, E1, app_assoc. split; [reflexivity|].
    now apply Forall_app.
  - intros Q. apply (fr_errors _ _ _ G), (fr_errors _ _ _ F), Q.
  - intros Ho. pose proof (timersOwned_frame _ _ _ F Ho) as Ho2.
    pose proof (fr_timers _ _ _ F Ho) as H1. pose proof (fr_timers _ _ _ G Ho2) as H2.
    destruct r2.
    + rewrite orb_true_r, H2, (fr_now _ _ _ F), (fr_timeout _ _ _ F). reflexivity.
    + rewrite orb_false_r. destruct H2 as [E1 E2]. destruct r1.
      * rewrite E1, E2. exact H1.
      * destruct H1. split; congruence.
Qed.

Lemma Frame_eq r r' t t' : Frame r t t' -> r = r' -> Frame r' t t'.
Proof. now intros F <-. Qed.

Ltac frame_fields :=
  constructor; try reflexivity; try tauto;
  exists []; rewrite app_nil_r; split; [reflexivity|constructor].

Lemma Frame_responseText v t : Frame false t (set_responseText v t).
Proof. destruct_turn t. frame_fields. Qed.
Lemma Frame_usage v t : Frame false t (set_usage v t).
Proof. destruct_turn t. frame_fields. Qed.
Lemma Frame_agentMessages v t : Frame false t (set_agentMessages v t).
Proof. destruct_turn t. frame_fields. Qed.
Lemma Frame_finished v t : Frame false t (set_finished v t).
Proof. destruct_turn t. frame_fields. Qed.
Lemma Frame_pending v t : Frame false t (set_pending v t).
Proof. destruct_turn t. frame_fields. Qed.
Lemma Frame_stderr v t : Frame false t (set_stderr v t).
Proof. destruct_turn t. frame_fields. Qed.

Lemma Frame_settle k o t :
  quietPromise o ->
  Frame false t (set_commands (settleCommand k o (t_commands t)) t).
Proof.
  intros Ho. destruct_turn t. constructor; try reflexivity; try tauto.
  - exists []. rewrite app_nil_r. split; [reflexivity|constructor].
  - unfold quietErrors. simpl. intros [Q1 Q2]. split; [exact Q1|].
    now apply settleCommand_quiet.
Qed.

Lemma Frame_rejectDone e t :
  isTimeoutError e = false -> Frame false t (rejectDone e t).
Proof.
  intros He. destruct_turn t. constructor; try reflexivity; try tauto.
  - exists []. rewrite app_nil_r. split; [reflexivity|constructor].
  - unfold quietErrors. simpl. intros [Q1 Q2]. split; [|exact Q2].
    destruct done0; simpl; assumption.
Qed.

Lemma Frame_resolveDone t : Frame false t (resolveDone t).
Proof.
  destruct_turn t. constructor; try reflexivity; try tauto.
  - exists []. rewrite app_nil_r. split; [reflexivity|constructor].
  - unfold quietErrors. simpl. intros [Q1 Q2]. split; [|exact Q2].
    destruct done0; simpl; trivial.
Qed.

Lemma Frame_writeProgress k n a t : Frame false t (writeProgress k n a t).
Proof.
  destruct_turn t. constructor; try reflexivity; try tauto.
  eexists. split; [reflexivity|]. repeat constructor.
Qed.

Lemma Frame_resetTimeout t : Frame true t (resetTimeout t).
Proof.
  destruct_turn t. constructor; try reflexivity; try tauto.
  - eexists. unfold resetTimeout, setTimeout, clearTimeout, emit. simpl.
    rewrite <- app_assoc. split; [reflexivity|]. repeat constructor.
  - intros Ho. unfold timersOwned in Ho. simpl in Ho.
    unfold resetTimeout, setTimeout, clearTimeout, emit. simpl.
    now rewrite (filter_owned _ _ Ho).
Qed.

(** Builds [Frame ?r t X] along the nesting of [X]. *)
Ltac frame :=
  lazymatch goal with
  | |- Frame _ ?t ?t => apply Frame_refl
  | |- Frame _ ?t (writeProgress ?k ?n ?a ?u) =>
      eapply (Frame_trans _ _ t u); [frame | apply Frame_writeProgress]
  | |- Frame _ ?t (resetTimeout ?u) =>
      eapply (Frame_trans _ _ t u); [frame | apply Frame_resetTimeout]
  | |- Frame _ ?t (rejectDone ?e ?u) =>
      eapply (Frame_trans _ _ t u); [frame | apply Frame_rejectDone; reflexivity]
  | |- Frame _ ?t (resolveDone ?u) =>
      eapply (Frame_trans _ _ t u); [frame | apply Frame_resolveDone]
  | |- Frame _ ?t (set_responseText ?v ?u) =>
      eapply (Frame_trans _ _ t u); [frame | apply Frame_responseText]
  | |- Frame _ ?t (set_usage ?v ?u) =>
      eapply (Frame_trans _ _ t u); [frame | apply Frame_usage]
  | |- Frame _ ?t (set_agentMessages ?v ?u) =>
      eapply (Frame_trans _ _ t u); [frame | apply Frame_agentMessages]
  | |- Frame _ ?t (set_finished ?v ?u) =>
      eapply (Frame_trans _ _ t u); [frame | apply Frame_finished]
  | |- Frame _ ?t (set_pending ?v ?u) =>
      eapply (Frame_trans _ _ t u); [frame | apply Frame_pending]
  | |- Frame _ ?t (set_commands (settleCommand ?k ?o (t_commands ?u)) ?u) =>
      eapply (Frame_trans _ _ t u); [frame | apply Frame_settle; exact I || reflexivity]
  | |- Frame _ ?t (set_stderr ?v ?u) =>
      eapply (Frame_trans _ _ t u); [frame | apply Frame_stderr]
  end.

(** Solves [Frame b t X] for a closed boolean [b]. *)
Ltac framed := eapply Frame_eq; [frame | reflexivity].

Lemma Frame_onResponse event t : Frame false t (onResponse numToString event t).
Proof.
  unfold onResponse. cbv zeta.
  destruct (truthy (prop event "id")); [destruct (prop event "id") as [[| | |k| |]|]|];
    try destruct (mapHas k (t_pending t));
    destruct (negb (truthy (prop event "success"))); framed.
Qed.

Lemma Frame_onMessageUpdate event t :
  Frame (isStr (getOpt (prop event "assistantMessageEvent") "type") "text_delta"
         || isStr (getOpt (prop event "assistantMessageEvent") "type") "thinking_delta")
    t (onMessageUpdate numToString event t).
Proof.
  unfold onMessageUpdate. cbv zeta.
  destruct (isStr _ "text_delta"); destruct (isStr _ "thinking_delta");
    destruct (isStr _ "error"); framed.
Qed.

Lemma Frame_onMessageEnd event t : Frame false t (onMessageEnd numToString event t).
Proof. unfold onMessageEnd. cbv zeta. destruct (truthy _); framed. Qed.

Lemma Frame_onToolStart event t : Frame true t (onToolStart stringify event t).
Proof. unfold onToolStart. framed. Qed.

Lemma Frame_onAgentEnd event t t' :
  onAgentEnd numToString event t = Normal t' -> Frame false t t'.
Proof.
  unfold onAgentEnd. cbv zeta.
  destruct (iterate _); [|discriminate].
  destruct (usageLoop _ _ _); [|discriminate].
  intros H. injection H as <-. destruct (decide _); framed.
Qed.

Lemma Frame_onLine event t t' :
  onLine numToString stringify event t = Normal t' -> Frame (isActivity event) t t'.
Proof.
  unfold onLine, isActivity. cbv zeta.
  assert (Hnull : event = JNull -> prop event "type" = None) by now intros ->.
  destruct (isStr (prop event "type") "response") eqn:E1.
  { excl E1. destruct event; try discriminate; intros H; injection H as <-;
      apply Frame_onResponse. }
  destruct (isStr (prop event "type") "message_update") eqn:E2.
  { excl E2. destruct event; try discriminate; intros H; injection H as <-.
    eapply Frame_eq; [apply Frame_onMessageUpdate|].
    cbn [andb orb]. now rewrite !orb_false_r. }
  destruct (isStr (prop event "type") "message_end") eqn:E3.
  { excl E3. destruct event; try discriminate; intros H; injection H as <-;
      apply Frame_onMessageEnd. }
  destruct (isStr (prop event "type") "tool_execution_start") eqn:E4.
  { excl E4. destruct event; try discriminate; intros H; injection H as <-;
      apply Frame_onToolStart. }
  destruct (isStr (prop event "type") "tool_execution_update") eqn:E5.
  { excl E5. destruct event; try discriminate; intros H; injection H as <-;
      apply Frame_resetTimeout. }
  destruct (isStr (prop event "type") "tool_execution_end") eqn:E6.
  { excl E6. destruct event; try discriminate; intros H; injection H as <-;
      apply Frame_resetTimeout. }
  cbn [andb orb].
  destruct (isStr (prop event "type") "agent_end") eqn:E7.
  { destruct event; try discriminate; apply Frame_onAgentEnd. }
  destruct (isStr (prop event "type") "hook_error") eqn:E8.
  { destruct event; try discriminate; intros H; injection H as <-;
      apply Frame_rejectDone; reflexivity. }
  destruct event; try discriminate; intros H; injection H as <-; apply Frame_refl.
Qed.

(** ** The [finally] block runs once *)

Lemma good_finish t s :
  timersOwned t -> cleanupFree (t_effects t) ->
  (exists r, s = Returned r) \/ (exists e, s = Threw e) ->
  Good (set_stage s (cleanup t)).
Proof.
  intros Ho Hc Hs. destruct_turn t. unfold timersOwned in Ho. simpl in Ho, Hc.
  unfold Good, cleanup, clearProgress, clearTimeout, emit. simpl.
  rewrite (filter_owned _ _ Ho).
  assert (H : @nil timer = [] /\ @None ProgressStatus = None
              /\ exists before,
                   ((((effects0 ++ [ClearTimeout timeoutHandle0]) ++ [ClearProgress])
                       ++ [RlClose]) ++ [StdinEnd]) ++ [Kill (js "SIGTERM")]
                   = before ++ finallyEffects timeoutHandle0 /\ cleanupFree before).
  { repeat split. exists effects0. split; [|assumption].
    unfold finallyEffects. now rewrite <- !app_assoc. }
  destruct Hs as [[r ->]|[e ->]]; exact H.
Qed.

Lemma good_resume1 t : Good t -> Good (resume1 t).
Proof.
  intros G. unfold resume1.
  destruct (t_stage t) eqn:Es; try exact G;
    unfold Good in G; rewrite Es in G; destruct G as [Ho Hc];
    destruct (race _ _) eqn:Er;
    try (apply good_finish; eauto; fail);
    try (unfold Good; rewrite Es; now split).
  - destruct_turn t. unfold timersOwned in Ho. simpl in *.
    unfold Good, sendCommand, emit, timersOwned. simpl. split; [exact Ho|].
    apply Forall_app. split; [exact Hc|]. repeat constructor.
  - destruct_turn t. unfold timersOwned in Ho. simpl in *.
    unfold Good, timersOwned. simpl. now split.
Qed.

Lemma good_resume t : Good t -> Good (resume t).
Proof. intros G. unfold resume. now do 3 apply good_resume1. Qed.

Lemma good_frame r t t' : live t = true -> Frame r t t' -> Good t -> Good t'.
Proof.
  intros Hl F G. unfold Good in *. rewrite (fr_stage _ _ _ F).
  unfold live in Hl. destruct (t_stage t); try discriminate;
    destruct G as [Ho Hc]; (split; [now apply (timersOwned_frame r t)|]);
    destruct (fr_effects _ _ _ F) as (extra & -> & Hx); now apply Forall_app.
Qed.

Lemma good_fire tm t : live t = true -> Good t -> Good (fire tm t).
Proof.
  intros Hl G. destruct_turn t. unfold Good, live, fire, timeoutReject, timersOwned in *.
  simpl in *.
  destruct stage0; try discriminate; destruct G as [Ho Hc];
    destruct (tm_kind tm); simpl; (split; [|exact Hc]);
    intros tm' Hin; apply filter_In in Hin as [Hin _]; now apply Ho.
Qed.

Lemma good_uncaught t : Good (set_stage Uncaught t).
Proof. destruct_turn t. exact I. Qed.

(** The end of a turn of the event loop leaves the turn as it is, or ends
    the host of a running turn. *)
Lemma endOfTick_cases t :
  endOfTick t = t \/ (live t = true /\ endOfTick t = set_stage Uncaught t).
Proof.
  unfold endOfTick, unhandledRejection, live.
  destruct (t_stage t); try (now left); destruct (t_done t); try (now left); now right.
Qed.

Lemma endOfTick_dead t : live t = false -> endOfTick t = t.
Proof. intros Hl. destruct (endOfTick_cases t) as [E|[E _]]; congruence. Qed.

Lemma threw_endOfTick t e : t_stage t = Threw e -> t_stage (endOfTick t) = Threw e.
Proof.
  intros E. rewrite endOfTick_dead; [exact E|]. unfold live. now rewrite E.
Qed.


Lemma endOfTick_live t : live (endOfTick t) = true -> endOfTick t = t.
Proof.
  intros Hl. destruct (endOfTick_cases t) as [E|[_ E]]; [exact E|].
  rewrite E in Hl. destruct_turn t. discriminate.
Qed.


Lemma endOfTick_now t : t_now (endOfTick t) = t_now t.
Proof.
  destruct (endOfTick_cases t) as [->|[_ ->]]; [reflexivity|]. destruct_turn t. reflexivity.
Qed.

Lemma good_endOfTick t : Good t -> Good (endOfTick t).
Proof.
  intros G. destruct (endOfTick_cases t) as [->|[_ ->]]; [exact G|apply good_uncaught].
Qed.

(** What [handle] does: the listener threw, or the listener framed. *)
Lemma handle_cases i t :
  handle numToString stringify i t = set_stage Uncaught t
  \/ Frame (isActivityInput i) t (handle numToString stringify i t).
Proof.
  destruct i as [[event|]| chunk | code signal |]; cbn [handle isActivityInput].
  - destruct (onLine _ _ _ _) eqn:E; [right|now left].
    eapply Frame_onLine; eassumption.
  - right. apply Frame_refl.
  - right. apply Frame_stderr.
  - right. destruct (t_finished t); [apply Frame_refl|].
    apply Frame_rejectDone. reflexivity.
  - right. apply Frame_refl.
Qed.

Lemma good_handle i t :
  live t = true -> Good t -> Good (handle numToString stringify i t).
Proof.
  intros Hl G. destruct (handle_cases i t) as [->|F].
  - apply good_uncaught.
  - eapply good_frame; eassumption.
Qed.

Lemma good_set_now v t : Good t -> Good (set_now v t).
Proof. destruct_turn t. intros G. exact G. Qed.

Lemma live_set_now v t : live (set_now v t) = live t.
Proof. destruct_turn t. reflexivity. Qed.

Lemma good_step t i : Good t -> Good (step numToString stringify t i).
Proof.
  intros G. unfold step. destruct (live t) eqn:Hl; [|exact G].
  cbv zeta. destruct (dueTimer _ _); apply good_endOfTick, good_resume.
  - apply good_fire; [now rewrite live_set_now|]. now apply good_set_now.
  - apply good_handle; [now rewrite live_set_now|]. now apply good_set_now.
Qed.

Lemma good_run trace : forall t, Good t -> Good (run numToString stringify t trace).
Proof.
  induction trace as [|i rest IH]; intros t G; [exact G|].
  simpl. apply IH. now apply good_step.
Qed.

Lemma good_start now envBin message info timeout :
  Good (sendToAgentStart now envBin message info timeout).
Proof.
  unfold Good, sendToAgentStart, sendCommand, setTimeout, writeProgress, emit, timersOwned.
  simpl. split.
  - intros tm [<-|[]]. reflexivity.
  - repeat constructor.
Qed.

Lemma filter_cleanup_free es : cleanupFree es -> List.filter isCleanup es = [].
Proof.
  induction 1 as [|e rest He Hr IH]; [reflexivity|]. simpl. now rewrite He.
Qed.

Lemma run_over trace : forall t, live t = false -> run numToString stringify t trace = t.
Proof.
  induction trace as [|i rest IH]; intros t Hl; [reflexivity|].
  simpl. replace (step numToString stringify t i) with t; [now apply IH|].
  unfold step. now rewrite Hl.
Qed.

(** ** The sliding deadline *)

Arguments reqName : simpl never.

Lemma commandPromise_head id (p : promise (option json)) cs :
  commandPromise id ((id, p) :: cs) = p.
Proof. simpl. now rewrite decide_True. Qed.

(** One round of [resume1] on a turn whose [timeoutPromise] is pending. *)
Lemma resume1_pending t :
  t_timeoutPromise t = Pending -> quietErrors t ->
  let t' := resume1 t in
  (live t' = true ->
     t_timeoutPromise t' = Pending /\ quietErrors t'
     /\ t_timers t' = t_timers t /\ t_timeoutHandle t' = t_timeoutHandle t
     /\ t_now t' = t_now t /\ t_timeout t' = t_timeout t)
  /\ (live t = true -> timedOut t' = false).
Proof.
  intros Htp [Qd Qc]. destruct_turn t. simpl in Htp, Qd, Qc. subst timeoutPromise0.
  unfold resume1. cbn [t_stage t_commands t_timeoutPromise t_done].
  destruct stage0 as [p|p| | | |]; cbn zeta; try (split; [intros H|]; discriminate).
  - pose proof (commandPromise_quiet p _ Qc) as Qp.
    destruct (commandPromise p commands0) as [|v|e]; cbn [race].
    + split; [intros _|reflexivity]. repeat split; assumption.
    + unfold sendCommand, emit. simpl. split; [intros _|reflexivity].
      repeat split; try assumption. constructor; [exact I|assumption].
    + split; [discriminate|]. intros _. exact Qp.
  - pose proof (commandPromise_quiet p _ Qc) as Qp.
    destruct (commandPromise p commands0) as [|v|e]; cbn [race].
    + split; [intros _|reflexivity]. repeat split; assumption.
    + simpl. split; [intros _|reflexivity]. repeat split; assumption.
    + split; [discriminate|]. intros _. exact Qp.
  - destruct done0 as [|v|e]; cbn [race].
    + split; [intros _|reflexivity]. repeat split; assumption.
    + split; [discriminate|]. reflexivity.
    + split; [discriminate|]. intros _. exact Qd.
Qed.

Lemma resume1_dead t : live t = false -> resume1 t = t.
Proof. unfold live, resume1. now destruct (t_stage t). Qed.

Lemma timedOut_live t : live t = true -> timedOut t = false.
Proof. unfold live, timedOut. now destruct (t_stage t). Qed.

(** The same for the three rounds. *)
Lemma resume_pending t :
  live t = true -> t_timeoutPromise t = Pending -> quietErrors t ->
  let t' := resume t in
  (live t' = true ->
     t_timeoutPromise t' = Pending /\ quietErrors t'
     /\ t_timers t' = t_timers t /\ t_timeoutHandle t' = t_timeoutHandle t
     /\ t_now t' = t_now t /\ t_timeout t' = t_timeout t)
  /\ timedOut t' = false.
Proof.
  intros Hl Htp Q. unfold resume. cbv zeta.
  destruct (resume1_pending t Htp Q) as [A1 B1]. specialize (B1 Hl).
  destruct (live (resume1 t)) eqn:L1.
  2:{ rewrite !(resume1_dead (resume1 t)) by assumption. rewrite L1.
      split; [discriminate|assumption]. }
  destruct (A1 eq_refl) as (Htp1 & Q1 & E1 & E2 & E3 & E4).
  destruct (resume1_pending _ Htp1 Q1) as [A2 B2]. specialize (B2 L1).
  destruct (live (resume1 (resume1 t))) eqn:L2.
  2:{ rewrite (resume1_dead (resume1 (resume1 t))) by assumption. rewrite L2.
      split; [discriminate|assumption]. }
  destruct (A2 eq_refl) as (Htp2 & Q2 & F1 & F2 & F3 & F4).
  destruct (resume1_pending _ Htp2 Q2) as [A3 B3]. specialize (B3 L2).
  split; [|assumption]. intros L3.
  destruct (A3 L3) as (Htp3 & Q3 & G1 & G2 & G3 & G4).
  split; [assumption|]. split; [assumption|]. repeat split; congruence.
Qed.

Lemma resume1_tp t : t_timeoutPromise (resume1 t) = t_timeoutPromise t.
Proof.
  destruct_turn t. unfold resume1. cbn [t_stage t_commands t_timeoutPromise t_done].
  destruct stage0 as [p|p| | | |]; try reflexivity;
    destruct (race _ _); reflexivity.
Qed.

Lemma resume1_cases t :
  t_timeoutPromise t = Pending ->
  awaitsPending (resume1 t) \/ t_stage (resume1 t) = AwaitDone.
Proof.
  intros Htp. destruct_turn t. simpl in Htp. subst timeoutPromise0.
  unfold resume1. cbn [t_stage t_commands t_timeoutPromise t_done].
  destruct stage0 as [p|p| | | |]; try (left; exact I).
  - left. destruct (commandPromise p commands0) as [|v|e] eqn:Ep; cbn [race].
    + exact Ep.
    + unfold sendCommand, emit, awaitsPending. simpl. now rewrite decide_True.
    + exact I.
  - destruct (commandPromise p commands0) as [|v|e] eqn:Ep; cbn [race].
    + left. exact Ep.
    + right. reflexivity.
    + left. exact I.
  - left. destruct done0 as [|u|e] eqn:Ed; cbn [race]; try exact I. reflexivity.
Qed.

Lemma resume1_stable t :
  t_timeoutPromise t = Pending -> awaitsPending t -> resume1 t = t.
Proof.
  intros Htp Ha. destruct_turn t. unfold awaitsPending in Ha. simpl in Htp, Ha.
  subst timeoutPromise0. unfold resume1. cbn [t_stage t_commands t_timeoutPromise t_done].
  destruct stage0 as [p|p| | | |]; try reflexivity; now rewrite Ha.
Qed.

Lemma resume1_done t :
  t_timeoutPromise t = Pending -> t_stage t = AwaitDone -> awaitsPending (resume1 t).
Proof.
  intros Htp Hs. destruct_turn t. simpl in Htp, Hs. subst timeoutPromise0 stage0.
  unfold resume1. cbn [t_stage t_commands t_timeoutPromise t_done].
  destruct done0 as [|u|e]; cbn [race]; try exact I. reflexivity.
Qed.

Lemma resume_awaits t : t_timeoutPromise t = Pending -> awaitsPending (resume t).
Proof.
  intros Htp. unfold resume.
  assert (Htp1 : t_timeoutPromise (resume1 t) = Pending) by now rewrite resume1_tp.
  assert (Htp2 : t_timeoutPromise (resume1 (resume1 t)) = Pending) by now rewrite resume1_tp.
  destruct (resume1_cases t Htp) as [Ha|Hs].
  - now rewrite !(resume1_stable (resume1 t)).
  - pose proof (resume1_done _ Htp1 Hs) as Ha.
    now rewrite (resume1_stable (resume1 (resume1 t))).
Qed.

Lemma resume_fired t e :
  live t = true -> awaitsPending t -> t_timeoutPromise t = Rejected e ->
  t_stage (resume t) = Threw e.
Proof.
  intros Hl Ha Htp.
  assert (H1 : t_stage (resume1 t) = Threw e).
  { destruct_turn t. unfold awaitsPending in Ha. simpl in *. subst timeoutPromise0.
    unfold resume1. cbn [t_stage t_commands t_timeoutPromise t_done].
    destruct stage0 as [p|p| | | |]; try discriminate; rewrite Ha; cbn [race];
      unfold cleanup, clearProgress, clearTimeout, emit; reflexivity. }
  assert (Hd : live (resume1 t) = false) by (unfold live; now rewrite H1).
  unfold resume. now rewrite !(resume1_dead (resume1 t)).
Qed.

Lemma dueTimer_single now tm :
  dueTimer now [tm] = if tm_deadline tm <=? now then Some tm else None.
Proof. reflexivity. Qed.

Lemma timerDelay_range timeout :
  1 <= timeout -> timeout <= 2147483647 -> timerDelay timeout = timeout.
Proof.
  intros timeout_min timeout_max. unfold timerDelay.
  destruct (timeout <? 1) eqn:A; [apply Z.ltb_lt in A; lia|].
  destruct (2147483647 <? timeout) eqn:B; [apply Z.ltb_lt in B; lia|]. reflexivity.
Qed.

Lemma timerDelay_clamped timeout :
  timeout < 1 \/ 2147483647 < timeout -> timerDelay timeout = 1.
Proof.
  intros H. unfold timerDelay.
  destruct (timeout <? 1) eqn:A; [reflexivity|].
  destruct (2147483647 <? timeout) eqn:B; [reflexivity|].
  apply Z.ltb_ge in A, B. lia.
Qed.

Section Range.
Variable timeout : Z.

(** A listener ran on a live turn of the right shape: what the turn is
    once [sendToAgent] went on. *)
Lemma resume_framed r q k d t t2 :
  0 <= q -> 0 <= d ->
  live t = true -> Shape timeout q k t ->
  Frame r (set_now (t_now t + d) t) t2 ->
  Inv timeout (if r then 0 else q + d) (if r then InactivityTimer else k) (resume t2)
  /\ timedOut (resume t2) = false.
Proof.
  intros Hq Hd Hl Sh F.
  destruct Sh as [Q Ht Htp Ha Hk].
  set (t1 := set_now (t_now t + d) t) in *.
  assert (P1 : t_stage t1 = t_stage t /\ t_timers t1 = t_timers t
               /\ t_timeoutHandle t1 = t_timeoutHandle t /\ t_now t1 = t_now t + d
               /\ t_timeout t1 = t_timeout t /\ t_timeoutPromise t1 = t_timeoutPromise t
               /\ t_done t1 = t_done t /\ t_commands t1 = t_commands t).
  { unfold t1. destruct_turn t. simpl. repeat split. }
  destruct P1 as (S1 & T1 & H1 & N1 & O1 & TP1 & D1 & C1).
  assert (Q1 : quietErrors t1) by (unfold quietErrors; now rewrite D1, C1).
  assert (Ow : timersOwned t1).
  { intros tm. rewrite T1, H1, Hk. intros [<-|[]]. reflexivity. }
  pose proof (fr_timers _ _ _ F Ow) as Ft.
  assert (L2 : live t2 = true).
  { unfold live in *. now rewrite (fr_stage _ _ _ F), S1. }
  assert (TP2 : t_timeoutPromise t2 = Pending).
  { now rewrite (fr_tp _ _ _ F), TP1. }
  pose proof (fr_errors _ _ _ F Q1) as Q2.
  destruct (resume_pending t2 L2 TP2 Q2) as [A B].
  split; [|exact B]. split; [destruct r; lia|]. intros L3.
  destruct (A L3) as (TP3 & Q3 & E1 & E2 & E3 & E4).
  constructor.
  - exact Q3.
  - now rewrite E4, (fr_timeout _ _ _ F), O1.
  - exact TP3.
  - now apply resume_awaits.
  - rewrite E1, E2, E3, (fr_now _ _ _ F), N1.
    destruct r.
    + rewrite Ft, N1, O1, Ht. f_equal. f_equal. lia.
    + destruct Ft as [-> ->]. rewrite T1, H1, Hk. f_equal. f_equal. lia.
Qed.

Lemma uncaught_resume t : resume (set_stage Uncaught t) = set_stage Uncaught t.
Proof. destruct_turn t. reflexivity. Qed.

Lemma uncaught_dead t : live (set_stage Uncaught t) = false.
Proof. destruct_turn t. reflexivity. Qed.

Lemma uncaught_timedOut t : timedOut (set_stage Uncaught t) = false.
Proof. destruct_turn t. reflexivity. Qed.

(** The timer fires on a live turn of the right shape. *)
Lemma fired_step q k tm t v :
  live t = true -> Shape timeout q k t ->
  exists e, t_stage (resume (fire tm (set_now v t))) = Threw e /\ isTimeoutError e = true.
Proof.
  intros Hl Sh. destruct Sh as [Q Ht Htp Ha Hk].
  assert (P : exists e, isTimeoutError e = true
                        /\ t_timeoutPromise (fire tm (set_now v t)) = Rejected e
                        /\ live (fire tm (set_now v t)) = true
                        /\ awaitsPending (fire tm (set_now v t))).
  { destruct_turn t. unfold awaitsPending, live, fire, timeoutReject in *. simpl in *.
    subst timeoutPromise0.
    destruct (tm_kind tm); simpl; eexists; (split; [|split; [reflexivity|split; [exact Hl|exact Ha]]]);
      reflexivity. }
  destruct P as (e & He & Htp' & Hl' & Ha').
  exists e. split; [|exact He]. now apply resume_fired.
Qed.

Lemma inv_endOfTick q k t : Inv timeout q k t -> Inv timeout q k (endOfTick t).
Proof.
  intros [Hq Sh]. split; [exact Hq|]. intros Hl.
  pose proof (endOfTick_live _ Hl) as E. rewrite E in Hl |- *. now apply Sh.
Qed.

Lemma timedOut_endOfTick t : timedOut (endOfTick t) = timedOut t.
Proof.
  destruct (endOfTick_cases t) as [->|[Hl ->]]; [reflexivity|].
  rewrite uncaught_timedOut. symmetry. now apply timedOut_live.
Qed.

Lemma step_inv q k t i :
  Inv timeout q k t ->
  Inv timeout (if isActivityInput (snd i) then 0 else q + Z.of_N (fst i))
    (if isActivityInput (snd i) then InactivityTimer else k)
    (step numToString stringify t i).
Proof.
  intros [Hq Sh]. unfold step. destruct (live t) eqn:Hl.
  2:{ split; [destruct (isActivityInput _); lia|]. congruence. }
  specialize (Sh eq_refl). cbv zeta.
  destruct (dueTimer _ _) as [tm|] eqn:Hdue.
  - destruct (fired_step q k tm t (t_now t + Z.of_N (fst i)) Hl Sh) as (e & Es & _).
    split; [destruct (isActivityInput _); lia|].
    rewrite endOfTick_dead by (unfold live; now rewrite Es).
    unfold live. rewrite Es. discriminate.
  - destruct (handle_cases (snd i) (set_now (t_now t + Z.of_N (fst i)) t)) as [->|F].
    + rewrite uncaught_resume, endOfTick_dead by apply uncaught_dead.
      split; [destruct (isActivityInput _); lia|].
      rewrite uncaught_dead. discriminate.
    + apply inv_endOfTick.
      apply (resume_framed _ q k (Z.of_N (fst i)) t); try assumption. lia.
Qed.

Lemma step_paced q k t i :
  Inv timeout q k t -> timedOut t = false ->
  q + Z.of_N (fst i) < timerDelay timeout ->
  timedOut (step numToString stringify t i) = false.
Proof.
  intros [Hq Sh] Hn Hp. unfold step. destruct (live t) eqn:Hl; [|exact Hn].
  specialize (Sh eq_refl). cbv zeta.
  assert (Hdue : dueTimer (t_now (set_now (t_now t + Z.of_N (fst i)) t))
                   (t_timers (set_now (t_now t + Z.of_N (fst i)) t)) = None).
  { destruct Sh as [Q Ht Htp Ha Hk]. destruct_turn t. simpl in *. subst timers0.
    rewrite dueTimer_single. simpl.
    destruct (_ <=? _) eqn:E; [apply Z.leb_le in E; lia|reflexivity]. }
  rewrite Hdue, timedOut_endOfTick.
  destruct (handle_cases (snd i) (set_now (t_now t + Z.of_N (fst i)) t)) as [->|F].
  - rewrite uncaught_resume. apply uncaught_timedOut.
  - apply (resume_framed (isActivityInput (snd i)) q k (Z.of_N (fst i)) t); try assumption. lia.
Qed.

Lemma step_stalled q k t i :
  Inv timeout q k t -> live t = true ->
  timerDelay timeout <= q + Z.of_N (fst i) ->
  timedOut (step numToString stringify t i) = true.
Proof.
  intros [Hq Sh] Hl Hp. unfold step. rewrite Hl. specialize (Sh Hl). cbv zeta.
  assert (Hdue : exists tm, dueTimer (t_now (set_now (t_now t + Z.of_N (fst i)) t))
                   (t_timers (set_now (t_now t + Z.of_N (fst i)) t)) = Some tm).
  { destruct Sh as [Q Ht Htp Ha Hk]. destruct_turn t. simpl in *. subst timers0.
    rewrite dueTimer_single. simpl.
    destruct (_ <=? _) eqn:E; [eauto|apply Z.leb_gt in E; lia]. }
  destruct Hdue as (tm & ->).
  destruct (fired_step q k tm t (t_now t + Z.of_N (fst i)) Hl Sh) as (e & Es & He).
  rewrite timedOut_endOfTick. unfold timedOut. now rewrite Es.
Qed.

Lemma start_inv now envBin message info :
  Inv timeout 0 InitialTimer (sendToAgentStart now envBin message info timeout).
Proof.
  split; [lia|]. intros _.
  unfold sendToAgentStart, sendCommand, setTimeout, writeProgress, emit.
  constructor; simpl.
  - split; simpl; [exact I|]. repeat constructor.
  - reflexivity.
  - reflexivity.
  - unfold awaitsPending. cbn [t_stage t_commands set_stage set_commands set_pending
      set_effects set_reqId set_timeoutHandle set_nextHandle set_timers set_progress].
    apply commandPromise_head.
  - f_equal. f_equal. lia.
Qed.

End Range.

End TurnFacts.

(** ** Runs *)

Section Runs.
Variable numToString : float -> list N.
Variable stringify : json -> list N.
Variable timeout : Z.

Lemma run_app t trace more :
  run numToString stringify t (trace ++ more)
  = run numToString stringify (run numToString stringify t trace) more.
Proof. unfold run. apply fold_left_app. Qed.

Lemma run_inv trace : forall q k t,
  Inv timeout q k t ->
  exists q' k', Inv timeout q' k' (run numToString stringify t trace).
Proof.
  induction trace as [|i rest IH]; intros q k t H; [now exists q, k|].
  simpl. eapply IH. exact (step_inv _ _ _ q k t i H).
Qed.

Lemma run_paced trace : forall q k t,
  Inv timeout q k t -> timedOut t = false -> paced (timerDelay timeout) q trace = true ->
  timedOut (run numToString stringify t trace) = false.
Proof.
  induction trace as [|[d i] rest IH]; intros q k t H Hn Hp; [exact Hn|].
  simpl in Hp. apply andb_prop in Hp as [Hd Hr]. apply Z.ltb_lt in Hd.
  simpl. eapply IH; [| |exact Hr].
  - exact (step_inv _ _ _ q k t (d, i) H).
  - now apply (step_paced _ _ timeout q k t (d, i)).
Qed.

Lemma run_quiet quiet : forall q k t,
  Inv timeout q k t ->
  Forall (fun x => isActivityInput (snd x) = false) quiet ->
  Inv timeout (q + duration quiet) k (run numToString stringify t quiet).
Proof.
  induction quiet as [|[d i] rest IH]; intros q k t H Hq.
  - simpl. now rewrite Z.add_0_r.
  - inversion Hq as [|? ? Hi Hr]; subst. simpl in Hi.
    pose proof (step_inv numToString stringify _ q k t (d, i) H) as H'.
    simpl in H'. rewrite Hi in H'.
    simpl. specialize (IH _ _ _ H' Hr).
    replace (q + (Z.of_N d + duration rest)) with (q + Z.of_N d + duration rest) by lia.
    exact IH.
Qed.

End Runs.

(** ** The turn on [agent_end], and the clock *)

Section AgentEnd.
Variable numToString : float -> list N.
Variable stringify : json -> list N.

Lemma isBlank_decide s :
  (if decide (trim s = []) then true else false) = isBlank s.
Proof.
  destruct (decide (trim s = [])) as [e|n].
  - symmetry. now apply trim_nil_iff.
  - destruct (isBlank s) eqn:B; [|reflexivity]. apply trim_nil_iff in B. contradiction.
Qed.




End AgentEnd.

Section Deadline.
Variable numToString : float -> list N.
Variable stringify : json -> list N.

Lemma resume1_now t : t_now (resume1 t) = t_now t.
Proof.
  destruct_turn t. unfold resume1. cbn [t_stage t_commands t_timeoutPromise t_done].
  destruct stage0 as [p|p| | | |]; try reflexivity; destruct (race _ _); reflexivity.
Qed.

Lemma resume_now t : t_now (resume t) = t_now t.
Proof. unfold resume. now rewrite !resume1_now. Qed.

Lemma step_now t i :
  live t = true ->
  t_now (step numToString stringify t i) = t_now t + Z.of_N (fst i).
Proof.
  intros Hl. unfold step. rewrite Hl. cbv zeta.
  assert (E : t_now (set_now (t_now t + Z.of_N (fst i)) t) = t_now t + Z.of_N (fst i))
    by (destruct_turn t; reflexivity).
  destruct (dueTimer _ _) as [tm|]; rewrite endOfTick_now, resume_now.
  - destruct_turn t. unfold fire, timeoutReject. destruct (tm_kind tm); reflexivity.
  - destruct (handle_cases numToString stringify (snd i)
                (set_now (t_now t + Z.of_N (fst i)) t)) as [->|F].
    + destruct_turn t. reflexivity.
    + now rewrite (fr_now _ _ _ F).
Qed.

Lemma step_live t i : live (step numToString stringify t i) = true -> live t = true.
Proof.
  unfold step. destruct (live t) eqn:Hl; [reflexivity|]. now rewrite Hl.
Qed.

End Deadline.

(** ** Claims about the turn *)

(** Claim C1. On [agent_end] the computed usage is the sum, in list order,
    of the [input], [output] and [cost.total] fields of every
    assistant-authored message of the terminal list that carries a usage (a
    missing field counts for 0), not of the last one only; for the list of
    the specification, with usages [{input: 10, output: 5, cost: {total:
    0.01}}] and [{input: 20, output: 8, cost: {total: 0.02}}], the turn
    returns the usage [{input: 30, output: 13, cost: 0.03}]. *)
Theorem usage_sums_every_assistant_message numToString stringify :
  (forall t event msgs,
     prop event "messages" = Some (JArr msgs) ->
     Forall (fun msg => usageTyped msg = true) msgs ->
     exists t',
       onAgentEnd numToString event t = Normal t'
       /\ t_usage t'
          = Some (mkUsage
                    (JNum (sumOf inputOf (List.filter countsUsage msgs)))
                    (JNum (sumOf outputOf (List.filter countsUsage msgs)))
                    (JNum (sumOf costOf (List.filter countsUsage msgs)))))
  /\ (exists r,
        t_stage (sendToAgent numToString stringify 1700000000000 None (js "hi")
                   sampleInfo 300000
                   (acknowledged ++ [(10%N, Line (Some (agentEndEvent twoStepMessages)))]))
        = Returned r
        /\ usage r = Some (mkUsage (JNum 30) (JNum 13) (JNum 0.03))).
Proof.
  split.
  - intros t event msgs Hm Ht. unfold onAgentEnd. rewrite Hm. cbn [orElse truthy iterate].
    unfold zeroUsage. rewrite (usageLoop_typed numToString msgs _ _ _ Ht).
    eexists. split; [reflexivity|].
    destruct (decide _); destruct_turn t; reflexivity.
  - eexists. split; vm_compute; reflexivity.
Qed.

Lemma usage_sums_every_assistant_message_witness :
  Forall (fun msg => usageTyped msg = true) twoStepMessages
  /\ exists t',
       onAgentEnd sampleNumToString (agentEndEvent twoStepMessages)
         (sendToAgentStart 0 None (js "hi") sampleInfo 300000)
       = Normal t'
       /\ t_usage t' = Some (mkUsage (JNum 30) (JNum 13) (JNum 0.03)).
Proof.
  assert (H : Forall (fun msg => usageTyped msg = true) twoStepMessages)
    by (repeat constructor).
  split; [exact H|].
  destruct (proj1 (usage_sums_every_assistant_message sampleNumToString sampleStringify)
              (sendToAgentStart 0 None (js "hi") sampleInfo 300000)
              (agentEndEvent twoStepMessages) twoStepMessages eq_refl H)
    as (t' & E & U).
  exists t'. split; [exact E|]. rewrite U. vm_compute. reflexivity.
Defined.



(** The claim C3 as stated fails in two ways. The deadline is armed when
    the turn starts and the acknowledgment of the prompt does not rearm
    it: with a timeout of 1000 ms, a handshake answered after 400 ms and a
    prompt acknowledged 500 ms later, a tool event that comes 500 ms after
    the acknowledgment finds the turn timed out. And a timeout the timers
    do not accept counts as 1 ms: with a timeout of 3000000000 ms, a turn
    that sees a tool event every 500 ms times out at once, and when the
    prompt is acknowledged and the first tool event comes within the first
    millisecond, the turn fails for inactivity before the tool event that
    comes 500 ms later. *)
Lemma deadline_is_armed_at_start_and_clamped :
  let start := sendToAgent sampleNumToString sampleStringify 1700000000000 None (js "hi")
                 sampleInfo in
  let late := [(400%N, Line (Some (okResponse "req-1")));
               (500%N, Line (Some (okResponse "req-2")))] in
  t_stage (start 1000 late) = AwaitDone
  /\ isActivity toolStart = true
  /\ t_stage (start 1000 (late ++ [(500%N, Line (Some toolStart))]))
     = Threw (TimeoutWaiting 1000 [])
  /\ paced 3000000000 0 steadyTools = true
  /\ t_stage (start 3000000000 steadyTools) = Threw (TimeoutWaiting 3000000000 [])
  /\ (let prompt := [(0%N, Line (Some (okResponse "req-1")));
                     (0%N, Line (Some (okResponse "req-2")));
                     (0%N, Line (Some toolStart)); (500%N, Line (Some toolStart))] in
      paced 3000000000 0 prompt = true
      /\ t_stage (start 3000000000 (firstn 3 prompt)) = AwaitDone
      /\ t_stage (start 3000000000 prompt) = Threw (TimeoutInactivity 3000000000 [])).
Proof. cbv zeta. repeat split; vm_compute; reflexivity. Qed.

(** Claim C3, as amended. The one deadline of a turn is armed when the
    turn starts, at the start time plus the delay the timers arm for the
    configured timeout: the timeout itself from 1 to 2147483647 ms, and
    1 ms for any other value. Every activity event (a text or thinking
    delta, a tool start, update or end) that leaves the turn running
    rearms the deadline at the time of the event plus that delay; nothing
    else moves it, the acknowledgment of the prompt included. So a turn in
    which less than the delay passes between its start and the first
    activity event, between consecutive activity events and after the last
    one never fails with a timeout error; and a running turn that sees no
    activity event for longer than the delay fails with a timeout
    error. *)
Theorem sliding_inactivity_deadline numToString stringify now envBin message info timeout :
  let d := timerDelay timeout in
  let start := sendToAgent numToString stringify now envBin message info timeout in
  (1 <= timeout -> timeout <= 2147483647 -> d = timeout)
  /\ (timeout < 1 \/ 2147483647 < timeout -> d = 1)
  /\ List.map tm_deadline (t_timers (start [])) = [now + d]
  /\ (forall trace delay event,
        let t := start trace in
        let t' := step numToString stringify t (delay, Line (Some event)) in
        isActivity event = true -> live t' = true ->
        t_now t' = t_now t + Z.of_N delay
        /\ t_timers t'
           = [mkTimer (t_timeoutHandle t') (t_now t' + d) InactivityTimer])
  /\ (forall trace delay i,
        let t := start trace in
        let t' := step numToString stringify t (delay, i) in
        isActivityInput i = false -> live t' = true ->
        List.map tm_deadline (t_timers t') = List.map tm_deadline (t_timers t))
  /\ (forall trace,
        paced d 0 trace = true -> timedOut (start trace) = false)
  /\ (forall trace quiet delay i,
        let t := start (trace ++ quiet) in
        live t = true ->
        Forall (fun x => isActivityInput (snd x) = false) quiet ->
        d < duration quiet + Z.of_N delay ->
        timedOut (step numToString stringify t (delay, i)) = true).
Proof.
  intros d start.
  pose proof (start_inv timeout now envBin message info) as I0.
  split; [apply timerDelay_range|]. split; [apply timerDelay_clamped|].
  split; [reflexivity|]. split; [|split; [|split]].
  - intros trace delay event t t' Ha Hl'.
    pose proof (step_live numToString stringify _ _ Hl') as Hl.
    split; [apply (step_now numToString stringify t (delay, Line (Some event)) Hl)|].
    destruct (run_inv numToString stringify timeout trace 0 _ _ I0) as (q & k & Iq).
    pose proof (step_inv numToString stringify timeout q k _ (delay, Line (Some event)) Iq)
      as I1.
    cbn [snd fst isActivityInput] in I1. rewrite Ha in I1.
    destruct I1 as [_ Sh]. destruct (Sh Hl') as [_ _ _ _ Hk].
    unfold t', t, start, sendToAgent. rewrite Hk. f_equal. f_equal. unfold d. lia.
  - intros trace delay i t t' Hi Hl'.
    pose proof (step_live numToString stringify _ _ Hl') as Hl.
    pose proof (step_now numToString stringify t (delay, i) Hl) as Hn.
    destruct (run_inv numToString stringify timeout trace 0 _ _ I0) as (q & k & Iq).
    pose proof (step_inv numToString stringify timeout q k _ (delay, i) Iq) as I1.
    cbn [snd fst] in I1, Hn. rewrite Hi in I1.
    destruct I1 as [_ Sh']. destruct (Sh' Hl') as [_ _ _ _ Hk'].
    destruct Iq as [_ Sh]. destruct (Sh Hl) as [_ _ _ _ Hk].
    fold (sendToAgent numToString stringify now envBin message info timeout trace) in Hk, Hk'.
    fold (start trace) in Hk, Hk'. fold t in Hk, Hk', Hn. fold t' in Hk', Hn.
    rewrite Hk', Hk. cbn [List.map tm_deadline]. f_equal. lia.
  - intros trace Hp. unfold start, sendToAgent.
    apply (run_paced numToString stringify timeout trace 0 InitialTimer);
      try assumption.
    reflexivity.
  - intros trace quiet delay i t Hl Hq Hd.
    destruct (run_inv numToString stringify timeout trace 0 _ _ I0) as (q & k & Iq).
    pose proof (run_quiet numToString stringify timeout quiet q k _ Iq Hq) as I1.
    rewrite <- run_app in I1.
    apply (step_stalled numToString stringify timeout
             (q + duration quiet) k t (delay, i) I1 Hl).
    destruct Iq as [Hq0 _]. cbn [fst]. fold d. lia.
Qed.

Lemma sliding_inactivity_deadline_witness :
  (1 <= 1000 /\ 1000 <= 2147483647 /\ paced 1000 0 steadyTools = true)
  /\ timerDelay 1000 = 1000
  /\ timedOut (sendToAgent sampleNumToString sampleStringify 1700000000000 None
                 (js "hi") sampleInfo 1000 steadyTools) = false.
Proof.
  assert (H1 : 1 <= 1000) by lia.
  assert (H2 : 1000 <= 2147483647) by lia.
  assert (H3 : paced 1000 0 steadyTools = true) by reflexivity.
  split; [split; [exact H1|split; [exact H2|exact H3]]|].
  pose proof (sliding_inactivity_deadline sampleNumToString sampleStringify
                1700000000000 None (js "hi") sampleInfo 1000) as (D & _ & _ & _ & _ & P & _).
  split; [exact (D H1 H2)|]. exact (P steadyTools H3).
Defined.

(** Claim C4, where the code departs from it. An error report or the exit
    of the subordinate that comes before the prompt is acknowledged rejects
    [donePromise] while nothing handles it: the host ends on the unhandled
    rejection, [sendToAgent] neither returns nor throws, and its [finally]
    block never runs. After a [hook_error] that precedes the answer to the
    handshake, and after an exit that precedes the acknowledgment of the
    prompt, none of [clearProgress], [rl.close], [stdin.end] and [kill] was
    called, the timer is still armed and the progress file is still there.
    The same two events after the acknowledgment of the prompt make
    [sendToAgent] throw, with the [finally] block run. *)
Theorem abort_before_prompt_acknowledgment_skips_cleanup numToString stringify :
  let start := sendToAgent numToString stringify 1700000000000 None (js "hi")
                 sampleInfo 300000 in
  let early := start [(5%N, Line (Some hookError))] in
  let exited := start [(5%N, Line (Some (okResponse "req-1")));
                       (5%N, StderrData (js "boom")); (1%N, Exit (Some 1) None)] in
  let thinking := mkProgress (js "m") 1700000000000 Thinking None None 0 in
  (t_stage early = Uncaught /\ over early = false
   /\ List.filter isCleanup (t_effects early) = []
   /\ List.map tm_deadline (t_timers early) = [1700000300000]
   /\ t_progress early = Some thinking)
  /\ (t_stage exited = Uncaught /\ over exited = false
      /\ List.filter isCleanup (t_effects exited) = []
      /\ List.map tm_deadline (t_timers exited) = [1700000300000]
      /\ t_progress exited = Some thinking)
  /\ (let late := start (acknowledged ++ [(10%N, Line (Some hookError))]) in
      t_stage late = Threw (HookError (js "denied"))
      /\ List.filter isCleanup (t_effects late)
         = [ClearProgress; RlClose; StdinEnd; Kill (js "SIGTERM")]
      /\ t_timers late = [] /\ t_progress late = None)
  /\ (let late := start (acknowledged
                         ++ [(10%N, StderrData (js "boom")); (1%N, Exit (Some 1) None)]) in
      t_stage late = Threw (ProcessExited (Some 1) None (js "boom"))
      /\ List.filter isCleanup (t_effects late)
         = [ClearProgress; RlClose; StdinEnd; Kill (js "SIGTERM")]
      /\ t_timers late = [] /\ t_progress late = None).
Proof. cbv zeta. repeat split; vm_compute; reflexivity. Qed.

(** X25. Whenever [sendToAgent] is over, by returning or by throwing,
    the [finally] block has run exactly once, as the last thing done: the
    current timer is cleared and no timer is left armed, and
    [clearProgress], [rl.close], [stdin.end] and [kill("SIGTERM")] each
    occur once in the whole turn, in this order; the progress file is
    absent; nothing that happens afterwards changes the turn. After the
    acknowledgment of the prompt, success, protocol abort, timeout and exit
    of the subordinate process are such outcomes. *)
Theorem cleanup_runs_exactly_once numToString stringify :
  (forall now envBin message info timeout trace,
     let t := sendToAgent numToString stringify now envBin message info timeout trace in
     over t = true ->
     (exists before,
        t_effects t = before ++ finallyEffects (t_timeoutHandle t)
        /\ Forall (fun e => isCleanup e = false) before)
     /\ List.filter isCleanup (t_effects t)
        = [ClearProgress; RlClose; StdinEnd; Kill (js "SIGTERM")]
     /\ t_timers t = []
     /\ t_progress t = None
     /\ (forall more, run numToString stringify t more = t))
  /\ (exists r,
        t_stage (sendToAgent numToString stringify 1700000000000 None (js "hi")
                   sampleInfo 300000
                   (acknowledged ++ [(10%N, Line (Some (agentEndEvent twoStepMessages)))]))
        = Returned r)
  /\ t_stage (sendToAgent numToString stringify 1700000000000 None (js "hi")
                sampleInfo 300000
                (acknowledged ++ [(10%N, Line (Some hookError))]))
     = Threw (HookError (js "denied"))
  /\ t_stage (sendToAgent numToString stringify 1700000000000 None (js "hi")
                sampleInfo 300000
                (acknowledged ++ [(10%N, Line (Some toolStart)); (300001%N, Idle)]))
     = Threw (TimeoutInactivity 300000 [])
  /\ t_stage (sendToAgent numToString stringify 1700000000000 None (js "hi")
                sampleInfo 300000
                (acknowledged ++ [(10%N, StderrData (js "boom")); (1%N, Exit (Some 1) None)]))
     = Threw (ProcessExited (Some 1) None (js "boom")).
Proof.
  split; [|split; [|split; [|split]]].
  - intros now envBin message info timeout trace t Ho.
    pose proof (good_run numToString stringify trace _
                  (good_start now envBin message info timeout)) as G.
    fold (sendToAgent numToString stringify now envBin message info timeout trace) in G.
    fold t in G. unfold Good in G. unfold over in Ho.
    assert (H : t_timers t = [] /\ t_progress t = None
                /\ exists before, t_effects t = before ++ finallyEffects (t_timeoutHandle t)
                                  /\ cleanupFree before).
    { destruct (t_stage t); try discriminate; exact G. }
    destruct H as (Ht & Hp & before & He & Hc).
    split; [now exists before|]. split; [|split; [exact Ht|split; [exact Hp|]]].
    + rewrite He, List.filter_app, (filter_cleanup_free _ Hc). reflexivity.
    + intros more. apply run_over. unfold live.
      destruct (t_stage t); try discriminate; reflexivity.
  - eexists. vm_compute. reflexivity.
  - vm_compute. reflexivity.
  - vm_compute. reflexivity.
  - vm_compute. reflexivity.
Qed.

Lemma cleanup_runs_exactly_once_witness :
  let t := sendToAgent sampleNumToString sampleStringify 1700000000000 None (js "hi")
             sampleInfo 300000
             (acknowledged ++ [(10%N, Line (Some toolStart)); (300001%N, Idle)]) in
  over t = true
  /\ List.filter isCleanup (t_effects t)
     = [ClearProgress; RlClose; StdinEnd; Kill (js "SIGTERM")]
  /\ t_timers t = []
  /\ t_progress t = None.
Proof.
  intros t.
  assert (Ho : over t = true) by (vm_compute; reflexivity).
  split; [exact Ho|].
  destruct (proj1 (cleanup_runs_exactly_once sampleNumToString sampleStringify)
              1700000000000 None (js "hi") sampleInfo 300000
              (acknowledged ++ [(10%N, Line (Some toolStart)); (300001%N, Idle)]) Ho)
    as (_ & Hf & Ht & Hp & _).
  repeat split; assumption.
Defined.

(** * Further properties of the store and the commands *)

Ltac store :=
  unfold cmdSend, cmdEnd, cmdPurge, cmdStart, purgeSession, closeSession, loadSessionInfo,
    saveSessionInfo, getSessionInfoPath, getSessionFilePath,
    getSessionDir, validateSessionId, validateSessionName, parseInfo,
    mkdirSync, existsSync, readFileSync, writeFileSync, unlinkSync,
    bind, ret, throw, logged; simpl.

(** ** Generated ids *)

Lemma isHexDigit_isIdChar c : isHexDigit c = true -> isIdChar c = true.
Proof.
  unfold isHexDigit, isIdChar.
  rewrite !orb_true_iff, !andb_true_iff, !N.leb_le, !N.eqb_eq. lia.
Qed.

Lemma hexRun_spec n : forall s r,
  hexRun n s = Some r ->
  exists h, s = h ++ r /\ length h = n /\ forallb isIdChar h = true.
Proof.
  induction n as [|n IH]; intros s r H; simpl in H.
  - injection H as <-. now exists [].
  - destruct s as [|c s]; [discriminate|].
    destruct (isHexDigit c) eqn:Hc; [|discriminate].
    destruct (IH _ _ H) as (h & -> & Hl & Hf).
    exists (c :: h). simpl. rewrite Hl, Hf, (isHexDigit_isIdChar _ Hc). now repeat split.
Qed.

Lemma hexGroups_spec groups : forall s,
  hexGroups groups s = true ->
  forallb isIdChar s = true
  /\ length s = (list_sum groups + (length groups - 1))%nat.
Proof.
  induction groups as [|n rest IH]; intros s H; simpl in H; [discriminate|].
  destruct rest as [|m rest'].
  - destruct (hexRun n s) as [[|c r]|] eqn:Hr; try discriminate.
    destruct (hexRun_spec _ _ _ Hr) as (h & -> & Hl & Hf).
    rewrite app_nil_r. split; [exact Hf|]. simpl. lia.
  - destruct (hexRun n s) as [[|c r]|] eqn:Hr; try discriminate.
    apply andb_prop in H as [Hc H].
    destruct (hexRun_spec _ _ _ Hr) as (h & -> & Hl & Hf).
    destruct (IH _ H) as [Hf' Hl'].
    split.
    + rewrite forallb_app, Hf. cbn [forallb andb]. rewrite Hf'.
      apply N.eqb_eq in Hc. subst c. reflexivity.
    + rewrite length_app. cbn [length]. rewrite Hl, Hl'. simpl. lia.
Qed.

Lemma isUUID_valid str :
  isUUID str = true -> matchesIdRegex str = true /\ length str = 36%nat.
Proof.
  intros H. destruct (hexGroups_spec _ _ H) as [Hf Hl]. simpl in Hl.
  split; [|exact Hl]. destruct str; [discriminate|exact Hf].
Qed.

(** ** Loading *)

Section MoreStoreFacts.
Variable tmpdir : list N.
Variable rt : Runtime.

Lemma load_run id info w :
  matchesIdRegex id = true ->
  fs_files (w_fs w) !! infoPathOf tmpdir id = Some (InfoDoc info) ->
  exists w', loadSessionInfo tmpdir rt id w = (Ok (Saved info), w')
             /\ w_fs w' = mkFS true (fs_files (w_fs w)).
Proof.
  intros Hv Hl. store. rewrite Hv. simpl.
  fold (infoPathOf tmpdir id). rewrite Hl. simpl. rewrite Hl. simpl.
  eexists; split; reflexivity.
Qed.

Lemma load_missing id w :
  matchesIdRegex id = true ->
  fs_files (w_fs w) !! infoPathOf tmpdir id = None ->
  exists w', loadSessionInfo tmpdir rt id w = (Err (SessionNotFound id), w')
             /\ w_fs w' = mkFS true (fs_files (w_fs w)).
Proof.
  intros Hv Hl. store. rewrite Hv. simpl.
  fold (infoPathOf tmpdir id). rewrite Hl. simpl.
  eexists; split; reflexivity.
Qed.

Lemma load_corrupted id raw w :
  matchesIdRegex id = true ->
  fs_files (w_fs w) !! infoPathOf tmpdir id = Some (Bytes raw) ->
  jsonParse rt raw = None ->
  exists w', loadSessionInfo tmpdir rt id w
             = (Err (JsonSyntaxError (infoPathOf tmpdir id)), w')
             /\ w_fs w' = mkFS true (fs_files (w_fs w)).
Proof.
  intros Hv Hl Hp. store. rewrite Hv. simpl.
  fold (infoPathOf tmpdir id). rewrite Hl. simpl. rewrite Hl. simpl. rewrite Hp.
  eexists; split; reflexivity.
Qed.

Lemma load_foreign id raw v w :
  matchesIdRegex id = true ->
  fs_files (w_fs w) !! infoPathOf tmpdir id = Some (Bytes raw) ->
  jsonParse rt raw = Some v ->
  exists w', loadSessionInfo tmpdir rt id w = (Ok (Foreign v), w')
             /\ w_fs w' = mkFS true (fs_files (w_fs w)).
Proof.
  intros Hv Hl Hp. store. rewrite Hv. simpl.
  fold (infoPathOf tmpdir id). rewrite Hl. simpl. rewrite Hl. simpl. rewrite Hp.
  eexists; split; reflexivity.
Qed.

Lemma assoc_setProp_ne k k' x props :
  k <> k' -> assoc k' (setProp k x props) = assoc k' props.
Proof.
  intros Hne. induction props as [|[k0 v0] rest IH]; simpl.
  - destruct (decide (k' = k)); [congruence|reflexivity].
  - destruct (decide (k0 = k)) as [->|]; simpl.
    + destruct (decide (k' = k)); [congruence|reflexivity].
    + destruct (decide (k' = k0)); [reflexivity|exact IH].
Qed.

(** The two assignments of [closeSession] leave [id] as it is. *)
Lemma closedValue_id now v v' :
  closedValue now v = Some v' -> prop v' "id" = prop v "id".
Proof.
  unfold closedValue, assignProp.
  destruct v as [| | | |items|props]; try discriminate; intros H; injection H as <-;
    [reflexivity|].
  unfold prop. rewrite !assoc_setProp_ne; [reflexivity| |];
    intros H; vm_compute in H; discriminate.
Qed.

(** [saveForeign] on a value whose id gives a plain file name. *)
Lemma save_foreign_plain v id w :
  toTextOpt (numberText rt) (prop v "id") = Some id ->
  plainName (id ++ js ".info.json") = true ->
  exists w', saveForeign tmpdir rt v w = (Ok tt, w')
    /\ fs_files (w_fs w') = <[infoPathOf tmpdir id := Bytes (jsonText rt v)]> (fs_files (w_fs w)).
Proof.
  intros Hid Hn. unfold saveForeign, getSessionDir, bind, mkdirSync, logged. simpl.
  rewrite Hid, Hn. unfold writeFileSync. simpl. eexists. split; reflexivity.
Qed.

(** The id a successful [start] returns: the generated one, or the name,
    which was valid and free. *)
Lemma start_id now uuid o w sessionId w' :
  cmdStart tmpdir now uuid o w = (Ok sessionId, w') ->
  In colon (so_model o)
  /\ (nameGiven o = None /\ sessionId = uuid
      \/ nameGiven o = Some sessionId /\ matchesIdRegex sessionId = true
         /\ (length sessionId <= 64)%nat
         /\ fs_files (w_fs w) !! infoPathOf tmpdir sessionId = None).
Proof.
  intros H.
  destruct (in_dec N.eq_dec colon (so_model o)) as [Hc|Hc];
    [|rewrite (start_bad_model _ _ _ _ _ Hc) in H; discriminate].
  split; [exact Hc|].
  destruct (nameGiven o) as [name|] eqn:Hn.
  - destruct (matchesIdRegex name) eqn:Hv;
      [|rewrite (start_named_invalid _ _ _ _ _ _ Hc Hn Hv) in H; discriminate].
    destruct (le_lt_dec (length name) 64) as [Hl|Hl];
      [|rewrite (start_named_long _ _ _ _ _ _ Hc Hn Hv Hl) in H; discriminate].
    destruct (fs_files (w_fs w) !! infoPathOf tmpdir name) as [c|] eqn:He.
    + destruct (start_named_exists tmpdir now uuid _ _ _ w Hc Hn Hv Hl He) as (w1 & E & _).
      rewrite E in H. discriminate.
    + destruct (start_named_fresh tmpdir now uuid _ _ w Hc Hn Hv Hl He) as (w1 & E & F).
      rewrite E in H. injection H as <- <-. right. now repeat split.
  - destruct (start_unnamed tmpdir now uuid _ w Hc Hn) as (w1 & E & F).
    rewrite E in H. injection H as <- <-. left. now split.
Qed.

End MoreStoreFacts.

(** ** The store stays well formed *)

Section Triples.
Variable tmpdir : list N.
Variable rt : Runtime.

Abbreviation files := (gmap (list N) content).

Lemma hoare_ret {A : Type} (P : files -> Prop) (a : A) (Q : A -> files -> Prop) :
  (forall f, P f -> Q a f) -> hoare tmpdir P (ret a) Q.
Proof. intros H w r w' Hw Hp E. injection E as <- <-. split; [exact Hw|]. now apply H. Qed.

Lemma hoare_throw {A : Type} (P : files -> Prop) (e : error) (Q : A -> files -> Prop) :
  hoare tmpdir P (throw e) Q.
Proof. intros w r w' Hw Hp E. injection E as <- <-. now split. Qed.

Lemma hoare_bind {A B : Type} (P : files -> Prop) (m : M A) (Q : A -> files -> Prop)
    (k : A -> M B) (R : B -> files -> Prop) :
  hoare tmpdir P m Q -> (forall a, hoare tmpdir (Q a) (k a) R) ->
  hoare tmpdir P (bind m k) R.
Proof.
  intros Hm Hk w r w' Hw Hp E. unfold bind in E.
  destruct (m w) as [[a|e] w1] eqn:Em.
  - destruct (Hm _ _ _ Hw Hp Em) as [Hw1 Hq]. exact (Hk a _ _ _ Hw1 Hq E).
  - destruct (Hm _ _ _ Hw Hp Em) as [Hw1 _]. injection E as <- <-. now split.
Qed.

Lemma hoare_weaken {A : Type} (P P' : files -> Prop) (m : M A) (Q Q' : A -> files -> Prop) :
  hoare tmpdir P m Q -> (forall f, P' f -> P f) -> (forall a f, Q a f -> Q' a f) ->
  hoare tmpdir P' m Q'.
Proof.
  intros H HP HQ w r w' Hw Hp E. destruct (H _ _ _ Hw (HP _ Hp) E) as [Hw' Hq].
  split; [exact Hw'|]. destruct r; [now apply HQ|exact I].
Qed.

Lemma hoare_catch {A : Type} (P : files -> Prop) (body handler : M A) (Q : A -> files -> Prop) :
  hoare tmpdir P body Q -> hoare tmpdir (fun _ => True) handler Q ->
  hoare tmpdir P (catch body handler) Q.
Proof.
  intros Hb Hh w r w' Hw Hp E. unfold catch in E.
  destruct (body w) as [[a|e] w1] eqn:Eb.
  - injection E as <- <-. exact (Hb _ _ _ Hw Hp Eb).
  - destruct (Hb _ _ _ Hw Hp Eb) as [Hw1 _]. exact (Hh _ _ _ Hw1 I E).
Qed.

(** A triple whose precondition fixes a value. *)
Lemma hoare_given {A : Type} (H : Prop) (P : files -> Prop) (m : M A) (Q : A -> files -> Prop) :
  (H -> hoare tmpdir P m Q) -> hoare tmpdir (fun f => H /\ P f) m Q.
Proof. intros Hm w r w' Hw [Hh Hp] E. exact (Hm Hh _ _ _ Hw Hp E). Qed.

Lemma wellFormed_files w w' :
  wellFormed tmpdir w -> fs_files (w_fs w') = fs_files (w_fs w) ->
  (fs_dir (w_fs w) = true -> fs_dir (w_fs w') = true) ->
  wellFormed tmpdir w'.
Proof.
  intros [Hd Hi] Hf Hdir. split; rewrite Hf.
  - intros path c H. apply Hdir. eauto.
  - exact Hi.
Qed.

Lemma wellFormed_delete w w' path :
  wellFormed tmpdir w -> fs_files (w_fs w') = delete path (fs_files (w_fs w)) ->
  (fs_dir (w_fs w) = true -> fs_dir (w_fs w') = true) ->
  wellFormed tmpdir w'.
Proof.
  intros [Hd Hi] Hf Hdir. split; rewrite Hf.
  - intros p c H. apply lookup_delete_Some in H as [_ H]. apply Hdir. eauto.
  - intros id info H. apply lookup_delete_Some in H as [_ H]. eauto.
Qed.

Lemma hoare_mkdirSync (P : files -> Prop) (dir : jstring) :
  hoare tmpdir P (mkdirSync dir) (fun _ f => P f).
Proof.
  intros w r w' Hw Hp E. injection E as <- <-. split; [|exact Hp].
  eapply wellFormed_files; [exact Hw|reflexivity|reflexivity].
Qed.

Lemma hoare_existsSync (P : files -> Prop) (path : jstring) :
  hoare tmpdir P (existsSync path) (fun _ f => P f).
Proof.
  intros w r w' Hw Hp E. injection E as <- <-. split; [|exact Hp].
  eapply wellFormed_files; [exact Hw|reflexivity|tauto].
Qed.

Lemma hoare_readFileSync (P : files -> Prop) (path : jstring) :
  hoare tmpdir P (readFileSync path) (fun c f => P f /\ f !! path = Some c).
Proof.
  intros w r w' Hw Hp E. unfold readFileSync in E.
  destruct (fs_files (w_fs w) !! path) as [c|] eqn:El; injection E as <- <-.
  - split; [|now split]. eapply wellFormed_files; [exact Hw|reflexivity|tauto].
  - split; [|exact I]. eapply wellFormed_files; [exact Hw|reflexivity|tauto].
Qed.

Lemma hoare_writeFileSync (P : files -> Prop) (info : SessionInfo) :
  hoare tmpdir P (writeFileSync (infoPathOf tmpdir (si_id info)) (InfoDoc info))
    (fun _ f => exists f0, P f0 /\ f = <[infoPathOf tmpdir (si_id info) := InfoDoc info]> f0).
Proof.
  intros w r w' Hw Hp E. unfold writeFileSync in E.
  destruct (fs_dir (w_fs w)) eqn:Ed; injection E as <- <-.
  - split; [|now exists (fs_files (w_fs w))].
    eapply wellFormed_insert; [exact Hw|reflexivity|reflexivity].
  - split; [|exact I]. eapply wellFormed_files; [exact Hw|reflexivity|tauto].
Qed.

Lemma hoare_unlinkSync (P : files -> Prop) (path : jstring) :
  hoare tmpdir P (unlinkSync path) (fun _ f => exists f0, P f0 /\ f = delete path f0).
Proof.
  intros w r w' Hw Hp E. unfold unlinkSync in E.
  destruct (fs_files (w_fs w) !! path) as [c|] eqn:El; injection E as <- <-.
  - split; [|now exists (fs_files (w_fs w))].
    eapply wellFormed_delete; [exact Hw|reflexivity|tauto].
  - split; [|exact I]. eapply wellFormed_files; [exact Hw|reflexivity|tauto].
Qed.

Lemma hoare_getSessionDir (P : files -> Prop) :
  hoare tmpdir P (getSessionDir tmpdir) (fun dir f => dir = sessionDir tmpdir /\ P f).
Proof.
  unfold getSessionDir. eapply hoare_bind; [apply hoare_mkdirSync|].
  intros ?. apply hoare_ret. now split.
Qed.

Lemma hoare_getSessionInfoPath (P : files -> Prop) (id : jstring) :
  hoare tmpdir P (getSessionInfoPath tmpdir id)
    (fun path f => path = infoPathOf tmpdir id /\ P f).
Proof.
  unfold getSessionInfoPath. eapply hoare_bind; [apply hoare_getSessionDir|].
  intros dir. apply hoare_given. intros ->. apply hoare_ret. intros f Hp. now split.
Qed.

Lemma hoare_getSessionFilePath (P : files -> Prop) (id : jstring) :
  hoare tmpdir P (getSessionFilePath tmpdir id)
    (fun path f => path = filePathOf tmpdir id /\ P f).
Proof.
  unfold getSessionFilePath. eapply hoare_bind; [apply hoare_getSessionDir|].
  intros dir. apply hoare_given. intros ->. apply hoare_ret. intros f Hp. now split.
Qed.

Lemma hoare_saveSessionInfo (P : files -> Prop) (info : SessionInfo) :
  hoare tmpdir P (saveSessionInfo tmpdir info) (fun _ _ => True).
Proof.
  unfold saveSessionInfo. eapply hoare_bind; [apply hoare_getSessionInfoPath|].
  intros path. apply hoare_given. intros ->.
  eapply hoare_weaken; [apply hoare_writeFileSync|intros f H; exact H|trivial].
Qed.

Lemma hoare_validateSessionId (P : files -> Prop) (id : jstring) :
  hoare tmpdir P (validateSessionId id) (fun _ f => P f).
Proof.
  unfold validateSessionId. destruct (matchesIdRegex id);
    [now apply hoare_ret|apply hoare_throw].
Qed.

(** On a well-formed store, the record loaded for an id carries it. *)
Lemma hoare_loadSessionInfo (P : files -> Prop) (id : jstring) :
  hoare tmpdir P (loadSessionInfo tmpdir rt id)
    (fun info _ => match info with Saved info => si_id info = id | Foreign _ => True end).
Proof.
  unfold loadSessionInfo.
  eapply hoare_bind; [apply hoare_validateSessionId|]. intros ?.
  eapply hoare_bind; [apply hoare_getSessionInfoPath|]. intros path.
  apply hoare_given. intros ->.
  eapply hoare_bind; [apply hoare_existsSync|]. intros [|]; [|apply hoare_throw].
  eapply hoare_bind; [apply hoare_readFileSync|]. intros c.
  intros w r w' Hw [_ Hl] E. destruct c as [info|raw].
  - injection E as <- <-. split; [exact Hw|]. destruct Hw as [_ Hi]. now apply Hi.
  - unfold parseInfo in E. destruct (jsonParse rt raw); injection E as <- <-; now split.
Qed.

Lemma hoare_saveForeign (P : files -> Prop) (v : json) :
  hoare tmpdir P (saveForeign tmpdir rt v) (fun _ _ => True).
Proof.
  intros w r w' Hw _ E. split; [|now destruct r].
  apply save_foreign_files in E as [Hd [F|(path & _ & F)]].
  - destruct Hw as [_ Hi]. split; [intros; exact Hd|]. now rewrite F.
  - eapply wellFormed_bytes; [exact Hw|]. destruct (w_fs w'); simpl in *. now subst.
Qed.

Lemma hoare_closeSession (P : files -> Prop) (now : Z) (id : jstring) :
  hoare tmpdir P (closeSession tmpdir rt now id) (fun _ _ => True).
Proof.
  unfold closeSession.
  eapply hoare_bind; [apply hoare_validateSessionId|]. intros ?.
  eapply hoare_bind; [apply hoare_loadSessionInfo|]. intros [info|v].
  - apply hoare_saveSessionInfo.
  - destruct (assignProp "status" _ v) as [v1|]; [|apply hoare_throw].
    destruct (assignProp "closedAt" _ v1) as [v2|]; [|apply hoare_throw].
    apply hoare_saveForeign.
Qed.

Lemma hoare_purgeSession (P : files -> Prop) (id : jstring) :
  hoare tmpdir P (purgeSession tmpdir id) (fun _ _ => True).
Proof.
  unfold purgeSession.
  eapply hoare_bind; [apply hoare_validateSessionId|]. intros ?.
  eapply hoare_bind; [apply hoare_getSessionInfoPath|]. intros infoPath.
  eapply hoare_bind; [apply hoare_getSessionFilePath|]. intros sessionFile.
  eapply hoare_bind; [apply hoare_existsSync|]. intros thereInfo.
  eapply hoare_bind with (Q := fun _ _ => True).
  { destruct thereInfo; [|now apply hoare_ret].
    eapply hoare_weaken; [apply hoare_unlinkSync|intros f H; exact H|trivial]. }
  intros ?. eapply hoare_bind; [apply hoare_existsSync|]. intros thereFile.
  destruct thereFile.
  - eapply hoare_weaken; [apply hoare_unlinkSync|intros f H; exact H|trivial].
  - now apply hoare_ret.
Qed.

Lemma hoare_validateSessionName (P : files -> Prop) (name : jstring) :
  hoare tmpdir P (validateSessionName name) (fun _ f => P f).
Proof.
  unfold validateSessionName. destruct (matchesIdRegex name); [|apply hoare_throw].
  destruct (_ <? _)%nat; [apply hoare_throw|now apply hoare_ret].
Qed.

Lemma hoare_cmdStart (P : files -> Prop) (now : Z) (uuid : jstring) (options : StartOptions) :
  hoare tmpdir P (cmdStart tmpdir now uuid options) (fun _ _ => True).
Proof.
  unfold cmdStart. cbv zeta. destruct (_ <? _)%nat; [apply hoare_throw|].
  eapply hoare_bind with (Q := fun _ _ => True).
  { destruct (so_name options) as [name|]; [|now apply hoare_ret].
    destruct (truthyStr name); [|now apply hoare_ret].
    eapply hoare_bind; [apply hoare_validateSessionName|]. intros ?.
    eapply hoare_bind; [apply hoare_getSessionInfoPath|]. intros path.
    eapply hoare_bind; [apply hoare_existsSync|]. intros [|];
      [apply hoare_throw|now apply hoare_ret]. }
  intros sessionId.
  eapply hoare_bind; [apply hoare_getSessionFilePath|]. intros sessionFile.
  eapply hoare_bind; [apply hoare_saveSessionInfo|]. intros ?. now apply hoare_ret.
Qed.

Lemma hoare_cmdSend {R : Type} (turn : jstring -> loaded -> Z -> M R) message session timeout :
  (forall info timeout, hoare tmpdir (fun _ => True) (turn message info timeout)
                          (fun _ _ => True)) ->
  hoare tmpdir (fun _ => True) (cmdSend tmpdir rt turn message session timeout)
    (fun _ _ => True).
Proof.
  intros Ht. unfold cmdSend.
  eapply hoare_bind; [apply hoare_loadSessionInfo|]. intros info.
  eapply hoare_weaken; [apply Ht|now intros|now intros].
Qed.

Lemma hoare_readdirSync (P : files -> Prop) (dir : jstring) :
  hoare tmpdir P (readdirSync dir) (fun _ f => P f).
Proof.
  intros w r w' Hw Hp E. unfold readdirSync in E.
  destruct (fs_dir (w_fs w)); injection E as <- <-.
  - split; [|exact Hp]. eapply wellFormed_files; [exact Hw|reflexivity|tauto].
  - split; [|exact I]. eapply wellFormed_files; [exact Hw|reflexivity|tauto].
Qed.

Lemma hoare_listFiles ageText now dir listed :
  hoare tmpdir (fun _ => True) (listFiles rt ageText now dir listed) (fun _ _ => True).
Proof.
  induction listed as [|file rest IH]; simpl; [now apply hoare_ret|].
  eapply hoare_bind with (Q := fun _ _ => True).
  { apply hoare_catch; [|now apply hoare_ret].
    eapply hoare_bind; [apply hoare_readFileSync|]. intros text.
    eapply hoare_bind with (Q := fun _ _ => True).
    - unfold parseInfo. destruct text as [info|raw]; [now apply hoare_ret|].
      destruct (jsonParse rt raw); [now apply hoare_ret|apply hoare_throw].
    - intros [info|v]; [now apply hoare_ret|].
      destruct (foreignLine rt (now file) v); [now apply hoare_ret|apply hoare_throw]. }
  intros printed. eapply hoare_bind; [apply IH|]. intros more. now apply hoare_ret.
Qed.

Lemma hoare_cmdList ageText now :
  hoare tmpdir (fun _ => True) (cmdList tmpdir rt ageText now) (fun _ _ => True).
Proof.
  unfold cmdList.
  eapply hoare_bind; [apply hoare_getSessionDir|]. intros dir.
  eapply hoare_bind; [apply hoare_readdirSync|]. intros entries. cbv zeta.
  destruct (List.filter _ entries); [now apply hoare_ret|].
  eapply hoare_bind; [eapply hoare_weaken; [apply hoare_listFiles|now intros|]|].
  - intros a f H. exact H.
  - intros rows. now apply hoare_ret.
Qed.

End Triples.

(** ** Listing *)

Lemma stripPrefix_app prefix rest : stripPrefix prefix (prefix ++ rest) = Some rest.
Proof. induction prefix as [|p prefix IH]; simpl; [reflexivity|]. now rewrite N.eqb_refl. Qed.

Lemma stripPrefix_Some prefix : forall s rest,
  stripPrefix prefix s = Some rest -> s = prefix ++ rest.
Proof.
  induction prefix as [|p prefix IH]; simpl; intros s rest H.
  - now injection H as <-.
  - destruct s as [|c s]; [discriminate|].
    destruct (N.eqb_spec p c) as [->|]; [|discriminate].
    now rewrite (IH _ _ H).
Qed.

Lemma split_without sep s : ~ In sep s -> split sep s = [s].
Proof.
  induction s as [|c s IH]; simpl; intros Hn; [reflexivity|].
  destruct (N.eqb_spec c sep) as [->|Hne]; [exfalso; apply Hn; now left|].
  rewrite IH by tauto. reflexivity.
Qed.

Lemma entryOf_file dir file :
  ~ In 47%N file -> entryOf dir (pathJoin dir file) = Some file.
Proof.
  intros Hn. unfold entryOf, pathJoin. rewrite app_assoc, stripPrefix_app.
  now rewrite (split_without _ _ Hn).
Qed.

Lemma idChars_no_slash s : forallb isIdChar s = true -> ~ In 47%N s.
Proof.
  intros Hf Hin. rewrite forallb_forall in Hf. specialize (Hf _ Hin). discriminate.
Qed.

Lemma endsWith_app suffix s : endsWith suffix (s ++ suffix) = true.
Proof.
  unfold endsWith. rewrite length_app.
  apply andb_true_intro. split; [apply Nat.leb_le; lia|].
  apply bool_decide_eq_true.
  replace (length s + length suffix - length suffix)%nat with (length s) by lia.
  apply drop_app_length.
Qed.

Section ListFacts.
Variable tmpdir : list N.
Variable rt : Runtime.
Variable ageText : Z -> Z -> list N.
Variable now : list N -> Z.

Lemma listFiles_run dir listed : forall w,
  exists w',
    listFiles rt ageText now dir listed w
    = (Ok (flat_map (printedFor rt ageText now (fs_files (w_fs w)) dir) listed), w')
    /\ w_fs w' = w_fs w.
Proof.
  induction listed as [|file rest IH]; intros w; simpl.
  - eexists. split; reflexivity.
  - unfold bind at 1. unfold catch, bind, readFileSync, parseInfo, ret, throw, printedFor, lineOf.
    destruct (IH (logged (OpRead (pathJoin dir file)) w)) as (w' & E & F).
    simpl in E, F.
    destruct (fs_files (w_fs w) !! pathJoin dir file) as [[info|raw]|] eqn:El.
    + rewrite E. eexists. split; [reflexivity|exact F].
    + destruct (jsonParse rt raw) as [v|].
      * destruct (foreignLine rt (now file) v) as [line|];
          rewrite E; eexists; (split; [reflexivity|exact F]).
      * rewrite E. eexists. split; [reflexivity|exact F].
    + rewrite E. eexists. split; [reflexivity|exact F].
Qed.

Lemma readdir_entries (dir : list N) (fs : gmap (list N) content) (file : list N) :
  In file (remove_dups (omap (entryOf dir) (List.map fst (map_to_list fs))))
  <-> exists path c, fs !! path = Some c /\ entryOf dir path = Some file.
Proof.
  rewrite <- list_elem_of_In, elem_of_remove_dups, list_elem_of_omap. split.
  - intros (path & Hin & He). apply list_elem_of_In, in_map_iff in Hin as ([p c] & <- & Hin).
    apply list_elem_of_In, elem_of_map_to_list in Hin. now exists p, c.
  - intros (path & c & Hl & He). exists path. split; [|exact He].
    apply list_elem_of_In, in_map_iff. exists (path, c). split; [reflexivity|].
    now apply list_elem_of_In, elem_of_map_to_list.
Qed.

(** [cmdList], step by step. *)
Lemma list_run w :
  let fs := fs_files (w_fs w) in
  let dir := sessionDir tmpdir in
  let listed :=
    List.filter (endsWith (js ".info.json"))
      (remove_dups (omap (entryOf dir) (List.map fst (map_to_list fs)))) in
  exists w',
    cmdList tmpdir rt ageText now w
    = (Ok (match listed with
           | [] => [js "No sessions"]
           | _ :: _ => js "Sessions:" :: flat_map (printedFor rt ageText now fs dir) listed
           end), w')
    /\ w_fs w' = mkFS true fs.
Proof.
  intros fs dir listed. unfold cmdList, getSessionDir, mkdirSync, readdirSync, bind, ret, logged.
  simpl. fold fs dir listed.
  destruct listed as [|file rest] eqn:El.
  - eexists. split; reflexivity.
  - match goal with
    | |- context [listFiles rt ageText now dir (file :: rest) ?w0] =>
        destruct (listFiles_run dir (file :: rest) w0) as (w' & E & F)
    end.
    rewrite E. eexists. split; [reflexivity|]. rewrite F. reflexivity.
Qed.

End ListFacts.

(** ** Properties of the store and the commands *)

(** X1. Every string of the shape [isUUID] tests (what
    [crypto.randomUUID()] returns) has 36 code units and passes both
    [validateSessionId] and [validateSessionName]: the id generated for a
    session without a name is accepted wherever an id is checked. *)
Theorem uuid_passes_the_id_checks (str : list N) (w : World) :
  isUUID str = true ->
  length str = 36%nat
  /\ matchesIdRegex str = true
  /\ validateSessionId str w = (Ok tt, w)
  /\ validateSessionName str w = (Ok tt, w).
Proof.
  intros H. destruct (isUUID_valid _ H) as [Hv Hl].
  split; [exact Hl|]. split; [exact Hv|].
  unfold validateSessionId, validateSessionName. rewrite Hv, Hl. now split.
Qed.

Lemma uuid_passes_the_id_checks_witness :
  isUUID uuid0 = true
  /\ validateSessionId uuid0 emptyWorld = (Ok tt, emptyWorld).
Proof.
  assert (H : isUUID uuid0 = true) by (vm_compute; reflexivity).
  split; [exact H|].
  exact (proj1 (proj2 (proj2 (uuid_passes_the_id_checks uuid0 emptyWorld H)))).
Defined.

(** X2. After a successful [start] (the generated id being a UUID),
    loading the returned id gives back exactly the record that was saved,
    without changing a file, and [send] runs the turn on that record with
    the timeout given, or 300000 when it is absent or 0. *)
Theorem start_then_load_gives_the_record_back
    (tmpdir : list N) (rt : Runtime) (now : Z) (uuid : list N) (options : StartOptions)
    (w : World) (sessionId : list N) (w1 : World) :
  isUUID uuid = true ->
  cmdStart tmpdir now uuid options w = (Ok sessionId, w1) ->
  exists w2,
    loadSessionInfo tmpdir rt sessionId w1
    = (Ok (Saved (startInfo tmpdir now sessionId options)), w2)
    /\ w_fs w2 = w_fs w1
    /\ forall (R : Type) (turn : list N -> loaded -> Z -> M R) message timeout,
         cmdSend tmpdir rt turn message sessionId timeout w1
         = turn message (Saved (startInfo tmpdir now sessionId options))
             (timeoutOr timeout) w2.
Proof.
  intros Hu Hs.
  assert (Hv : matchesIdRegex sessionId = true).
  { destruct (start_id _ _ _ _ _ _ _ Hs) as [_ [[_ ->]|(_ & Hv & _)]]; [|exact Hv].
    now apply isUUID_valid. }
  pose proof (start_ok _ _ _ _ _ _ _ Hs) as F.
  assert (Hl : fs_files (w_fs w1) !! infoPathOf tmpdir sessionId
               = Some (InfoDoc (startInfo tmpdir now sessionId options)))
    by (rewrite F; simpl; apply lookup_insert_eq).
  destruct (load_run tmpdir rt _ _ w1 Hv Hl) as (w2 & E & F2).
  exists w2. split; [exact E|]. split.
  - rewrite F2, F. reflexivity.
  - intros R turn message timeout. unfold cmdSend, bind. rewrite E.
    destruct timeout as [t|]; reflexivity.
Qed.

Lemma start_then_load_gives_the_record_back_witness :
  (isUUID uuid0 = true
   /\ cmdStart (js "/tmp") 1700000000000 uuid0 demoOptions emptyWorld
      = (Ok (js "demo"), demoWorld))
  /\ exists w2,
       loadSessionInfo (js "/tmp") sampleRuntime (js "demo") demoWorld
       = (Ok (Saved (startInfo (js "/tmp") 1700000000000 (js "demo") demoOptions)), w2).
Proof.
  assert (H : isUUID uuid0 = true) by (vm_compute; reflexivity).
  split; [split; [exact H|exact demoWorld_started]|].
  destruct (start_then_load_gives_the_record_back (js "/tmp") sampleRuntime 1700000000000 uuid0
              demoOptions emptyWorld (js "demo") demoWorld H demoWorld_started)
    as (w2 & E & _).
  now exists w2.
Defined.

(** X3. A name stays taken after [end] and is free again after [purge]:
    once a session was started under a name, [end] succeeds and a second
    [start] with that name still fails with the collision error, while
    after [purge] the same [start] succeeds again. *)
Theorem end_keeps_the_name_and_purge_frees_it
    (tmpdir : list N) (rt : Runtime) (now : Z) (uuid : list N) (options : StartOptions)
    (name : list N) (w w1 : World) :
  nameGiven options = Some name ->
  cmdStart tmpdir now uuid options w = (Ok name, w1) ->
  (forall closedAt now' uuid',
     exists w2 w3,
       cmdEnd tmpdir rt closedAt name w1 = (Ok tt, w2)
       /\ cmdStart tmpdir now' uuid' options w2 = (Err (SessionExists name), w3))
  /\ (forall now' uuid',
        exists w2 w3,
          cmdPurge tmpdir name w1 = (Ok tt, w2)
          /\ cmdStart tmpdir now' uuid' options w2 = (Ok name, w3)
          /\ storedInfo tmpdir name w3 = Some (startInfo tmpdir now' name options)).
Proof.
  intros Hn Hs.
  destruct (start_id _ _ _ _ _ _ _ Hs) as [Hc [[Hn' _]|(_ & Hv & Hl & _)]];
    [congruence|].
  pose proof (start_ok _ _ _ _ _ _ _ Hs) as F.
  assert (Hi : fs_files (w_fs w1) !! infoPathOf tmpdir name
               = Some (InfoDoc (startInfo tmpdir now name options)))
    by (rewrite F; simpl; apply lookup_insert_eq).
  split.
  - intros closedAt now' uuid'. unfold cmdEnd.
    destruct (close_run tmpdir rt closedAt _ _ w1 Hv Hi) as (w2 & E & F2).
    simpl in F2.
    assert (Hi2 : fs_files (w_fs w2) !! infoPathOf tmpdir name
                  = Some (InfoDoc (closedInfo closedAt (startInfo tmpdir now name options))))
      by (rewrite F2; simpl; apply lookup_insert_eq).
    destruct (start_named_exists tmpdir now' uuid' options name _ w2 Hc Hn Hv Hl Hi2)
      as (w3 & E3 & _).
    now exists w2, w3.
  - intros now' uuid'. unfold cmdPurge.
    destruct (purge_run tmpdir _ w1 Hv) as (w2 & E & F2).
    assert (Hi2 : fs_files (w_fs w2) !! infoPathOf tmpdir name = None).
    { rewrite F2. simpl. rewrite lookup_delete_None. right. apply lookup_delete_eq. }
    destruct (start_named_fresh tmpdir now' uuid' options name w2 Hc Hn Hv Hl Hi2)
      as (w3 & E3 & F3).
    exists w2, w3. split; [exact E|]. split; [exact E3|].
    eapply storedInfo_insert; eassumption.
Qed.

Lemma end_keeps_the_name_and_purge_frees_it_witness :
  (nameGiven demoOptions = Some (js "demo")
   /\ cmdStart (js "/tmp") 1700000000000 uuid0 demoOptions emptyWorld
      = (Ok (js "demo"), demoWorld))
  /\ exists w2 w3,
       cmdEnd (js "/tmp") sampleRuntime 1700000000001 (js "demo") demoWorld = (Ok tt, w2)
       /\ cmdStart (js "/tmp") 1700000000002 uuid0 demoOptions w2
          = (Err (SessionExists (js "demo")), w3).
Proof.
  split; [split; [reflexivity|exact demoWorld_started]|].
  exact (proj1 (end_keeps_the_name_and_purge_frees_it (js "/tmp") sampleRuntime 1700000000000 uuid0
                  demoOptions (js "demo") emptyWorld demoWorld eq_refl demoWorld_started)
           1700000000001 1700000000002 uuid0).
Defined.

(** X4. For a valid id without a metadata file, [load], [send] and [end]
    all throw [Session not found]; [send] does not start the turn; no
    file is created or changed, but the sessions directory now exists. A
    metadata file whose text [JSON.parse] refuses makes the three throw
    the parse error, and [end] does not rewrite it. A text that parses is
    taken for a record, whatever value it gives: [load] returns the value
    and [send] runs the turn on it. On such a value [end] throws a
    [TypeError] and writes nothing when the value takes no property
    ([null], a number, a string, a boolean); otherwise it sets [status]
    and [closedAt] on the value and writes it to the file named after the
    value's own [id] (for a plain name), not after the id it was asked to
    close. For the text [{}], whose value has no [id], that file is
    [undefined.info.json], and the file that was read stays as it
    was. *)
Theorem only_missing_or_unparsable_metadata_is_reported
    (tmpdir : list N) (rt : Runtime) (sessionId : list N) (w : World) :
  matchesIdRegex sessionId = true ->
  (fs_files (w_fs w) !! infoPathOf tmpdir sessionId = None ->
   exists w',
     loadSessionInfo tmpdir rt sessionId w = (Err (SessionNotFound sessionId), w')
     /\ (forall (R : Type) (turn : list N -> loaded -> Z -> M R) message timeout,
           cmdSend tmpdir rt turn message sessionId timeout w
           = (Err (SessionNotFound sessionId), w'))
     /\ (forall now, cmdEnd tmpdir rt now sessionId w = (Err (SessionNotFound sessionId), w'))
     /\ fs_files (w_fs w') = fs_files (w_fs w)
     /\ fs_dir (w_fs w') = true)
  /\ (forall raw,
        fs_files (w_fs w) !! infoPathOf tmpdir sessionId = Some (Bytes raw) ->
        jsonParse rt raw = None ->
        exists w',
          loadSessionInfo tmpdir rt sessionId w
          = (Err (JsonSyntaxError (infoPathOf tmpdir sessionId)), w')
          /\ (forall (R : Type) (turn : list N -> loaded -> Z -> M R) message timeout,
                cmdSend tmpdir rt turn message sessionId timeout w
                = (Err (JsonSyntaxError (infoPathOf tmpdir sessionId)), w'))
          /\ (forall now,
                cmdEnd tmpdir rt now sessionId w
                = (Err (JsonSyntaxError (infoPathOf tmpdir sessionId)), w'))
          /\ fs_files (w_fs w') = fs_files (w_fs w))
  /\ (forall raw v,
        fs_files (w_fs w) !! infoPathOf tmpdir sessionId = Some (Bytes raw) ->
        jsonParse rt raw = Some v ->
        (exists w',
           loadSessionInfo tmpdir rt sessionId w = (Ok (Foreign v), w')
           /\ fs_files (w_fs w') = fs_files (w_fs w)
           /\ (forall (R : Type) (turn : list N -> loaded -> Z -> M R) message timeout,
                 cmdSend tmpdir rt turn message sessionId timeout w
                 = turn message (Foreign v) (timeoutOr timeout) w'))
        /\ (forall now,
              match v with
              | JNull | JBool _ | JNum _ | JStr _ =>
                  exists w',
                    cmdEnd tmpdir rt now sessionId w = (Err StoreTypeError, w')
                    /\ fs_files (w_fs w') = fs_files (w_fs w)
              | JArr _ | JObj _ =>
                  exists v', closedValue now v = Some v'
                    /\ forall id,
                         toTextOpt (numberText rt) (prop v "id") = Some id ->
                         plainName (id ++ js ".info.json") = true ->
                         exists w',
                           cmdEnd tmpdir rt now sessionId w = (Ok tt, w')
                           /\ fs_files (w_fs w')
                              = <[infoPathOf tmpdir id := Bytes (jsonText rt v')]>
                                  (fs_files (w_fs w))
              end))
  /\ (forall raw now,
        fs_files (w_fs w) !! infoPathOf tmpdir sessionId = Some (Bytes raw) ->
        jsonParse rt raw = Some (JObj []) ->
        exists w',
          cmdEnd tmpdir rt now sessionId w = (Ok tt, w')
          /\ fs_files (w_fs w')
             = <[infoPathOf tmpdir (js "undefined") :=
                   Bytes (jsonText rt
                            (JObj [(js "status", JStr (js "closed"));
                                   (js "closedAt", JNum (numOfZ now))]))]>
                 (fs_files (w_fs w))
          /\ (sessionId <> js "undefined" ->
              fs_files (w_fs w') !! infoPathOf tmpdir sessionId = Some (Bytes raw))).
Proof.
  intros Hv. split; [|split; [|split]].
  - intros Hl. destruct (load_missing tmpdir rt _ w Hv Hl) as (w' & E & F).
    exists w'. split; [exact E|]. split; [|split; [|split]].
    + intros R turn message timeout. unfold cmdSend, bind. now rewrite E.
    + intros now. unfold cmdEnd, closeSession, bind, validateSessionId.
      rewrite Hv. unfold ret. now rewrite E.
    + now rewrite F.
    + now rewrite F.
  - intros raw Hl Hp. destruct (load_corrupted tmpdir rt _ raw w Hv Hl Hp) as (w' & E & F).
    exists w'. split; [exact E|]. split; [|split].
    + intros R turn message timeout. unfold cmdSend, bind. now rewrite E.
    + intros now. unfold cmdEnd, closeSession, bind, validateSessionId.
      rewrite Hv. unfold ret. now rewrite E.
    + now rewrite F.
  - intros raw v Hl Hp. split.
    + destruct (load_foreign tmpdir rt _ raw v w Hv Hl Hp) as (w' & E & F).
      exists w'. split; [exact E|]. split; [now rewrite F|].
      intros R turn message timeout. unfold cmdSend, bind. rewrite E.
      destruct timeout as [t|]; reflexivity.
    + intros now. unfold cmdEnd.
      destruct (close_foreign tmpdir rt now _ _ w Hv Hl) as (w0 & F0 & D0 & E).
      rewrite Hp in E.
      destruct v as [|b|x|s|items|props];
        try (exists w0; split; [exact E|exact F0]).
      * exists (JArr items). split; [reflexivity|]. intros id Hid Hn.
        destruct (save_foreign_plain tmpdir rt (JArr items) id w0 Hid Hn) as (w' & E' & F').
        exists w'. split; [now rewrite E|]. now rewrite F', F0.
      * destruct (closedValue now (JObj props)) as [v'|] eqn:Hc; [|discriminate].
        exists v'. split; [reflexivity|]. intros id Hid Hn.
        rewrite <- (closedValue_id now (JObj props) v' Hc) in Hid.
        destruct (save_foreign_plain tmpdir rt v' id w0 Hid Hn) as (w' & E' & F').
        exists w'. split; [now rewrite E|]. now rewrite F', F0.
  - intros raw now Hl Hp. unfold cmdEnd.
    destruct (close_foreign tmpdir rt now _ _ w Hv Hl) as (w0 & F0 & D0 & E).
    rewrite Hp in E. simpl in E.
    match type of E with
    | _ = saveForeign _ _ ?v' _ =>
        destruct (save_foreign_plain tmpdir rt v' (js "undefined") w0 eq_refl eq_refl)
          as (w' & E' & F')
    end.
    exists w'. split; [now rewrite E|]. split; [now rewrite F', F0|].
    intros Hne. rewrite F', F0, lookup_insert_ne; [exact Hl|].
    intros H. apply infoPathOf_inj in H. congruence.
Qed.

Lemma only_missing_or_unparsable_metadata_is_reported_witness :
  (matchesIdRegex (js "odd") = true
   /\ fs_files (w_fs oddWorld) !! infoPathOf (js "/tmp") (js "odd") = Some (Bytes (js "{}"))
   /\ jsonParse sampleRuntime (js "{}") = Some (JObj []))
  /\ exists w',
       cmdEnd (js "/tmp") sampleRuntime 1700000000001 (js "odd") oddWorld = (Ok tt, w')
       /\ fs_files (w_fs w') !! infoPathOf (js "/tmp") (js "undefined")
          = Some (Bytes (jsonText sampleRuntime
                           (JObj [(js "status", JStr (js "closed"));
                                  (js "closedAt", JNum (numOfZ 1700000000001))])))
       /\ fs_files (w_fs w') !! infoPathOf (js "/tmp") (js "odd") = Some (Bytes (js "{}")).
Proof.
  assert (Hl : fs_files (w_fs oddWorld) !! infoPathOf (js "/tmp") (js "odd")
               = Some (Bytes (js "{}"))) by apply lookup_singleton_eq.
  assert (Hp : jsonParse sampleRuntime (js "{}") = Some (JObj [])) by reflexivity.
  split; [split; [reflexivity|split; [exact Hl|exact Hp]]|].
  destruct (proj2 (proj2 (proj2 (only_missing_or_unparsable_metadata_is_reported
                                   (js "/tmp") sampleRuntime (js "odd") oddWorld eq_refl)))
              (js "{}") 1700000000001 Hl Hp)
    as (w' & E & F & K).
  exists w'. split; [exact E|]. split.
  - rewrite F. apply lookup_insert_eq.
  - apply K. intros H. discriminate H.
Defined.

(** X5. [send] does not look at the status. For a session of a
    well-formed store, after [end] a [send] still runs the turn, on the
    closed record, and leaves every file as it is: the session stays
    closed. *)
Theorem send_does_not_check_the_status
    (tmpdir : list N) (rt : Runtime) (sessionId : list N) (info : SessionInfo)
    (closedAt : Z) (w : World) :
  wellFormed tmpdir w ->
  matchesIdRegex sessionId = true ->
  storedInfo tmpdir sessionId w = Some info ->
  exists w1 w2,
    cmdEnd tmpdir rt closedAt sessionId w = (Ok tt, w1)
    /\ (forall (R : Type) (turn : list N -> loaded -> Z -> M R) message timeout,
          cmdSend tmpdir rt turn message sessionId timeout w1
          = turn message (Saved (closedInfo closedAt info)) (timeoutOr timeout) w2)
    /\ w_fs w2 = w_fs w1
    /\ storedInfo tmpdir sessionId w2 = Some (closedInfo closedAt info)
    /\ listStatus (closedInfo closedAt info) = js "closed".
Proof.
  intros [Hdir Hid] Hv Hs. unfold storedInfo in Hs.
  destruct (fs_files (w_fs w) !! infoPathOf tmpdir sessionId) as [[i|]|] eqn:Hl;
    try discriminate.
  injection Hs as ->. pose proof (Hid _ _ Hl) as Hi.
  unfold cmdEnd. destruct (close_run tmpdir rt closedAt _ _ w Hv Hl) as (w1 & E1 & F1).
  rewrite Hi in F1.
  assert (Hl1 : fs_files (w_fs w1) !! infoPathOf tmpdir sessionId
                = Some (InfoDoc (closedInfo closedAt info)))
    by (rewrite F1; simpl; apply lookup_insert_eq).
  destruct (load_run tmpdir rt _ _ w1 Hv Hl1) as (w2 & E2 & F2).
  exists w1, w2. split; [exact E1|]. split; [|split; [|split]].
  - intros R turn message timeout. unfold cmdSend, bind. rewrite E2.
    destruct timeout as [t|]; reflexivity.
  - rewrite F2, F1. reflexivity.
  - unfold storedInfo. rewrite F2. simpl. now rewrite Hl1.
  - reflexivity.
Qed.

Lemma send_does_not_check_the_status_witness :
  (wellFormed (js "/tmp") demoWorld
   /\ matchesIdRegex (js "demo") = true
   /\ storedInfo (js "/tmp") (js "demo") demoWorld
      = Some (startInfo (js "/tmp") 1700000000000 (js "demo") demoOptions))
  /\ exists w1 w2,
       cmdEnd (js "/tmp") sampleRuntime 1700000000001 (js "demo") demoWorld = (Ok tt, w1)
       /\ storedInfo (js "/tmp") (js "demo") w2
          = Some (closedInfo 1700000000001
                    (startInfo (js "/tmp") 1700000000000 (js "demo") demoOptions)).
Proof.
  assert (Hw : wellFormed (js "/tmp") demoWorld).
  { eapply wellFormed_start; [apply wellFormed_empty|apply demoWorld_started]. }
  assert (Hs : storedInfo (js "/tmp") (js "demo") demoWorld
               = Some (startInfo (js "/tmp") 1700000000000 (js "demo") demoOptions))
    by (vm_compute; reflexivity).
  split; [split; [exact Hw|split; [reflexivity|exact Hs]]|].
  destruct (send_does_not_check_the_status (js "/tmp") sampleRuntime (js "demo") _
              1700000000001 demoWorld Hw eq_refl Hs)
    as (w1 & w2 & E1 & _ & _ & S2 & _).
  exists w1, w2. now split.
Defined.

Lemma hoare_snd {A : Type} (tmpdir : list N) (P : gmap (list N) content -> Prop)
    (m : M A) (Q : A -> gmap (list N) content -> Prop) (w : World) :
  hoare tmpdir P m Q -> wellFormed tmpdir w -> P (fs_files (w_fs w)) ->
  wellFormed tmpdir (snd (m w)).
Proof.
  intros H Hw Hp. destruct (m w) as [r w'] eqn:E. exact (proj1 (H _ _ _ Hw Hp E)).
Qed.

Lemma wellFormed_ask (tmpdir : list N) rt numToString stringify foreignTurn nowStart uuid
    nowTurn envBin
    trace nowEnd message options (w : World) :
  wellFormed tmpdir w ->
  wellFormed tmpdir
    (snd (cmdAsk tmpdir rt numToString stringify foreignTurn nowStart uuid nowTurn envBin trace nowEnd
            message options w)).
Proof.
  intros Hw. unfold cmdAsk.
  destruct (cmdStart _ _ _ _ w) as [[sessionId|e] w1] eqn:Es;
    pose proof (proj1 (hoare_cmdStart tmpdir (fun _ => True) _ _ _ _ _ _ Hw I Es)) as Hw1;
    [|exact Hw1].
  match goal with
  | |- context [cmdSend tmpdir rt ?turn message sessionId ?timeout w1] =>
      destruct (cmdSend tmpdir rt turn message sessionId timeout w1) as [[t|e] w2] eqn:Et;
      assert (Hw2 : wellFormed tmpdir w2)
        by (refine (proj1 (hoare_cmdSend tmpdir rt turn message sessionId timeout _
                             _ _ _ Hw1 I Et));
            intros; now apply hoare_ret)
  end.
  - assert (Hf : forall o, wellFormed tmpdir (snd (askFinally tmpdir rt nowEnd sessionId o w2))).
    { intros o. unfold askFinally.
      destruct (cmdEnd tmpdir rt nowEnd sessionId w2) as [[u|e] w3] eqn:Ee;
        exact (proj1 (hoare_closeSession tmpdir rt (fun _ => True) _ _ _ _ _ Hw2 I Ee)). }
    destruct (settled t); [apply Hf|apply Hf|exact Hw2].
  - unfold askFinally.
    destruct (cmdEnd tmpdir rt nowEnd sessionId w2) as [[u|e'] w3] eqn:Ee;
      exact (proj1 (hoare_closeSession tmpdir rt (fun _ => True) _ _ _ _ _ Hw2 I Ee)).
Qed.

(** X6. The commands keep the store well formed, whether they succeed or
    throw: starting from the empty store, after any sequence of [start],
    [send], [end], [purge], [ask] and [list], every file lives in an
    existing sessions directory and the record stored in the file of an
    id carries that id. *)
Theorem commands_keep_the_store_well_formed (tmpdir : list N) (rt : Runtime) :
  wellFormed tmpdir emptyWorld
  /\ forall w,
       wellFormed tmpdir w ->
       (forall now uuid options,
          wellFormed tmpdir (snd (cmdStart tmpdir now uuid options w)))
       /\ (forall (R : Type) (turn : list N -> loaded -> Z -> M R)
             message session timeout,
             (forall info timeout w0,
                wellFormed tmpdir w0 ->
                wellFormed tmpdir (snd (turn message info timeout w0))) ->
             wellFormed tmpdir (snd (cmdSend tmpdir rt turn message session timeout w)))
       /\ (forall now sessionId, wellFormed tmpdir (snd (cmdEnd tmpdir rt now sessionId w)))
       /\ (forall sessionId, wellFormed tmpdir (snd (cmdPurge tmpdir sessionId w)))
       /\ (forall numToString stringify foreignTurn nowStart uuid nowTurn envBin trace
             nowEnd message options,
             wellFormed tmpdir
               (snd (cmdAsk tmpdir rt numToString stringify foreignTurn nowStart uuid nowTurn envBin
                       trace nowEnd message options w)))
       /\ (forall ageText now, wellFormed tmpdir (snd (cmdList tmpdir rt ageText now w))).
Proof.
  split; [apply wellFormed_empty|]. intros w Hw.
  split; [|split; [|split; [|split; [|split]]]].
  - intros now uuid options.
    exact (hoare_snd tmpdir (fun _ => True) _ _ w (hoare_cmdStart tmpdir _ now uuid options) Hw I).
  - intros R turn message session timeout Ht.
    refine (hoare_snd tmpdir (fun _ => True) _ _ w
              (hoare_cmdSend tmpdir rt turn message session timeout _) Hw I).
    intros info timeout' w0 r w' Hw0 _ E. split; [|now destruct r].
    specialize (Ht info timeout' w0 Hw0). now rewrite E in Ht.
  - intros now sessionId.
    exact (hoare_snd tmpdir (fun _ => True) _ _ w (hoare_closeSession tmpdir rt _ now sessionId) Hw I).
  - intros sessionId.
    exact (hoare_snd tmpdir (fun _ => True) _ _ w (hoare_purgeSession tmpdir _ sessionId) Hw I).
  - intros. now apply wellFormed_ask.
  - intros ageText now.
    exact (hoare_snd tmpdir (fun _ => True) _ _ w (hoare_cmdList tmpdir rt ageText now) Hw I).
Qed.

Lemma commands_keep_the_store_well_formed_witness :
  wellFormed (js "/tmp") emptyWorld
  /\ wellFormed (js "/tmp")
       (snd (cmdEnd (js "/tmp") sampleRuntime 1700000000001 (js "demo")
               (snd (cmdStart (js "/tmp") 1700000000000 uuid0 demoOptions emptyWorld)))).
Proof.
  destruct (commands_keep_the_store_well_formed (js "/tmp") sampleRuntime) as [H0 H].
  split; [exact H0|].
  pose proof (proj1 (H emptyWorld H0) 1700000000000 uuid0 demoOptions) as H1.
  exact (proj1 (proj2 (proj2 (H _ H1))) 1700000000001 (js "demo")).
Defined.

(** X7. [end] saves the closed record in the file named after the id the
    record carries, not after the id it was asked to close. When the two
    differ (a metadata file that was renamed; the recorded id being a
    valid id, its file is in the sessions directory), the file that was
    read is left as it is, not closed, and the file of the recorded id is
    created or replaced. *)
Theorem end_writes_the_file_of_the_recorded_id
    (tmpdir : list N) (rt : Runtime) (sessionId : list N) (info : SessionInfo) (now : Z)
    (w : World) :
  matchesIdRegex sessionId = true ->
  matchesIdRegex (si_id info) = true ->
  fs_files (w_fs w) !! infoPathOf tmpdir sessionId = Some (InfoDoc info) ->
  exists w',
    cmdEnd tmpdir rt now sessionId w = (Ok tt, w')
    /\ storedInfo tmpdir (si_id info) w' = Some (closedInfo now info)
    /\ (si_id info <> sessionId -> storedInfo tmpdir sessionId w' = Some info)
    /\ (forall path, path <> infoPathOf tmpdir (si_id info) ->
          fs_files (w_fs w') !! path = fs_files (w_fs w) !! path).
Proof.
  intros Hv _ Hl. unfold cmdEnd.
  destruct (close_run tmpdir rt now _ _ w Hv Hl) as (w' & E & F).
  exists w'. split; [exact E|]. split; [|split].
  - eapply storedInfo_insert; eassumption.
  - intros Hne. unfold storedInfo. rewrite F. simpl.
    rewrite lookup_insert_ne; [now rewrite Hl|].
    intros Heq. apply infoPathOf_inj in Heq. contradiction.
  - intros path Hp. rewrite F. simpl. now rewrite lookup_insert_ne.
Qed.

Lemma end_writes_the_file_of_the_recorded_id_witness :
  (matchesIdRegex (js "moved") = true
   /\ matchesIdRegex (si_id sampleInfo) = true
   /\ fs_files (w_fs renamedWorld) !! infoPathOf (js "/tmp") (js "moved")
      = Some (InfoDoc sampleInfo))
  /\ exists w',
       cmdEnd (js "/tmp") sampleRuntime 1700000000001 (js "moved") renamedWorld = (Ok tt, w')
       /\ storedInfo (js "/tmp") (js "demo") w' = Some (closedInfo 1700000000001 sampleInfo)
       /\ storedInfo (js "/tmp") (js "moved") w' = Some sampleInfo.
Proof.
  assert (Hl : fs_files (w_fs renamedWorld) !! infoPathOf (js "/tmp") (js "moved")
               = Some (InfoDoc sampleInfo)) by (vm_compute; reflexivity).
  split; [split; [reflexivity|split; [reflexivity|exact Hl]]|].
  destruct (end_writes_the_file_of_the_recorded_id (js "/tmp") sampleRuntime (js "moved") sampleInfo
              1700000000001 renamedWorld eq_refl eq_refl Hl)
    as (w' & E & S1 & S2 & _).
  exists w'. split; [exact E|]. split; [exact S1|]. apply S2. vm_compute. discriminate.
Defined.

(** ** Listing: what is printed *)

Section ListSpec.
Variable tmpdir : list N.
Variable rt : Runtime.
Variable ageText : Z -> Z -> list N.
Variable clock : list N -> Z.

(** The files [cmdList] reads. *)
Lemma listed_iff (fs : gmap (list N) content) (file : list N) :
  In file (List.filter (endsWith (js ".info.json"))
             (remove_dups (omap (entryOf (sessionDir tmpdir)) (List.map fst (map_to_list fs)))))
  <-> endsWith (js ".info.json") file = true
      /\ exists path c, fs !! path = Some c /\ entryOf (sessionDir tmpdir) path = Some file.
Proof. rewrite filter_In, readdir_entries. tauto. Qed.

Lemma stored_is_listed (fs : gmap (list N) content) (sessionId : list N) (c : content) :
  ~ In 47%N sessionId ->
  fs !! infoPathOf tmpdir sessionId = Some c ->
  In (infoFileOf sessionId)
    (List.filter (endsWith (js ".info.json"))
       (remove_dups (omap (entryOf (sessionDir tmpdir)) (List.map fst (map_to_list fs))))).
Proof.
  intros Hn Hl. apply listed_iff. split; [apply endsWith_app|].
  exists (infoPathOf tmpdir sessionId), c. split; [exact Hl|].
  unfold infoPathOf. apply entryOf_file. unfold infoFileOf.
  intros Hin. apply in_app_or in Hin as [Hin|Hin]; [contradiction|].
  vm_compute in Hin. repeat (destruct Hin as [Hin|Hin]; [discriminate|]). exact Hin.
Qed.

Lemma list_spec (w : World) :
  exists lines w',
    cmdList tmpdir rt ageText clock w = (Ok lines, w')
    /\ w_fs w' = mkFS true (fs_files (w_fs w))
    /\ (forall sessionId c line,
          ~ In 47%N sessionId ->
          fs_files (w_fs w) !! infoPathOf tmpdir sessionId = Some c ->
          lineOf rt ageText (clock (infoFileOf sessionId)) c = Some line ->
          In line lines)
    /\ (forall line, In line lines ->
          line = js "No sessions" \/ line = js "Sessions:"
          \/ exists file c,
               endsWith (js ".info.json") file = true
               /\ fs_files (w_fs w) !! pathJoin (sessionDir tmpdir) file = Some c
               /\ lineOf rt ageText (clock file) c = Some line)
    /\ (lines = [js "No sessions"]
        <-> forall path c file,
              fs_files (w_fs w) !! path = Some c ->
              entryOf (sessionDir tmpdir) path = Some file ->
              endsWith (js ".info.json") file = false).
Proof.
  destruct (list_run tmpdir rt ageText clock w) as (w' & E & F). cbv zeta in E.
  set (fs := fs_files (w_fs w)) in *.
  set (listed := List.filter (endsWith (js ".info.json"))
                   (remove_dups (omap (entryOf (sessionDir tmpdir))
                                   (List.map fst (map_to_list fs))))) in *.
  assert (Hrows : forall line,
             In line (flat_map (printedFor rt ageText clock fs (sessionDir tmpdir)) listed) ->
             exists file c,
               endsWith (js ".info.json") file = true
               /\ fs !! pathJoin (sessionDir tmpdir) file = Some c
               /\ lineOf rt ageText (clock file) c = Some line).
  { intros line Hin. apply in_flat_map in Hin as (file & Hf & Hin).
    apply listed_iff in Hf as [He _]. unfold printedFor in Hin.
    destruct (fs !! pathJoin (sessionDir tmpdir) file) as [c|] eqn:El; [|contradiction].
    destruct (lineOf rt ageText (clock file) c) as [l|] eqn:Eline; [|contradiction].
    destruct Hin as [<-|[]]. now exists file, c. }
  eexists. exists w'. split; [exact E|]. split; [exact F|]. split; [|split].
  - intros sessionId c line Hn El Hline.
    pose proof (stored_is_listed fs sessionId _ Hn El) as Hin. fold listed in Hin.
    destruct listed as [|f rest] eqn:Ed; [contradiction|].
    right. apply in_flat_map. exists (infoFileOf sessionId). split; [exact Hin|].
    unfold printedFor. unfold infoPathOf in El. unfold infoFileOf in *.
    rewrite El, Hline. now left.
  - intros line Hin. destruct listed as [|f rest] eqn:Ed.
    + destruct Hin as [<-|[]]. now left.
    + destruct Hin as [<-|Hin]; [right; now left|]. right. right. now apply Hrows.
  - split.
    + intros Hl path c file Hp He.
      destruct (endsWith (js ".info.json") file) eqn:Ew; [|reflexivity].
      assert (Hin : In file listed) by (apply listed_iff; eauto).
      destruct listed as [|f rest]; [contradiction|]. discriminate.
    + intros Hno. destruct listed as [|f rest] eqn:Ed; [reflexivity|].
      assert (Hin : In f listed) by (rewrite Ed; now left).
      apply listed_iff in Hin as [He (path & c & Hp & Hent)].
      rewrite (Hno _ _ _ Hp Hent) in He. discriminate.
Qed.

End ListSpec.

Lemma valid_id_no_slash (s : list N) : matchesIdRegex s = true -> ~ In 47%N s.
Proof. intros H. apply idChars_no_slash. destruct s; [discriminate|exact H]. Qed.

(** The line of an object that has a string [id], not of the UUID shape,
    a string [model] and an age. *)
Lemma foreignLine_object (rt : Runtime) (now : Z) (props : list (list N * json))
    (id model age : list N) :
  prop (JObj props) "id" = Some (JStr id) ->
  isUUID id = false ->
  prop (JObj props) "model" = Some (JStr model) ->
  ageOf rt now (prop (JObj props) "createdAt") = Some age ->
  foreignLine rt now (JObj props)
  = Some (js "  " ++ padEnd 20 id ++ js "  " ++ padEnd 25 model ++ js "  "
          ++ padEnd 8 (if isStr (prop (JObj props) "status") "closed"
                       then js "closed" else js "active")
          ++ js "  (" ++ age ++ js "m ago)").
Proof.
  intros Hid Hu Hm Ha. unfold foreignLine. rewrite Hid, Hu, Hm, Ha. reflexivity.
Qed.

(** X8. [list] never throws and changes no file, whatever the sessions
    directory holds. After the header it prints, for the files of the
    directory whose name ends in [.info.json], in the order of the
    directory, one line for each file whose text parses and gives a value
    with a string [id] and a string [model] (or an [id] that is an array
    converting to a UUID), and nothing for the others. So the record
    stored for an id is always among the lines; a text that [JSON.parse]
    refuses, and the text [null], give no line; and a text that was not
    written by the program but parses to an object with a string [id] and
    a string [model] gets a line like a record. It prints [No sessions]
    exactly when the directory has no entry whose name ends in
    [.info.json]. *)
Theorem list_prints_the_readable_records
    (tmpdir : list N) (rt : Runtime) (ageText : Z -> Z -> list N) (clock : list N -> Z)
    (w : World) :
  exists lines w',
    cmdList tmpdir rt ageText clock w = (Ok lines, w')
    /\ fs_files (w_fs w') = fs_files (w_fs w)
    /\ (let listed :=
          List.filter (endsWith (js ".info.json"))
            (remove_dups (omap (entryOf (sessionDir tmpdir))
                            (List.map fst (map_to_list (fs_files (w_fs w)))))) in
        lines = match listed with
                | [] => [js "No sessions"]
                | _ :: _ =>
                    js "Sessions:"
                    :: flat_map (printedFor rt ageText clock (fs_files (w_fs w))
                                   (sessionDir tmpdir)) listed
                end)
    /\ (forall sessionId info,
          ~ In 47%N sessionId ->
          storedInfo tmpdir sessionId w = Some info ->
          In (listLine ageText (clock (infoFileOf sessionId)) info) lines)
    /\ (forall line, In line lines ->
          line = js "No sessions" \/ line = js "Sessions:"
          \/ exists file,
               endsWith (js ".info.json") file = true
               /\ ((exists info,
                      fs_files (w_fs w) !! pathJoin (sessionDir tmpdir) file
                      = Some (InfoDoc info)
                      /\ line = listLine ageText (clock file) info)
                   \/ (exists raw v,
                         fs_files (w_fs w) !! pathJoin (sessionDir tmpdir) file
                         = Some (Bytes raw)
                         /\ jsonParse rt raw = Some v
                         /\ v <> JNull
                         /\ foreignLine rt (clock file) v = Some line)))
    /\ (forall sessionId raw props id model age,
          ~ In 47%N sessionId ->
          fs_files (w_fs w) !! infoPathOf tmpdir sessionId = Some (Bytes raw) ->
          jsonParse rt raw = Some (JObj props) ->
          prop (JObj props) "id" = Some (JStr id) ->
          isUUID id = false ->
          prop (JObj props) "model" = Some (JStr model) ->
          ageOf rt (clock (infoFileOf sessionId)) (prop (JObj props) "createdAt") = Some age ->
          In (js "  " ++ padEnd 20 id ++ js "  " ++ padEnd 25 model ++ js "  "
              ++ padEnd 8 (if isStr (prop (JObj props) "status") "closed"
                           then js "closed" else js "active")
              ++ js "  (" ++ age ++ js "m ago)") lines)
    /\ (lines = [js "No sessions"]
        <-> forall path c file,
              fs_files (w_fs w) !! path = Some c ->
              entryOf (sessionDir tmpdir) path = Some file ->
              endsWith (js ".info.json") file = false).
Proof.
  destruct (list_spec tmpdir rt ageText clock w) as (lines & w' & E & F & H1 & H2 & H3).
  exists lines, w'. split; [exact E|]. split; [now rewrite F|].
  split; [|split; [|split; [|split]]].
  - destruct (list_run tmpdir rt ageText clock w) as (w0 & E0 & _). cbv zeta in E0 |- *.
    rewrite E in E0. now injection E0 as -> _.
  - intros sessionId info Hn Hs. unfold storedInfo in Hs.
    destruct (fs_files (w_fs w) !! infoPathOf tmpdir sessionId) as [[i|raw]|] eqn:El;
      try discriminate.
    injection Hs as ->. now apply (H1 sessionId (InfoDoc info)).
  - intros line Hin.
    destruct (H2 line Hin) as [H|[H|(file & c & He & Hf & Hline)]];
      [now left|right; now left|]. right. right. exists file. split; [exact He|].
    destruct c as [info|raw]; simpl in Hline.
    + left. exists info. injection Hline as <-. now split.
    + right. destruct (jsonParse rt raw) as [v|] eqn:Hp; [|discriminate].
      exists raw, v. split; [exact Hf|]. split; [exact Hp|]. split; [|exact Hline].
      intros ->. simpl in Hline. discriminate Hline.
  - intros sessionId raw props id model age Hn El Hp Hid Hu Hm Ha.
    apply (H1 sessionId (Bytes raw)); [exact Hn|exact El|].
    simpl. rewrite Hp. now apply foreignLine_object.
  - exact H3.
Qed.

Lemma list_prints_the_readable_records_witness :
  (exists lines w',
     cmdList (js "/tmp") sampleRuntime (fun _ _ => js "0") (fun _ => 1700000000000) demoWorld
     = (Ok lines, w')
     /\ In (listLine (fun _ _ => js "0") 1700000000000
              (startInfo (js "/tmp") 1700000000000 (js "demo") demoOptions)) lines)
  /\ (exists lines w',
        cmdList (js "/tmp") sampleRuntime (fun _ _ => js "0") (fun _ => 1700000000000)
          partialWorld
        = (Ok lines, w')
        /\ In (js "  " ++ padEnd 20 (js "x") ++ js "  " ++ padEnd 25 (js "m") ++ js "  "
               ++ padEnd 8 (js "active") ++ js "  (" ++ js "NaN" ++ js "m ago)") lines).
Proof.
  split.
  - destruct (list_prints_the_readable_records (js "/tmp") sampleRuntime (fun _ _ => js "0")
                (fun _ => 1700000000000) demoWorld)
      as (lines & w' & E & _ & _ & H & _).
    exists lines, w'. split; [exact E|].
    apply (H (js "demo")).
    + apply valid_id_no_slash. reflexivity.
    + vm_compute. reflexivity.
  - destruct (list_prints_the_readable_records (js "/tmp") sampleRuntime (fun _ _ => js "0")
                (fun _ => 1700000000000) partialWorld)
      as (lines & w' & E & _ & _ & _ & _ & H & _).
    exists lines, w'. split; [exact E|].
    apply (H (js "p") partialText
             [(js "id", JStr (js "x")); (js "model", JStr (js "m"))]
             (js "x") (js "m") (js "NaN")).
    + apply valid_id_no_slash. reflexivity.
    + apply lookup_singleton_eq.
    + reflexivity.
    + reflexivity.
    + reflexivity.
    + reflexivity.
    + reflexivity.
Defined.

(** X9. [list] follows the other commands. After a successful [start]
    the session has a line, with the status [active]; after [end] its line
    is that of the closed record, with the status [closed]; after [purge]
    no line comes from its metadata file any more: every line is a header
    or the line of another file that was in the store before. *)
Theorem list_follows_start_end_and_purge
    (tmpdir : list N) (rt : Runtime) (ageText : Z -> Z -> list N) (clock : list N -> Z)
    (now : Z) (uuid : list N) (options : StartOptions) (w : World)
    (sessionId : list N) (w1 : World) :
  isUUID uuid = true ->
  cmdStart tmpdir now uuid options w = (Ok sessionId, w1) ->
  let info := startInfo tmpdir now sessionId options in
  (exists lines w',
     cmdList tmpdir rt ageText clock w1 = (Ok lines, w')
     /\ In (listLine ageText (clock (infoFileOf sessionId)) info) lines
     /\ listStatus info = js "active")
  /\ (forall closedAt,
        exists w2 lines w',
          cmdEnd tmpdir rt closedAt sessionId w1 = (Ok tt, w2)
          /\ cmdList tmpdir rt ageText clock w2 = (Ok lines, w')
          /\ In (listLine ageText (clock (infoFileOf sessionId)) (closedInfo closedAt info))
               lines
          /\ listStatus (closedInfo closedAt info) = js "closed")
  /\ (exists w2 lines w',
        cmdPurge tmpdir sessionId w1 = (Ok tt, w2)
        /\ cmdList tmpdir rt ageText clock w2 = (Ok lines, w')
        /\ forall line, In line lines ->
             line = js "No sessions" \/ line = js "Sessions:"
             \/ exists file c,
                  file <> infoFileOf sessionId
                  /\ fs_files (w_fs w1) !! pathJoin (sessionDir tmpdir) file = Some c
                  /\ lineOf rt ageText (clock file) c = Some line).
Proof.
  intros Hu Hs info.
  assert (Hv : matchesIdRegex sessionId = true).
  { destruct (start_id _ _ _ _ _ _ _ Hs) as [_ [[_ ->]|(_ & Hv & _)]]; [|exact Hv].
    now apply isUUID_valid. }
  pose proof (valid_id_no_slash _ Hv) as Hn.
  pose proof (start_ok _ _ _ _ _ _ _ Hs) as F.
  assert (Hl : fs_files (w_fs w1) !! infoPathOf tmpdir sessionId = Some (InfoDoc info))
    by (rewrite F; simpl; apply lookup_insert_eq).
  split; [|split].
  - destruct (list_spec tmpdir rt ageText clock w1) as (lines & w' & E & _ & H1 & _).
    exists lines, w'. split; [exact E|]. split; [|reflexivity].
    now apply (H1 sessionId (InfoDoc info)).
  - intros closedAt. unfold cmdEnd.
    destruct (close_run tmpdir rt closedAt _ _ w1 Hv Hl) as (w2 & E2 & F2). simpl in F2.
    destruct (list_spec tmpdir rt ageText clock w2) as (lines & w' & E & _ & H1 & _).
    exists w2, lines, w'. split; [exact E2|]. split; [exact E|]. split; [|reflexivity].
    apply (H1 sessionId (InfoDoc (closedInfo closedAt info))); [exact Hn| |reflexivity].
    rewrite F2. simpl. now rewrite lookup_insert_eq.
  - unfold cmdPurge. destruct (purge_run tmpdir _ w1 Hv) as (w2 & E2 & F2).
    destruct (list_spec tmpdir rt ageText clock w2) as (lines & w' & E & _ & _ & H2 & _).
    exists w2, lines, w'. split; [exact E2|]. split; [exact E|].
    intros line Hin. destruct (H2 line Hin) as [H|[H|(file & c & He & Hf & Hline)]];
      [now left|right; now left|]. right. right.
    rewrite F2 in Hf. simpl in Hf.
    apply lookup_delete_Some in Hf as [_ Hf]. apply lookup_delete_Some in Hf as [Hne Hf].
    exists file, c. split; [|now split].
    intros ->. apply Hne. reflexivity.
Qed.

Lemma list_follows_start_end_and_purge_witness :
  (isUUID uuid0 = true
   /\ cmdStart (js "/tmp") 1700000000000 uuid0 demoOptions emptyWorld
      = (Ok (js "demo"), demoWorld))
  /\ exists lines w',
       cmdList (js "/tmp") sampleRuntime (fun _ _ => js "0") (fun _ => 1700000000000) demoWorld
       = (Ok lines, w')
       /\ In (listLine (fun _ _ => js "0") 1700000000000
                (startInfo (js "/tmp") 1700000000000 (js "demo") demoOptions)) lines.
Proof.
  assert (H : isUUID uuid0 = true) by (vm_compute; reflexivity).
  split; [split; [exact H|exact demoWorld_started]|].
  destruct (proj1 (list_follows_start_end_and_purge (js "/tmp") sampleRuntime
                     (fun _ _ => js "0") (fun _ => 1700000000000) 1700000000000 uuid0 demoOptions emptyWorld
                     (js "demo") demoWorld H demoWorld_started))
    as (lines & w' & E & Hin & _).
  exists lines, w'. split; [exact E|exact Hin].
Defined.

(** ** [ask] *)

Lemma over_settled (t : Turn) :
  over t = match settled t with Unsettled => false | _ => true end.
Proof. unfold over, settled. now destruct (t_stage t). Qed.

(** X10. [ask] is [start], [send] and [end] on a session of its own. With
    a model string that has a colon (the generated id being a UUID), the
    outcome of [ask] is the outcome of the turn, run on the record just
    saved with the timeout given or 300000; as soon as the turn is over,
    by returning or by throwing, the record is closed, and it is never
    deleted; as long as the turn is not over the record stays as started.
    No other file of the store changes. With a model string without a
    colon, [ask] throws before anything is read or written. *)
Theorem ask_closes_the_session_it_started
    (tmpdir : list N) (rt : Runtime) (numToString : float -> list N)
    (stringify : json -> list N) (foreignTurn : list N -> json -> Z -> Turn)
    (nowStart : Z) (uuid : list N) (nowTurn : Z) (envBin : option (list N))
    (trace : list (N * input)) (nowEnd : Z) (message : list N) (options : AskOptions)
    (w : World) :
  (~ In colon (ao_model options) ->
   cmdAsk tmpdir rt numToString stringify foreignTurn nowStart uuid nowTurn envBin trace
     nowEnd message options w
   = (Thrown (StoreError (InvalidModelFormat (ao_model options))), w))
  /\ (In colon (ao_model options) -> isUUID uuid = true ->
      let info := startInfo tmpdir nowStart uuid (askStartOptions options) in
      let t := sendToAgent numToString stringify nowTurn envBin message info
                 (timeoutOr (ao_timeout options)) trace in
      exists w',
        cmdAsk tmpdir rt numToString stringify foreignTurn nowStart uuid nowTurn envBin trace
          nowEnd message options w
        = (settled t, w')
        /\ storedInfo tmpdir uuid w'
           = Some (if over t then closedInfo nowEnd info else info)
        /\ (forall path, path <> infoPathOf tmpdir uuid ->
              fs_files (w_fs w') !! path = fs_files (w_fs w) !! path)).
Proof.
  split.
  - intros Hc. unfold cmdAsk. fold (askStartOptions options).
    now rewrite (start_bad_model tmpdir nowStart uuid (askStartOptions options) w Hc).
  - intros Hc Hu info t. unfold cmdAsk. fold (askStartOptions options).
    destruct (isUUID_valid _ Hu) as [Hv _].
    destruct (start_unnamed tmpdir nowStart uuid (askStartOptions options) w Hc eq_refl)
      as (w1 & E1 & F1).
    rewrite E1. fold info in F1.
    assert (Hl1 : fs_files (w_fs w1) !! infoPathOf tmpdir uuid = Some (InfoDoc info))
      by (rewrite F1; simpl; apply lookup_insert_eq).
    destruct (load_run tmpdir rt _ _ w1 Hv Hl1) as (w2 & E2 & F2).
    unfold cmdSend, bind. rewrite E2. unfold ret. fold (timeoutOr (ao_timeout options)).
    fold t. rewrite over_settled.
    assert (Hl2 : fs_files (w_fs w2) !! infoPathOf tmpdir uuid = Some (InfoDoc info))
      by (rewrite F2; simpl; exact Hl1).
    assert (Hother : forall path, path <> infoPathOf tmpdir uuid ->
                       fs_files (w_fs w2) !! path = fs_files (w_fs w) !! path).
    { intros path Hp. rewrite F2, F1. simpl. now rewrite lookup_insert_ne. }
    assert (Hf : forall o,
               exists w', askFinally tmpdir rt nowEnd uuid o w2 = (o, w')
                          /\ storedInfo tmpdir uuid w' = Some (closedInfo nowEnd info)
                          /\ (forall path, path <> infoPathOf tmpdir uuid ->
                                fs_files (w_fs w') !! path = fs_files (w_fs w) !! path)).
    { intros o. unfold askFinally, cmdEnd.
      destruct (close_run tmpdir rt nowEnd _ _ w2 Hv Hl2) as (w3 & E3 & F3).
      change (si_id info) with uuid in F3.
      rewrite E3. exists w3. split; [reflexivity|]. split.
      - eapply storedInfo_insert; eassumption.
      - intros path Hp. rewrite F3. simpl. rewrite lookup_insert_ne by congruence.
        now apply Hother. }
    destruct (settled t) as [r|e|].
    + apply Hf.
    + apply Hf.
    + exists w2. split; [reflexivity|]. split; [|exact Hother].
      unfold storedInfo. now rewrite Hl2.
Qed.

Lemma ask_closes_the_session_it_started_witness :
  (In colon (ao_model sampleAsk) /\ isUUID uuid0 = true)
  /\ exists w',
       cmdAsk (js "/tmp") sampleRuntime sampleNumToString sampleStringify noForeignTurn
         1700000000000 uuid0 1700000000001 None answered 1700000000002 (js "hi") sampleAsk emptyWorld
       = (Fulfilled (mkSendResult (js "Answer: 42")
                       (Some (mkUsage (JNum 30) (JNum 13) (JNum 0.03)))), w')
       /\ storedInfo (js "/tmp") uuid0 w'
          = Some (closedInfo 1700000000002
                    (startInfo (js "/tmp") 1700000000000 uuid0 (askStartOptions sampleAsk))).
Proof.
  assert (Hc : In colon (ao_model sampleAsk)) by (vm_compute; tauto).
  assert (Hu : isUUID uuid0 = true) by (vm_compute; reflexivity).
  split; [split; [exact Hc|exact Hu]|].
  destruct (proj2 (ask_closes_the_session_it_started (js "/tmp") sampleRuntime
                     sampleNumToString sampleStringify noForeignTurn 1700000000000 uuid0 1700000000001 None answered
                     1700000000002 (js "hi") sampleAsk emptyWorld) Hc Hu)
    as (w' & E & S & _).
  assert (Hr : settled (sendToAgent sampleNumToString sampleStringify 1700000000001 None
                          (js "hi")
                          (startInfo (js "/tmp") 1700000000000 uuid0
                             (askStartOptions sampleAsk))
                          (timeoutOr (ao_timeout sampleAsk)) answered)
               = Fulfilled (mkSendResult (js "Answer: 42")
                              (Some (mkUsage (JNum 30) (JNum 13) (JNum 0.03)))))
    by (vm_compute; reflexivity).
  assert (Ho : over (sendToAgent sampleNumToString sampleStringify 1700000000001 None
                       (js "hi")
                       (startInfo (js "/tmp") 1700000000000 uuid0
                          (askStartOptions sampleAsk))
                       (timeoutOr (ao_timeout sampleAsk)) answered) = true)
    by (vm_compute; reflexivity).
  exists w'. split.
  - rewrite E, Hr. reflexivity.
  - rewrite S, Ho. reflexivity.
Defined.

(** ** The command line *)

Lemma parse_written (pairs : list (list N * list N)) : forall o rest,
  Forall (fun p => isFlag (fst p) = true) pairs ->
  parseOptions o (written pairs ++ rest) = parseOptions (fold_left assign pairs o) rest.
Proof.
  induction pairs as [|[a v] pairs IH]; intros o rest Hf; [reflexivity|].
  inversion Hf as [|? ? Ha Hr]; subst. unfold isFlag in Ha. simpl in Ha.
  cbn [written flat_map fst snd app fold_left]. unfold assign at 2. cbn [fst snd].
  cbn [parseOptions]. destruct (flagOf a) as [f|]; [|discriminate].
  exact (IH _ _ Hr).
Qed.

Lemma flag_starts_with_dash (arg : list N) :
  isFlag arg = true -> startsWith (js "-") arg = true.
Proof.
  unfold isFlag, flagOf.
  repeat match goal with
         | |- context [bool_decide (arg = ?x)] =>
             destruct (bool_decide_reflect (arg = x)) as [->|?]
         end; cbn [orb]; try discriminate; intros _; reflexivity.
Qed.

Lemma not_dash_not_flag (arg : list N) :
  startsWith (js "-") arg = false -> flagOf arg = None.
Proof.
  intros H. pose proof (flag_starts_with_dash arg) as Hf. unfold isFlag in Hf.
  destruct (flagOf arg); [|reflexivity]. rewrite Hf in H by reflexivity. discriminate.
Qed.

Lemma includes_false (x : list N) (args : list (list N)) :
  includes x args = false <-> ~ In x args.
Proof.
  unfold includes. induction args as [|a args IH]; simpl; [tauto|].
  destruct (bool_decide_reflect (a = x)) as [->|Hne]; simpl.
  - split; [discriminate|]. intros H. exfalso. apply H. now left.
  - rewrite IH. split; [intros H [E|Hin]; [congruence|tauto]|tauto].
Qed.

Lemma main_no_help (args : list (list N)) :
  args <> [] -> noHelp args = true ->
  (length args =? 0)%nat || includes (js "--help") args || includes (js "-h") args = false.
Proof.
  intros Hne Hh. unfold noHelp in Hh. apply andb_prop in Hh as [H1 H2].
  destruct args; [congruence|]. cbn [length Nat.eqb orb].
  apply negb_true_iff in H1, H2. now rewrite H1, H2.
Qed.

(** X11. The message starts at the first argument that is neither an
    option nor the value of one and does not start with a dash: after any
    options written with their values, the loop takes that argument and
    all that follow it as the message, even those that look like options,
    and the variables are those the options assign from left to right, so
    that the last occurrence of an option decides. [send] then sends
    these arguments joined by spaces. *)
Theorem message_starts_at_the_first_positional_argument
    (pairs : list (list N * list N)) (first : list N) (more : list (list N)) :
  Forall (fun p => isFlag (fst p) = true) pairs ->
  startsWith (js "-") first = false ->
  parseOptions cliDefaults (written pairs ++ first :: more)
  = inl (setMessageArgs (first :: more) (assigned pairs))
  /\ (forall a v f,
        flagOf a = Some f ->
        assigned (pairs ++ [(a, v)]) = setOption f (Some v) (assigned pairs))
  /\ (forall session,
        noHelp (js "send" :: written pairs ++ first :: more) = true ->
        cli_session (assigned pairs) = Some session -> session <> [] ->
        join (js " ") (first :: more) <> [] ->
        main (js "send" :: written pairs ++ first :: more)
        = Run (CallSend (join (js " ") (first :: more)) session
                 (cli_timeout (assigned pairs)))).
Proof.
  intros Hf Hd.
  assert (Hp : parseOptions cliDefaults (written pairs ++ first :: more)
               = inl (setMessageArgs (first :: more) (assigned pairs))).
  { rewrite (parse_written pairs cliDefaults (first :: more) Hf).
    cbn [parseOptions]. rewrite (not_dash_not_flag _ Hd), Hd. reflexivity. }
  split; [exact Hp|]. split.
  - intros a v f Ha. unfold assigned. rewrite fold_left_app. cbn [fold_left].
    unfold assign at 1. cbn [fst snd]. now rewrite Ha.
  - intros session Hh Hs Hne Hm. unfold main.
    rewrite (main_no_help (js "send" :: written pairs ++ first :: more)
               ltac:(discriminate) Hh).
    cbn [hd tl]. rewrite Hp.
    cbn [cli_messageArgs setMessageArgs cli_session cli_timeout].
    rewrite Hs.
    destruct (bool_decide_reflect (js "send" = js "start")) as [E|_];
      [vm_compute in E; discriminate|].
    destruct (bool_decide_reflect (js "send" = js "send")) as [_|E]; [|congruence].
    destruct session; [congruence|]. cbn [truthyStr].
    destruct (join (js " ") (first :: more)); [congruence|]. reflexivity.
Qed.

Lemma message_starts_at_the_first_positional_argument_witness :
  (Forall (fun p => isFlag (fst p) = true) [(js "-s", js "demo")]
   /\ startsWith (js "-") (js "what") = false)
  /\ main [js "send"; js "-s"; js "demo"; js "what"; js "does"; js "-t"; js "do"]
     = Run (CallSend (js "what does -t do") (js "demo") DefaultTimeout).
Proof.
  assert (Hf : Forall (fun p => isFlag (fst p) = true) [(js "-s", js "demo")])
    by (repeat constructor).
  split; [split; [exact Hf|reflexivity]|].
  apply (proj2 (proj2 (message_starts_at_the_first_positional_argument
                         [(js "-s", js "demo")] (js "what") [js "does"; js "-t"; js "do"]
                         Hf eq_refl)) (js "demo")).
  - reflexivity.
  - reflexivity.
  - vm_compute. discriminate.
  - vm_compute. discriminate.
Defined.

(** X12. The usage and unknown options come before the command. Without
    arguments [main] prints the usage and exits with 1; with [--help] or
    [-h] anywhere among the arguments, be it as the value of an option or
    inside the message, it prints the usage and exits with 0. Otherwise,
    an argument that stands where an option is read, starts with a dash
    and is no option makes [main] exit with [Unknown option], whatever the
    command is, known or not. *)
Theorem usage_and_unknown_options_come_before_the_command :
  main [] = PrintUsage 1
  /\ (forall args, args <> [] -> noHelp args = false -> main args = PrintUsage 0)
  /\ (forall command pairs bad more,
        Forall (fun p => isFlag (fst p) = true) pairs ->
        isFlag bad = false -> startsWith (js "-") bad = true ->
        noHelp (command :: written pairs ++ bad :: more) = true ->
        main (command :: written pairs ++ bad :: more)
        = Failure (js "Unknown option: " ++ bad)).
Proof.
  split; [reflexivity|]. split.
  - intros args Hne Hh. unfold main. destruct args as [|a args]; [congruence|].
    cbn [length Nat.eqb orb]. unfold noHelp in Hh.
    destruct (includes (js "--help") (a :: args)); [reflexivity|].
    destruct (includes (js "-h") (a :: args)); [reflexivity|discriminate].
  - intros command pairs bad more Hf Hb Hd Hh. unfold main.
    rewrite (main_no_help (command :: written pairs ++ bad :: more)
               ltac:(discriminate) Hh).
    cbn [hd tl].
    rewrite (parse_written pairs cliDefaults (bad :: more) Hf). cbn [parseOptions].
    unfold isFlag in Hb. destruct (flagOf bad); [discriminate|]. now rewrite Hd.
Qed.

Lemma usage_and_unknown_options_come_before_the_command_witness :
  (Forall (fun p => isFlag (fst p) = true) [(js "-s", js "demo")]
   /\ isFlag (js "--fast") = false /\ startsWith (js "-") (js "--fast") = true)
  /\ main [js "frobnicate"; js "-s"; js "demo"; js "--fast"; js "hi"]
     = Failure (js "Unknown option: --fast")
  /\ main [js "send"; js "-s"; js "demo"; js "what"; js "does"; js "-h"; js "do"]
     = PrintUsage 0.
Proof.
  assert (Hf : Forall (fun p => isFlag (fst p) = true) [(js "-s", js "demo")])
    by (repeat constructor).
  split; [split; [exact Hf|split; reflexivity]|].
  destruct usage_and_unknown_options_come_before_the_command as (_ & Hhelp & Hbad).
  split.
  - exact (Hbad (js "frobnicate") [(js "-s", js "demo")] (js "--fast") [js "hi"]
             Hf eq_refl eq_refl eq_refl).
  - apply Hhelp; [discriminate|reflexivity].
Defined.

(** X13. [main] calls a command only with its required arguments: [start]
    and [ask] with a non-empty model, [send] and [ask] with a non-empty
    message, [send], [end] and [purge] with a non-empty session; the
    command called is the one the first argument names, and no argument
    asked for the usage. *)
Theorem main_calls_a_command_only_with_its_required_arguments
    (args : list (list N)) (c : call) :
  main args = Run c ->
  wellCalled c /\ hd [] args = commandOf c /\ noHelp args = true.
Proof.
  unfold main. intros H.
  destruct args as [|command restArgs]; [discriminate|].
  cbn [length Nat.eqb orb hd tl] in H.
  assert (Hh : noHelp (command :: restArgs) = true).
  { unfold noHelp. destruct (includes (js "--help") _); [discriminate|].
    destruct (includes (js "-h") _); [discriminate|reflexivity]. }
  destruct (includes (js "--help") _); [discriminate|].
  destruct (includes (js "-h") _); [discriminate|]. cbn [orb] in H.
  destruct (parseOptions cliDefaults restArgs) as [o|bad]; [|discriminate].
  cbv zeta in H. cbn [hd].
  repeat match type of H with
         | context [bool_decide (command = ?x)] =>
             destruct (bool_decide_reflect (command = x)) as [->|?]
         end;
    repeat match type of H with
           | context [match ?v with Some _ => _ | None => _ end] =>
               destruct v as [[|? ?]|]; cbn [truthyStr] in H; try discriminate
           | context [if truthyStr ?m then _ else _] =>
               destruct m as [|? ?]; cbn [truthyStr] in H; try discriminate
           end;
    try discriminate;
    injection H as <-; cbn [wellCalled commandOf so_model];
    repeat split; try discriminate; try reflexivity; exact Hh.
Qed.

Lemma main_calls_a_command_only_with_its_required_arguments_witness :
  main [js "end"; js "-s"; js "demo"] = Run (CallEnd (js "demo"))
  /\ wellCalled (CallEnd (js "demo")).
Proof.
  assert (H : main [js "end"; js "-s"; js "demo"] = Run (CallEnd (js "demo")))
    by reflexivity.
  split; [exact H|].
  exact (proj1 (main_calls_a_command_only_with_its_required_arguments _ _ H)).
Defined.

Lemma pair_ind {A : Type} (P : list A -> Prop) :
  P [] -> (forall a, P [a]) -> (forall a b l, P l -> P (a :: b :: l)) ->
  forall l, P l.
Proof.
  intros H0 H1 H2 l.
  enough (H : P l /\ forall a, P (a :: l)) by exact (proj1 H).
  induction l as [|b l [IH1 IH2]]; [now split|]. split; [apply IH2|].
  intros a. now apply H2.
Qed.

(** The loop leaves alone the variables whose options are not written. *)
Lemma parse_untouched (args : list (list N)) : forall o o',
  parseOptions o args = inl o' ->
  (~ In (js "--name") args -> ~ In (js "-n") args -> cli_name o' = cli_name o)
  /\ (~ In (js "--tools") args -> cli_tools o' = cli_tools o)
  /\ (~ In (js "--thinking") args -> ~ In (js "-t") args ->
      cli_thinking o' = cli_thinking o).
Proof.
  induction args as [|a|a b args IH] using pair_ind; intros o o' H.
  - injection H as <-. now repeat split.
  - cbn [parseOptions] in H. unfold flagOf in H.
    repeat match type of H with
           | context [bool_decide (a = ?x)] =>
               destruct (bool_decide_reflect (a = x)) as [->|?]
           end; cbn [orb] in H;
      try (destruct (negb _); [|discriminate]);
      injection H as <-; repeat split; intros; try reflexivity;
      exfalso; cbn [In] in *; tauto.
  - cbn [parseOptions] in H. unfold flagOf in H.
    repeat match type of H with
           | context [bool_decide (a = ?x)] =>
               destruct (bool_decide_reflect (a = x)) as [->|?]
           end; cbn [orb] in H;
      try (destruct (negb _); [injection H as <-; now repeat split|discriminate]);
      destruct (IH _ _ H) as (I1 & I2 & I3);
      (split; [|split]);
      intros; cbn [In] in *;
      try (rewrite I1 by tauto); try (rewrite I2 by tauto); try (rewrite I3 by tauto);
      try reflexivity; exfalso; tauto.
Qed.

(** X14. The defaults of [start] from the command line. When [main]
    calls [start] for a model with a colon: unless [--name] or [-n] was
    written, the session gets the generated id; unless [--tools] was
    written, the record saved has the read-only tools [read,grep,find,ls];
    unless [--thinking] or [-t] was written, its thinking level is the
    empty string. *)
Theorem defaults_of_start_from_the_command_line
    (tmpdir : list N) (now : Z) (uuid : list N) (args : list (list N))
    (options : StartOptions) (w : World) :
  main args = Run (CallStart options) ->
  In colon (so_model options) ->
  (~ In (js "--name") args -> ~ In (js "-n") args ->
   exists w', cmdStart tmpdir now uuid options w = (Ok uuid, w'))
  /\ (forall sessionId w',
        cmdStart tmpdir now uuid options w = (Ok sessionId, w') ->
        exists info,
          storedInfo tmpdir sessionId w' = Some info
          /\ (~ In (js "--tools") args -> si_tools info = DEFAULT_TOOLS)
          /\ (~ In (js "--thinking") args -> ~ In (js "-t") args ->
              si_thinking info = Some [])).
Proof.
  unfold main. intros H Hc.
  destruct args as [|command restArgs]; [discriminate|].
  cbn [length Nat.eqb orb hd tl] in H.
  destruct (includes (js "--help") _); [discriminate|].
  destruct (includes (js "-h") _); [discriminate|]. cbn [orb] in H.
  destruct (parseOptions cliDefaults restArgs) as [o|bad] eqn:Hp; [|discriminate].
  destruct (parse_untouched _ _ _ Hp) as (Hname & Htools & Hthinking).
  cbv zeta in H.
  assert (Ho : so_name options = cli_name o /\ so_tools options = cli_tools o
               /\ so_thinking options = cli_thinking o
               /\ command = js "start").
  { repeat match type of H with
           | context [bool_decide (command = ?x)] =>
               destruct (bool_decide_reflect (command = x)) as [->|?]
           end;
      repeat match type of H with
             | context [match ?v with Some _ => _ | None => _ end] =>
                 destruct v as [[|? ?]|]; cbn [truthyStr] in H; try discriminate
             | context [if truthyStr ?m then _ else _] =>
                 destruct m as [|? ?]; cbn [truthyStr] in H; try discriminate
             end;
      try discriminate; injection H as <-; now repeat split. }
  destruct Ho as (On & Ot & Oth & ->).
  assert (Hrest : forall x, x <> js "start" -> ~ In x (js "start" :: restArgs) ->
                            ~ In x restArgs) by (intros x _ Hn Hin; apply Hn; now right).
  split.
  - intros N1 N2.
    assert (Hn : nameGiven options = None).
    { unfold nameGiven. rewrite On, Hname; [reflexivity| |];
        apply Hrest; try assumption; vm_compute; discriminate. }
    destruct (start_unnamed tmpdir now uuid options w Hc Hn) as (w' & E & _).
    now exists w'.
  - intros sessionId w' Hs. pose proof (start_ok _ _ _ _ _ _ _ Hs) as F.
    exists (startInfo tmpdir now sessionId options).
    split; [eapply storedInfo_insert; eassumption|]. split.
    + intros N1. cbn [startInfo si_tools]. rewrite Ot, Htools; [reflexivity|].
      apply Hrest; try assumption. vm_compute. discriminate.
    + intros N1 N2. cbn [startInfo si_thinking]. rewrite Oth, Hthinking; [reflexivity| |];
        apply Hrest; try assumption; vm_compute; discriminate.
Qed.

Lemma defaults_of_start_from_the_command_line_witness :
  (main [js "start"; js "-m"; js "p:m"]
   = Run (CallStart (mkStartOptions (js "p:m") (Some []) (Some []) (Some [])))
   /\ In colon (js "p:m"))
  /\ exists w',
       cmdStart (js "/tmp") 1700000000000 uuid0
         (mkStartOptions (js "p:m") (Some []) (Some []) (Some [])) emptyWorld
       = (Ok uuid0, w').
Proof.
  assert (Hm : main [js "start"; js "-m"; js "p:m"]
               = Run (CallStart (mkStartOptions (js "p:m") (Some []) (Some []) (Some []))))
    by reflexivity.
  assert (Hc : In colon (js "p:m")) by (vm_compute; tauto).
  split; [split; [exact Hm|exact Hc]|].
  apply (proj1 (defaults_of_start_from_the_command_line (js "/tmp") 1700000000000 uuid0
                  _ _ emptyWorld Hm Hc)).
  - vm_compute. intros [H|[H|[H|[]]]]; discriminate.
  - vm_compute. intros [H|[H|[H|[]]]]; discriminate.
Defined.

(** X15. An option written last, without a value, makes its variable
    [undefined], whatever was assigned to it before: [start] whose last
    argument is [-m] fails for the missing model, and [send] whose last
    argument is [-s] fails for the missing session, and no command is
    called. *)
Theorem option_without_a_value_is_undefined
    (pairs : list (list N * list N)) (a : list N) (f : flag) :
  Forall (fun p => isFlag (fst p) = true) pairs ->
  flagOf a = Some f ->
  parseOptions cliDefaults (written pairs ++ [a])
  = inl (setOption f None (assigned pairs))
  /\ (noHelp (written pairs) = true ->
      main (js "start" :: written pairs ++ [js "-m"])
      = Failure (js "Error: --model is required for start")
      /\ main (js "send" :: written pairs ++ [js "-s"])
         = Failure (js "Error: --session is required for send")).
Proof.
  intros Hf Ha.
  assert (Hp : forall b g, flagOf b = Some g ->
                 parseOptions cliDefaults (written pairs ++ [b])
                 = inl (setOption g None (assigned pairs))).
  { intros b g Hb. rewrite (parse_written pairs cliDefaults [b] Hf).
    cbn [parseOptions]. now rewrite Hb. }
  split; [now apply Hp|]. intros Hh.
  assert (Hh' : forall command last,
             includes (js "--help") [command; last] = false ->
             includes (js "-h") [command; last] = false ->
             (length (command :: written pairs ++ [last]) =? 0)%nat
             || includes (js "--help") (command :: written pairs ++ [last])
             || includes (js "-h") (command :: written pairs ++ [last]) = false).
  { intros command last H1 H2. apply main_no_help; [discriminate|].
    unfold noHelp in *. apply andb_prop in Hh as [G1 G2].
    apply negb_true_iff in G1, G2. apply includes_false in G1, G2, H1, H2.
    apply andb_true_intro. split; apply negb_true_iff, includes_false;
      intros [E|Hin]; try (apply in_app_or in Hin as [Hin|[E|[]]]);
      try contradiction; subst; cbn [In] in *; tauto. }
  split.
  - unfold main. rewrite (Hh' (js "start") (js "-m")) by reflexivity. cbn [hd tl].
    rewrite (Hp (js "-m") FlagModel eq_refl). reflexivity.
  - unfold main. rewrite (Hh' (js "send") (js "-s")) by reflexivity. cbn [hd tl].
    rewrite (Hp (js "-s") FlagSession eq_refl). reflexivity.
Qed.

Lemma option_without_a_value_is_undefined_witness :
  (Forall (fun p => isFlag (fst p) = true) [(js "-m", js "p:m")]
   /\ flagOf (js "-m") = Some FlagModel)
  /\ main [js "start"; js "-m"; js "p:m"; js "-m"]
     = Failure (js "Error: --model is required for start").
Proof.
  assert (Hf : Forall (fun p => isFlag (fst p) = true) [(js "-m", js "p:m")])
    by (repeat constructor).
  split; [split; [exact Hf|reflexivity]|].
  exact (proj1 (proj2 (option_without_a_value_is_undefined [(js "-m", js "p:m")]
                         (js "-m") FlagModel Hf eq_refl) eq_refl)).
Defined.

(** * Further properties of the turn *)

(** ** What the listeners do *)

Lemma settle_not_pending {A : Type} (o p : promise A) :
  p <> Pending -> settleWith o p <> Pending.
Proof. destruct p; simpl; congruence. Qed.

Lemma settle_rejected {A : Type} e (p : promise A) : settleWith (Rejected e) p <> Pending.
Proof. destruct p; simpl; congruence. Qed.

Lemma settle_resolved {A : Type} (a : A) (p : promise A) : settleWith (Resolved a) p <> Pending.
Proof. destruct p; simpl; congruence. Qed.

(** Closes a field of [Handled] once the turn is a record. *)
Ltac field :=
  intros;
  first [ reflexivity
        | tauto
        | now apply settle_not_pending
        | right; apply settle_rejected
        | right; apply settle_resolved
        | left; reflexivity
        | right; do 3 eexists; split;
          [reflexivity | first [exact I | apply firstn_le_length]] ].

Ltac known :=
  repeat match goal with
         | H : streamedOf _ _ = _ |- _ => rewrite H
         | H : responseId _ = _ |- _ => rewrite H
         | H : isAgentEnd _ = _ |- _ => rewrite H
         end.

Ltac fields :=
  constructor; known; unfold wire; cbn -[js];
  rewrite ?List.filter_app; cbn -[js]; rewrite ?app_nil_r; field.

Section Handling.
Variable numToString : float -> list N.
Variable stringify : json -> list N.

Lemma Handled_onResponse event t :
  isStr (prop event "type") "response" = true ->
  Handled numToString (Line (Some event)) t (onResponse numToString event t).
Proof.
  intros E. unfold onResponse. cbv zeta.
  assert (Hs : streamedOf numToString (Line (Some event)) = []).
  { unfold streamedOf. now rewrite (isStr_excl _ _ "message_update" E). }
  assert (Hr : responseId (Line (Some event))
               = match prop event "id" with
                 | Some (JStr k) => if truthyStr k then Some k else None
                 | _ => None
                 end).
  { unfold responseId. now rewrite E. }
  destruct (prop event "id") as [[|b|x|k|items|props]|] eqn:Ei; cbn [truthy].
  all: try (destruct (negb (truthy (prop event "success"))); destruct_turn t;
            fields; fail).
  all: try (destruct b; destruct (negb (truthy (prop event "success"))); destruct_turn t;
            fields; fail).
  all: try (destruct (negb (is_zero x || is_nan x));
            destruct (negb (truthy (prop event "success"))); destruct_turn t;
            fields; fail).
  destruct (truthyStr k) eqn:Ek.
  - destruct (mapHas k (t_pending t)) eqn:Em;
      destruct (negb (truthy (prop event "success"))) eqn:Eok; destruct_turn t;
      cbn [t_pending] in Em; unfold mapHas in Em;
      constructor; known; unfold wire, responseOutcome, failureOf;
      cbn -[js]; rewrite ?Em, ?Eok; rewrite ?app_nil_r; field.
  - destruct (negb (truthy (prop event "success"))); destruct_turn t;
      fields.
Qed.

Lemma Handled_onMessageUpdate event t :
  isStr (prop event "type") "message_update" = true ->
  Handled numToString (Line (Some event)) t (onMessageUpdate numToString event t).
Proof.
  intros E. unfold onMessageUpdate. cbv zeta.
  assert (Hs : streamedOf numToString (Line (Some event))
               = if isStr (getOpt (prop event "assistantMessageEvent") "type") "text_delta"
                 then toStrOpt numToString
                        (getOpt (prop event "assistantMessageEvent") "delta")
                 else []).
  { unfold streamedOf. now rewrite E. }
  assert (Hr : responseId (Line (Some event)) = None).
  { unfold responseId. now rewrite (isStr_excl _ _ "response" E). }
  destruct (isStr _ "text_delta"); destruct (isStr _ "thinking_delta");
    destruct (isStr _ "error"); destruct_turn t; fields.
Qed.

Lemma Handled_onMessageEnd event t :
  isStr (prop event "type") "message_end" = true ->
  Handled numToString (Line (Some event)) t (onMessageEnd numToString event t).
Proof.
  intros E. unfold onMessageEnd. cbv zeta.
  assert (Hs : streamedOf numToString (Line (Some event)) = []).
  { unfold streamedOf. now rewrite (isStr_excl _ _ "message_update" E). }
  assert (Hr : responseId (Line (Some event)) = None).
  { unfold responseId. now rewrite (isStr_excl _ _ "response" E). }
  destruct (truthy _); destruct_turn t; fields.
Qed.

Lemma Handled_onToolStart event t :
  isStr (prop event "type") "tool_execution_start" = true ->
  Handled numToString (Line (Some event)) t (onToolStart stringify event t).
Proof.
  intros E. unfold onToolStart.
  assert (Hs : streamedOf numToString (Line (Some event)) = []).
  { unfold streamedOf. now rewrite (isStr_excl _ _ "message_update" E). }
  assert (Hr : responseId (Line (Some event)) = None).
  { unfold responseId. now rewrite (isStr_excl _ _ "response" E). }
  destruct_turn t; fields.
Qed.

Lemma Handled_resetTimeout event t :
  isStr (prop event "type") "response" = false ->
  isStr (prop event "type") "message_update" = false ->
  Handled numToString (Line (Some event)) t (resetTimeout t).
Proof.
  intros E1 E2.
  assert (Hs : streamedOf numToString (Line (Some event)) = []).
  { unfold streamedOf. now rewrite E2. }
  assert (Hr : responseId (Line (Some event)) = None).
  { unfold responseId. now rewrite E1. }
  destruct_turn t; fields.
Qed.

Lemma Handled_onAgentEnd event t t' :
  isStr (prop event "type") "agent_end" = true ->
  onAgentEnd numToString event t = Normal t' ->
  Handled numToString (Line (Some event)) t t'.
Proof.
  intros E. unfold onAgentEnd. cbv zeta.
  assert (Ha : isAgentEnd (Line (Some event)) = true) by exact E.
  assert (Hr : responseId (Line (Some event)) = None).
  { unfold responseId. now rewrite (isStr_excl _ _ "response" E). }
  destruct (iterate _); [|discriminate].
  destruct (usageLoop _ _ _); [|discriminate].
  intros H. injection H as <-.
  destruct (decide _); destruct_turn t;
    constructor; known; unfold wire; cbn -[js];
    rewrite ?app_nil_r; try discriminate; field.
Qed.

Lemma Handled_refl event t :
  isStr (prop event "type") "response" = false ->
  isStr (prop event "type") "message_update" = false ->
  Handled numToString (Line (Some event)) t t.
Proof.
  intros E1 E2.
  assert (Hs : streamedOf numToString (Line (Some event)) = []).
  { unfold streamedOf. now rewrite E2. }
  assert (Hr : responseId (Line (Some event)) = None).
  { unfold responseId. now rewrite E1. }
  constructor; known; cbn -[js]; rewrite ?app_nil_r; field.
Qed.

Lemma Handled_hook event e t :
  isStr (prop event "type") "response" = false ->
  isStr (prop event "type") "message_update" = false ->
  Handled numToString (Line (Some event)) t (rejectDone e t).
Proof.
  intros E1 E2.
  assert (Hs : streamedOf numToString (Line (Some event)) = []).
  { unfold streamedOf. now rewrite E2. }
  assert (Hr : responseId (Line (Some event)) = None).
  { unfold responseId. now rewrite E1. }
  destruct_turn t; fields.
Qed.

Lemma Handled_onLine event t t' :
  onLine numToString stringify event t = Normal t' ->
  Handled numToString (Line (Some event)) t t'.
Proof.
  unfold onLine. cbv zeta.
  destruct (isStr (prop event "type") "response") eqn:E1.
  { destruct event; try discriminate; intros H; injection H as <-;
      now apply Handled_onResponse. }
  destruct (isStr (prop event "type") "message_update") eqn:E2.
  { destruct event; try discriminate; intros H; injection H as <-;
      now apply Handled_onMessageUpdate. }
  destruct (isStr (prop event "type") "message_end") eqn:E3.
  { destruct event; try discriminate; intros H; injection H as <-;
      now apply Handled_onMessageEnd. }
  destruct (isStr (prop event "type") "tool_execution_start") eqn:E4.
  { destruct event; try discriminate; intros H; injection H as <-;
      now apply Handled_onToolStart. }
  destruct (isStr (prop event "type") "tool_execution_update"
            || isStr (prop event "type") "tool_execution_end") eqn:E5.
  { destruct event; try discriminate; intros H; injection H as <-;
      now apply Handled_resetTimeout. }
  destruct (isStr (prop event "type") "agent_end") eqn:E7.
  { destruct event; try discriminate; now apply Handled_onAgentEnd. }
  destruct (isStr (prop event "type") "hook_error") eqn:E8.
  { destruct event; try discriminate; intros H; injection H as <-;
      now apply Handled_hook. }
  destruct event; try discriminate; intros H; injection H as <-;
    now apply Handled_refl.
Qed.

(** What [handle] does: the listener threw, or it did what [Handled]
    says. *)
Lemma handle_handled i t :
  handle numToString stringify i t = set_stage Uncaught t
  \/ Handled numToString i t (handle numToString stringify i t).
Proof.
  destruct i as [[event|]| chunk | code signal |]; cbn [handle].
  - destruct (onLine _ _ _ _) eqn:E; [right|now left].
    now apply Handled_onLine.
  - right. constructor; cbn -[js]; rewrite ?app_nil_r; field.
  - right. destruct_turn t. fields.
  - right. destruct (t_finished t) eqn:Ef.
    + constructor; cbn -[js]; rewrite ?app_nil_r; field.
    + destruct_turn t. fields.
  - right. constructor; cbn -[js]; rewrite ?app_nil_r; field.
Qed.

End Handling.

(** ** The protocol along a run *)

Lemma settleCommand_ids k (o : promise (option json)) cs :
  List.map fst (settleCommand k o cs) = List.map fst cs.
Proof.
  induction cs as [|[id p] cs IH]; [reflexivity|]. simpl.
  destruct (decide (id = k)); simpl; [reflexivity|]. now rewrite IH.
Qed.

Lemma commandPromise_settle_other k p (o : promise (option json)) cs :
  k <> p -> commandPromise p (settleCommand k o cs) = commandPromise p cs.
Proof.
  intros Hne. induction cs as [|[id q] cs IH]; [reflexivity|]. simpl.
  destruct (decide (id = k)) as [->|Hk]; simpl.
  - destruct (decide (k = p)); [congruence|reflexivity].
  - destruct (decide (id = p)); [reflexivity|exact IH].
Qed.

Lemma commandPromise_settle p (o : promise (option json)) cs :
  In p (List.map fst cs) ->
  commandPromise p (settleCommand p o cs) = settleWith o (commandPromise p cs).
Proof.
  induction cs as [|[id q] cs IH]; [intros []|]. simpl. intros Hin.
  destruct (decide (id = p)) as [->|Hk]; simpl.
  - now rewrite decide_True.
  - rewrite decide_False by exact Hk. apply IH. destruct Hin; [contradiction|assumption].
Qed.

Lemma mapDelete_single k p : mapDelete k [p] = if decide (p = k) then [] else [p].
Proof.
  unfold mapDelete. simpl. destruct (decide (p = k)) as [->|Hne].
  - now rewrite bool_decide_eq_true_2.
  - now rewrite bool_decide_eq_false_2.
Qed.

Lemma mapHas_single k p : mapHas k [p] = if decide (p = k) then true else false.
Proof.
  unfold mapHas. simpl. destruct (decide (p = k)) as [->|Hne].
  - now rewrite bool_decide_eq_true_2.
  - now rewrite bool_decide_eq_false_2.
Qed.

Section Protocol.
Variable numToString : float -> list N.
Variable stringify : json -> list N.
Variable spawned : effect.
Variable message : list N.

Lemma responseOutcome_settled i k :
  responseId i = Some k -> responseOutcome numToString i <> Pending.
Proof.
  destruct i as [[event|]| | |]; try discriminate. intros _. unfold responseOutcome.
  destruct (negb _); discriminate.
Qed.

Lemma waiting_handled i p t t' :
  Handled numToString i t t' -> waiting p t -> waiting p t'.
Proof.
  intros H [Hin Hw]. pose proof (hd_pending _ _ _ _ H) as Hp.
  pose proof (hd_commands _ _ _ _ H) as Hc.
  destruct (responseId i) as [k|] eqn:Er.
  2:{ unfold waiting. now rewrite Hp, Hc. }
  pose proof (responseOutcome_settled i k Er) as Ho.
  split.
  - rewrite Hc. destruct (mapHas k (t_pending t)); [|exact Hin].
    now rewrite settleCommand_ids.
  - destruct Hw as [[Hq Hpend]|[Hq Hset]].
    + rewrite Hq in Hp, Hc. rewrite mapDelete_single in Hp. rewrite mapHas_single in Hc.
      destruct (decide (p = k)) as [<-|Hne].
      * right. split; [exact Hp|]. rewrite Hc, commandPromise_settle by exact Hin.
        rewrite Hpend. exact Ho.
      * left. split; [exact Hp|]. now rewrite Hc.
    + rewrite Hq in Hp, Hc. right. split; [exact Hp|]. now rewrite Hc.
Qed.

Lemma proto_handled i t t' :
  Handled numToString i t t' -> Proto spawned message t -> Proto spawned message t'.
Proof.
  intros H (Hm & Hf & Hs). unfold Proto.
  rewrite (hd_stage _ _ _ _ H), (hd_message _ _ _ _ H), (hd_wire _ _ _ _ H),
    (hd_reqId _ _ _ _ H).
  split; [exact Hm|]. split.
  - intros Hfin. destruct (hd_finished _ _ _ _ H Hfin) as [Hold|Hd]; [|exact Hd].
    exact (hd_done _ _ _ _ H (Hf Hold)).
  - destruct (t_stage t) as [p|p| | | |]; try exact Hs.
    + destruct Hs as (Hp & Hr & Hw & Hwire). repeat split; try assumption.
      * exact (proj1 (waiting_handled i p t t' H Hw)).
      * exact (proj2 (waiting_handled i p t t' H Hw)).
    + destruct Hs as (Hp & Hw & Hwire). repeat split; try assumption.
      * exact (proj1 (waiting_handled i p t t' H Hw)).
      * exact (proj2 (waiting_handled i p t t' H Hw)).
    + destruct Hs as [Hp Hwire]. split; [|exact Hwire].
      rewrite (hd_pending _ _ _ _ H), Hp. now destruct (responseId i).
    + destruct Hs as [Hp Hwire]. split; [|exact Hwire].
      rewrite (hd_pending _ _ _ _ H), Hp. now destruct (responseId i).
Qed.

Lemma proto_uncaught t :
  live t = true -> Proto spawned message t -> Proto spawned message (set_stage Uncaught t).
Proof.
  intros Hl (Hm & Hf & Hs). destruct_turn t. unfold Proto, live in *. simpl in *.
  split; [exact Hm|]. split; [exact Hf|].
  destruct stage0 as [p|p| | | |]; try discriminate.
  - left. tauto.
  - right. tauto.
  - right. tauto.
Qed.

Lemma proto_set_now v t : Proto spawned message t -> Proto spawned message (set_now v t).
Proof. destruct_turn t. exact (fun H => H). Qed.

Lemma proto_fire tm t : Proto spawned message t -> Proto spawned message (fire tm t).
Proof.
  destruct_turn t. unfold fire, timeoutReject. destruct (tm_kind tm); exact (fun H => H).
Qed.

Lemma proto_resume1 t : Proto spawned message t -> Proto spawned message (resume1 t).
Proof.
  intros (Hm & Hf & Hs). destruct_turn t. unfold Proto, waiting, wire in *.
  unfold resume1. cbn [t_stage t_commands t_timeoutPromise t_done] in *.
  cbn [t_message t_finished t_pending t_reqId t_effects] in *. subst message0.
  destruct stage0 as [p|p| | | |]; try (split; [reflexivity|split; assumption]).
  - destruct Hs as (-> & -> & [Hin Hw] & Hwire).
    destruct (commandPromise (reqName 1) commands0) as [|v|e] eqn:Ep; cbn [race].
    + destruct timeoutPromise0 as [|u|e]; cbn -[js reqName];
        (split; [reflexivity|split; [exact Hf|]]);
        rewrite ?List.filter_app; cbn -[js reqName]; rewrite ?app_nil_r; tauto.
    + destruct Hw as [[_ Hc]|[Hq _]]; [discriminate|]. subst pending0.
      cbn -[js reqName]. split; [reflexivity|]. split; [exact Hf|].
      rewrite List.filter_app, Hwire. cbn -[js reqName].
      rewrite decide_True by reflexivity.
      repeat split; try reflexivity; try tauto; try (left; now left).
    + cbn -[js reqName]. split; [reflexivity|]. split; [exact Hf|].
      rewrite ?List.filter_app; cbn -[js reqName]; rewrite ?app_nil_r. tauto.
  - destruct Hs as (-> & [Hin Hw] & Hwire).
    destruct (commandPromise (reqName 2) commands0) as [|v|e] eqn:Ep; cbn [race].
    + destruct timeoutPromise0 as [|u|e]; cbn -[js reqName];
        (split; [reflexivity|split; [exact Hf|]]);
        rewrite ?List.filter_app; cbn -[js reqName]; rewrite ?app_nil_r; tauto.
    + destruct Hw as [[_ Hc]|[Hq _]]; [discriminate|]. subst pending0.
      cbn -[js reqName]. split; [reflexivity|]. split; [exact Hf|]. tauto.
    + cbn -[js reqName]. split; [reflexivity|]. split; [exact Hf|].
      rewrite ?List.filter_app; cbn -[js reqName]; rewrite ?app_nil_r. tauto.
  - destruct Hs as [Hq Hwire].
    destruct done0 as [|v|e]; cbn [race].
    + destruct timeoutPromise0 as [|u|e]; cbn -[js reqName];
        (split; [reflexivity|split; [exact Hf|]]);
        rewrite ?List.filter_app; cbn -[js reqName]; rewrite ?app_nil_r; tauto.
    + cbn -[js reqName]. split; [reflexivity|]. split; [exact Hf|].
      rewrite ?List.filter_app; cbn -[js reqName]; rewrite ?app_nil_r. tauto.
    + cbn -[js reqName]. split; [reflexivity|]. split; [exact Hf|].
      rewrite ?List.filter_app; cbn -[js reqName]; rewrite ?app_nil_r. tauto.
Qed.

Lemma proto_resume t : Proto spawned message t -> Proto spawned message (resume t).
Proof. intros H. unfold resume. now do 3 apply proto_resume1. Qed.

Lemma proto_endOfTick t : Proto spawned message t -> Proto spawned message (endOfTick t).
Proof.
  intros H. destruct (endOfTick_cases t) as [->|[Hl ->]]; [exact H|].
  now apply proto_uncaught.
Qed.

Lemma proto_step t i :
  Proto spawned message t -> Proto spawned message (step numToString stringify t i).
Proof.
  intros H. unfold step. destruct (live t) eqn:Hl; [|exact H]. cbv zeta.
  destruct (dueTimer _ _); apply proto_endOfTick.
  - apply proto_resume, proto_fire, proto_set_now, H.
  - apply proto_resume.
    destruct (handle_handled numToString stringify (snd i)
                (set_now (t_now t + Z.of_N (fst i)) t)) as [->|Hh].
    + apply proto_uncaught; [now rewrite live_set_now|]. now apply proto_set_now.
    + eapply proto_handled; [exact Hh|]. now apply proto_set_now.
Qed.

Lemma proto_run trace : forall t,
  Proto spawned message t -> Proto spawned message (run numToString stringify t trace).
Proof.
  induction trace as [|i rest IH]; intros t H; [exact H|].
  simpl. apply IH. now apply proto_step.
Qed.

End Protocol.

Lemma proto_start now envBin message info timeout :
  Proto (Spawn (orStr envBin (js "pi")) (piArgs info)) message
    (sendToAgentStart now envBin message info timeout).
Proof.
  unfold Proto, waiting, wire, sendToAgentStart, sendCommand, setTimeout, writeProgress, emit.
  cbn -[js reqName]. rewrite decide_True by reflexivity.
  repeat split; try reflexivity; try discriminate. now left. now left.
Qed.

(** ** What accumulates along a run *)

Section Accumulation.
Variable numToString : float -> list N.
Variable stringify : json -> list N.

Lemma reach_inv now envBin message info timeout trace :
  exists q k,
    Inv timeout q k (sendToAgent numToString stringify now envBin message info timeout trace).
Proof.
  apply (run_inv numToString stringify timeout trace 0 InitialTimer).
  apply start_inv.
Qed.

Lemma resume1_kept t :
  t_responseText (resume1 t) = t_responseText t
  /\ t_stderr (resume1 t) = t_stderr t
  /\ t_timeout (resume1 t) = t_timeout t.
Proof.
  destruct_turn t. unfold resume1. cbn [t_stage t_commands t_timeoutPromise t_done].
  destruct stage0 as [p|p| | | |]; try (now repeat split);
    destruct (race _ _); now repeat split.
Qed.

Lemma resume_kept t :
  t_responseText (resume t) = t_responseText t
  /\ t_stderr (resume t) = t_stderr t
  /\ t_timeout (resume t) = t_timeout t.
Proof.
  unfold resume.
  destruct (resume1_kept (resume1 (resume1 t))) as (A1 & A2 & A3).
  destruct (resume1_kept (resume1 t)) as (B1 & B2 & B3).
  destruct (resume1_kept t) as (C1 & C2 & C3).
  repeat split; congruence.
Qed.

(** A step after which the turn still runs: no timer fired, and the
    listener ran. *)
Lemma step_handled timeout q k t i :
  Inv timeout q k t -> live (step numToString stringify t i) = true ->
  Handled numToString (snd i) (set_now (t_now t + Z.of_N (fst i)) t)
    (handle numToString stringify (snd i) (set_now (t_now t + Z.of_N (fst i)) t))
  /\ step numToString stringify t i
     = resume (handle numToString stringify (snd i) (set_now (t_now t + Z.of_N (fst i)) t)).
Proof.
  intros [Hq Sh] Hl. pose proof (step_live _ _ _ _ Hl) as Hl0. specialize (Sh Hl0).
  unfold step in *. rewrite Hl0 in *. cbv zeta in *.
  destruct (dueTimer _ _) as [tm|].
  - destruct (fired_step timeout q k tm t (t_now t + Z.of_N (fst i)) Hl0 Sh) as (e & Es & _).
    rewrite (endOfTick_live _ Hl) in Hl. unfold live in Hl. rewrite Es in Hl. discriminate.
  - rewrite (endOfTick_live _ Hl) in Hl |- *.
    destruct (handle_handled numToString stringify (snd i)
                (set_now (t_now t + Z.of_N (fst i)) t)) as [E|H].
    + rewrite E, uncaught_resume, uncaught_dead in Hl. discriminate.
    + now split.
Qed.

Lemma set_now_kept v t :
  t_responseText (set_now v t) = t_responseText t /\ t_stderr (set_now v t) = t_stderr t.
Proof. destruct_turn t. now split. Qed.

Lemma run_live trace : forall t,
  live (run numToString stringify t trace) = true -> live t = true.
Proof.
  induction trace as [|i rest IH]; intros t H; [exact H|].
  simpl in H. apply IH in H. now apply step_live in H.
Qed.

Lemma accumulated timeout trace : forall q k t,
  Inv timeout q k t ->
  live (run numToString stringify t trace) = true ->
  t_stderr (run numToString stringify t trace) = t_stderr t ++ diagnostics trace
  /\ (Forall (fun x => isAgentEnd (snd x) = false) trace ->
      t_responseText (run numToString stringify t trace)
      = t_responseText t ++ streamed numToString trace).
Proof.
  induction trace as [|i rest IH]; intros q k t Hi Hl.
  - simpl. rewrite !app_nil_r. now split.
  - simpl in Hl |- *. pose proof (run_live _ _ Hl) as Hl1.
    destruct (step_handled timeout q k t i Hi Hl1) as [Hh Es].
    pose proof (step_inv numToString stringify timeout q k t i Hi) as Hi1.
    destruct (IH _ _ _ Hi1 Hl) as [A B].
    destruct (resume_kept (handle numToString stringify (snd i)
                             (set_now (t_now t + Z.of_N (fst i)) t))) as (R1 & R2 & _).
    destruct (set_now_kept (t_now t + Z.of_N (fst i)) t) as [N1 N2].
    split.
    + rewrite A, Es, R2, (hd_stderr _ _ _ _ Hh), N2. unfold diagnostics. simpl.
      now rewrite app_assoc.
    + intros Hf. inversion Hf as [|? ? Ha Hr]; subst.
      rewrite (B Hr), Es, R1, (hd_text _ _ _ _ Hh Ha), N1. unfold streamed. simpl.
      now rewrite app_assoc.
Qed.

End Accumulation.

(** ** How a turn ends *)

Lemma resume_threw_done t e :
  t_stage t = AwaitDone -> t_done t = Rejected e -> t_stage (resume t) = Threw e.
Proof.
  intros Hs Hd.
  assert (H1 : t_stage (resume1 t) = Threw e).
  { destruct_turn t. simpl in Hs, Hd. subst stage0 done0. reflexivity. }
  assert (Hdead : live (resume1 t) = false) by (unfold live; now rewrite H1).
  unfold resume. now rewrite !(resume1_dead (resume1 t)).
Qed.


Section Endings.
Variable numToString : float -> list N.
Variable stringify : json -> list N.






(** A step at which no timer is due runs the listener. *)
Lemma step_none t delay i :
  live t = true ->
  dueTimer (t_now t + Z.of_N delay) (t_timers t) = None ->
  step numToString stringify t (delay, i)
  = endOfTick
      (resume (handle numToString stringify i (set_now (t_now t + Z.of_N delay) t))).
Proof.
  intros Hl Hd. unfold step. rewrite Hl. cbv zeta. cbn [fst snd].
  replace (dueTimer _ _) with (@None timer); [reflexivity|].
  destruct_turn t. simpl in *. now rewrite Hd.
Qed.

(** What is known of a turn that still runs. *)
Lemma reached now envBin message info timeout trace :
  let t := sendToAgent numToString stringify now envBin message info timeout trace in
  live t = true ->
  t_timeoutPromise t = Pending /\ awaitsPending t /\ t_timeout t = timeout
  /\ Proto (Spawn (orStr envBin (js "pi")) (piArgs info)) message t
  /\ exists q k, 0 <= q
       /\ t_timers t = [mkTimer (t_timeoutHandle t) (t_now t - q + timerDelay timeout) k].
Proof.
  intros t Hl.
  destruct (reach_inv numToString stringify now envBin message info timeout trace)
    as (q & k & [Hq Sh]).
  destruct (Sh Hl) as [_ Ht Htp Ha Hk].
  split; [exact Htp|]. split; [exact Ha|]. split; [exact Ht|]. split.
  - apply proto_run, proto_start.
  - now exists q, k.
Qed.

Lemma set_now_fields v t :
  t_stage (set_now v t) = t_stage t /\ t_done (set_now v t) = t_done t
  /\ t_pending (set_now v t) = t_pending t /\ t_commands (set_now v t) = t_commands t
  /\ t_finished (set_now v t) = t_finished t /\ t_stderr (set_now v t) = t_stderr t
  /\ t_timeoutPromise (set_now v t) = t_timeoutPromise t.
Proof. destruct_turn t. now repeat split. Qed.

Lemma rejectDone_pending e t :
  t_done t = Pending ->
  t_done (rejectDone e t) = Rejected e /\ t_stage (rejectDone e t) = t_stage t.
Proof. destruct_turn t. simpl. intros ->. now split. Qed.

(** A listener that rejects [donePromise] while [sendToAgent] waits for
    it ends the turn with that error. *)
Lemma rejected_at_done t delay i e t1 :
  t_stage t = AwaitDone -> t_done t = Pending ->
  dueTimer (t_now t + Z.of_N delay) (t_timers t) = None ->
  t_stage t1 = AwaitDone -> t_done t1 = Pending ->
  handle numToString stringify i (set_now (t_now t + Z.of_N delay) t) = rejectDone e t1 ->
  t_stage (step numToString stringify t (delay, i)) = Threw e.
Proof.
  intros Hs Hd Hdue Hs1 Hd1 Hh.
  rewrite step_none; [|unfold live; now rewrite Hs|exact Hdue].
  rewrite Hh. destruct (rejectDone_pending e t1 Hd1) as [A B].
  assert (E : t_stage (resume (rejectDone e t1)) = Threw e)
    by (apply resume_threw_done; congruence).
  rewrite endOfTick_dead by (unfold live; now rewrite E). exact E.
Qed.







End Endings.

(** ** Properties of the turn *)

Lemma reqName_1 : reqName 1 = js "req-1".
Proof. vm_compute. reflexivity. Qed.

Lemma reqName_2 : reqName 2 = js "req-2".
Proof. vm_compute. reflexivity. Qed.

Lemma fire_pending tm t :
  t_timeoutPromise t = Pending ->
  t_timeoutPromise (fire tm t)
  = Rejected (timeoutError (tm_kind tm) (t_timeout t) (t_stderr t))
  /\ t_stage (fire tm t) = t_stage t
  /\ t_commands (fire tm t) = t_commands t /\ t_done (fire tm t) = t_done t.
Proof.
  destruct_turn t. simpl. intros ->. unfold fire, timeoutReject, timeoutError.
  destruct (tm_kind tm); now repeat split.
Qed.

(** ** The order of the protocol *)

Section Order.
Variable numToString : float -> list N.
Variable stringify : json -> list N.
Variable spawned : effect.
Variable message : list N.

(** A response to the command [p] that does not acknowledge it rejects
    it. *)
Lemma not_acknowledged i p :
  acknowledges p i = false -> responseId i = Some p ->
  exists e, responseOutcome numToString i = Rejected e.
Proof.
  destruct i as [[event|]| | |]; try discriminate.
  unfold acknowledges, responseId, responseOutcome.
  destruct (isStr (prop event "type") "response"); [|discriminate].
  destruct (prop event "id") as [[| | |k| |]|]; try discriminate.
  destruct (truthyStr k); [|discriminate].
  intros Ha Hk. injection Hk as ->. rewrite bool_decide_eq_true_2 in Ha by reflexivity.
  cbn [andb] in Ha. rewrite Ha. cbn [negb]. eauto.
Qed.

Lemma failed_dead t : failed t = true -> live t = false.
Proof. unfold failed, live. now destruct (t_stage t). Qed.

Lemma wire_cleanup s t : wire (set_stage s (cleanup t)) = wire t.
Proof.
  destruct_turn t. unfold wire, cleanup, clearProgress, clearTimeout, emit. cbn -[js].
  rewrite !List.filter_app. cbn -[js]. now rewrite !app_nil_r.
Qed.

(** [sendToAgent] stays where it is as long as the command it waits for
    is not resolved, unless it throws. *)
Lemma stuck_resume p t :
  t_stage t = AwaitHandshake p \/ t_stage t = AwaitPrompt p ->
  (forall v, commandPromise p (t_commands t) <> Resolved v) ->
  resume t = t \/ (failed (resume t) = true /\ wire (resume t) = wire t).
Proof.
  intros Hs Hc.
  assert (H1 : resume1 t = t
               \/ exists e, resume1 t = set_stage (Threw e) (cleanup t)).
  { destruct_turn t. simpl in Hs, Hc. unfold resume1.
    cbn [t_stage t_commands t_timeoutPromise t_done].
    destruct Hs as [-> | ->];
      (destruct (commandPromise p commands0) as [|v|e];
       [destruct timeoutPromise0 as [|u|e]; cbn [race]; eauto
       |now destruct (Hc v)
       |cbn [race]; eauto]). }
  unfold resume. destruct H1 as [E|[e E]].
  - rewrite !E. now left.
  - right. rewrite E.
    assert (Hd : live (set_stage (Threw e) (cleanup t)) = false)
      by (destruct (cleanup t) as [? ? ? ? ? ? ? ? ? ? ? ? ? ? ? ? ? ? ? ? ?]; reflexivity).
    rewrite !(resume1_dead _ Hd). split; [|apply wire_cleanup].
    destruct (cleanup t) as [? ? ? ? ? ? ? ? ? ? ? ? ? ? ? ? ? ? ? ? ?]; reflexivity.
Qed.

(** A round that starts before the third [await], the prompt not being
    acknowledged, ends before it. *)
Lemma resume1_early t :
  early t ->
  (forall p, t_stage t = AwaitPrompt p -> commandPromise p (t_commands t) = Pending) ->
  early (resume1 t)
  /\ (forall p, t_stage (resume1 t) = AwaitPrompt p ->
        commandPromise p (t_commands (resume1 t)) = Pending).
Proof.
  intros He Hc. destruct_turn t. unfold early in He. simpl in He, Hc.
  unfold early, resume1. cbn [t_stage t_commands t_timeoutPromise t_done].
  destruct stage0 as [p|p| | | |]; try contradiction.
  - destruct (commandPromise p commands0) as [|v|e]; cbn [race].
    + destruct timeoutPromise0 as [|u|e]; cbn -[js reqName];
        (split; [exact I|intros ?; discriminate]).
    + unfold sendCommand, emit. cbn -[js reqName]. split; [exact I|].
      intros p' Hp'. injection Hp' as <-. now rewrite decide_True.
    + cbn -[js reqName]. split; [exact I|intros ?; discriminate].
  - rewrite (Hc p eq_refl). cbn [race].
    destruct timeoutPromise0 as [|u|e]; cbn -[js reqName]; (split; [exact I|]);
      try (intros ?; discriminate); intros p' Hp'; injection Hp' as <-; now apply Hc.
  - cbn -[js reqName]. split; [exact I|intros ?; discriminate].
  - cbn -[js reqName]. split; [exact I|intros ?; discriminate].
Qed.

(** From the first [await], one turn of the event loop does not reach the
    third. *)
Lemma resume_from_handshake p t :
  t_stage t = AwaitHandshake p -> early (resume t).
Proof.
  intros Hs. unfold resume.
  destruct (resume1_early t) as [E1 C1].
  { unfold early. now rewrite Hs. }
  { intros p'. rewrite Hs. discriminate. }
  destruct (resume1_early _ E1 C1) as [E2 C2].
  exact (proj1 (resume1_early _ E2 C2)).
Qed.

Lemma early_endOfTick t : early t -> early (endOfTick t).
Proof.
  intros H. destruct (endOfTick_cases t) as [->|[_ ->]]; [exact H|].
  destruct_turn t. exact I.
Qed.

Lemma order_endOfTick t0 t :
  (t_stage t = t_stage t0 \/ failed t = true) /\ wire t = wire t0 ->
  (t_stage (endOfTick t) = t_stage t0 \/ failed (endOfTick t) = true)
  /\ wire (endOfTick t) = wire t0.
Proof.
  intros [Hs Hw]. destruct (endOfTick_cases t) as [->|[_ ->]]; [now split|].
  split; [right|]; destruct_turn t; [reflexivity|exact Hw].
Qed.

(** One turn of the event loop without the answer that acknowledges the
    command awaited: [sendToAgent] stays at its [await] or fails, and
    nothing is written to the subordinate. *)
Lemma step_without_ack timeout q k t i p :
  Inv timeout q k t -> Proto spawned message t ->
  t_stage t = AwaitHandshake p \/ t_stage t = AwaitPrompt p ->
  acknowledges p (snd i) = false ->
  (t_stage (step numToString stringify t i) = t_stage t
   \/ failed (step numToString stringify t i) = true)
  /\ wire (step numToString stringify t i) = wire t.
Proof.
  intros [Hq Sh] Hp Hs Hack.
  assert (Hl : live t = true) by (unfold live; destruct Hs as [-> | ->]; reflexivity).
  destruct (Sh Hl) as [_ _ Htp Ha _].
  assert (Hw : waiting p t /\ commandPromise p (t_commands t) = Pending).
  { destruct Hp as (_ & _ & Hp). unfold awaitsPending in Ha.
    destruct Hs as [Hs|Hs]; rewrite Hs in Hp, Ha.
    - destruct Hp as (_ & _ & Hw & _). now split.
    - destruct Hp as (_ & Hw & _). now split. }
  destruct Hw as [[Hin Hw] Hc].
  destruct Hw as [[Hpend _]|[_ Hn]]; [|congruence].
  set (t1 := set_now (t_now t + Z.of_N (fst i)) t).
  assert (F1 : t_stage t1 = t_stage t /\ t_commands t1 = t_commands t
               /\ t_pending t1 = t_pending t /\ wire t1 = wire t
               /\ t_timeoutPromise t1 = t_timeoutPromise t)
    by (unfold t1; destruct_turn t; now repeat split).
  destruct F1 as (S1 & C1 & P1 & W1 & T1).
  unfold step. rewrite Hl. cbv zeta. fold t1.
  assert (stuck : forall x,
            t_stage x = t_stage t -> wire x = wire t ->
            (forall v, commandPromise p (t_commands x) <> Resolved v) ->
            (t_stage (resume x) = t_stage t \/ failed (resume x) = true)
            /\ wire (resume x) = wire t).
  { intros x Sx Wx Cx.
    destruct (stuck_resume p x) as [E|[Hf Hwx]]; [rewrite Sx; exact Hs|exact Cx| |].
    - rewrite E. split; [now left|exact Wx].
    - split; [now right|congruence]. }
  destruct (dueTimer _ _) as [tm|]; apply order_endOfTick.
  - destruct (fire_pending tm t1) as (_ & Sf & Cf & _); [congruence|].
    apply stuck.
    + congruence.
    + rewrite <- W1. unfold t1. clear. destruct_turn t. unfold fire, timeoutReject.
      destruct (tm_kind tm); reflexivity.
    + intros v. rewrite Cf, C1, Hc. discriminate.
  - destruct (handle_handled numToString stringify (snd i) t1) as [->|Hh].
    + rewrite uncaught_resume. split; [right|rewrite <- W1]; unfold t1; clear;
        destruct_turn t; reflexivity.
    + apply stuck.
      * rewrite (hd_stage _ _ _ _ Hh). exact S1.
      * rewrite (hd_wire _ _ _ _ Hh). exact W1.
      * intros v. rewrite (hd_commands _ _ _ _ Hh), P1, C1, Hpend.
        destruct (responseId (snd i)) as [k'|] eqn:Er; [|rewrite Hc; discriminate].
        rewrite mapHas_single.
        destruct (decide (p = k')) as [<-|Hne]; [|rewrite Hc; discriminate].
        destruct (not_acknowledged (snd i) p Hack Er) as (e & ->).
        rewrite commandPromise_settle by exact Hin. rewrite Hc. discriminate.
Qed.

Lemma step_from_handshake t i p :
  t_stage t = AwaitHandshake p -> early (step numToString stringify t i).
Proof.
  intros Hs. unfold step.
  assert (Hl : live t = true) by (unfold live; now rewrite Hs).
  rewrite Hl. cbv zeta.
  set (t1 := set_now (t_now t + Z.of_N (fst i)) t).
  assert (S1 : t_stage t1 = AwaitHandshake p)
    by (unfold t1; destruct_turn t; exact Hs).
  destruct (dueTimer _ _) as [tm|]; apply early_endOfTick.
  - apply (resume_from_handshake p). rewrite <- S1. clear. destruct_turn t1.
    unfold fire, timeoutReject. destruct (tm_kind tm); reflexivity.
  - destruct (handle_handled numToString stringify (snd i) t1) as [->|Hh].
    + rewrite uncaught_resume. clear. destruct_turn t1. exact I.
    + apply (resume_from_handshake p). now rewrite (hd_stage _ _ _ _ Hh).
Qed.

(** As long as no line acknowledges the handshake, only the handshake is
    written. *)
Lemma run_before_handshake timeout trace : forall q k t,
  Inv timeout q k t -> Proto spawned message t ->
  t_stage t = AwaitHandshake (reqName 1) \/ failed t = true ->
  Forall (fun x => acknowledges (reqName 1) (snd x) = false) trace ->
  (t_stage (run numToString stringify t trace) = AwaitHandshake (reqName 1)
   \/ failed (run numToString stringify t trace) = true)
  /\ wire (run numToString stringify t trace) = wire t.
Proof.
  induction trace as [|i rest IH]; intros q k t Hi Hp Hs Hf; [now split|].
  inversion Hf as [|? ? Ha Hr]; subst. simpl.
  pose proof (step_inv numToString stringify timeout q k t i Hi) as Hi1.
  pose proof (proto_step numToString stringify spawned message t i Hp) as Hp1.
  destruct Hs as [Hs|Hs].
  - destruct (step_without_ack timeout q k t i (reqName 1) Hi Hp (or_introl Hs) Ha)
      as [Hs1 Hw1].
    rewrite Hs in Hs1. destruct (IH _ _ _ Hi1 Hp1 Hs1 Hr) as [A B].
    split; [exact A|congruence].
  - replace (step numToString stringify t i) with t.
    + apply (IH q k); try assumption. now right.
    + unfold step. now rewrite (failed_dead _ Hs).
Qed.

(** As long as no line acknowledges the prompt, [sendToAgent] does not
    come to wait for [agent_end]. *)
Lemma run_before_prompt timeout trace : forall q k t,
  Inv timeout q k t -> Proto spawned message t -> early t ->
  Forall (fun x => acknowledges (reqName 2) (snd x) = false) trace ->
  early (run numToString stringify t trace).
Proof.
  induction trace as [|i rest IH]; intros q k t Hi Hp He Hf; [exact He|].
  inversion Hf as [|? ? Ha Hr]; subst. simpl.
  pose proof (step_inv numToString stringify timeout q k t i Hi) as Hi1.
  pose proof (proto_step numToString stringify spawned message t i Hp) as Hp1.
  apply (IH _ _ _ Hi1 Hp1); [|exact Hr].
  unfold early in He. destruct (t_stage t) as [p|p| | | |] eqn:Hs; try contradiction.
  - now apply (step_from_handshake t i p).
  - assert (Ep : p = reqName 2).
    { destruct Hp as (_ & _ & Hp). rewrite Hs in Hp. exact (proj1 Hp). }
    subst p.
    destruct (step_without_ack timeout q k t i (reqName 2) Hi Hp (or_intror Hs) Ha)
      as [[E|E] _].
    + unfold early. now rewrite E, Hs.
    + unfold failed in E. unfold early.
      destruct (t_stage (step numToString stringify t i)); try discriminate; exact I.
  - unfold step, live. rewrite Hs. unfold early. now rewrite Hs.
  - unfold step, live. rewrite Hs. unfold early. now rewrite Hs.
Qed.

End Order.

(** X16. Whatever happens to the turn, the subordinate process is
    started once, before anything is written to it, and what is written
    to it follows the protocol: the handshake [get_state] under the id
    [req-1], then the prompt under the id [req-2] with the message as
    given, and nothing else. The prompt is written only once the handshake
    was answered with success: as long as no line of the subordinate is a
    [response] with the id [req-1] and a true [success], only the
    handshake was written and the turn still waits for its answer, or has
    failed. And the turn comes to wait for [agent_end], and returns, only
    once the prompt was acknowledged: as long as no line is a [response]
    with the id [req-2] and a true [success], it does neither. A turn that
    returns has written both commands. *)
Theorem subordinate_is_started_once_and_commands_follow_the_protocol
    (numToString : float -> list N) (stringify : json -> list N) (now : Z)
    (envBin : option (list N)) (message : list N) (info : SessionInfo) (timeout : Z)
    (trace : list (N * input)) :
  let t := sendToAgent numToString stringify now envBin message info timeout trace in
  let spawned := Spawn (orStr envBin (js "pi")) (piArgs info) in
  let handshake := StdinWrite (GetState (js "req-1")) in
  let prompt := StdinWrite (Prompt (js "req-2") message) in
  match t_stage t with
  | AwaitHandshake p => p = js "req-1" /\ wire t = [spawned; handshake]
  | AwaitPrompt p => p = js "req-2" /\ wire t = [spawned; handshake; prompt]
  | AwaitDone | Returned _ => wire t = [spawned; handshake; prompt]
  | Threw _ | Uncaught =>
      wire t = [spawned; handshake] \/ wire t = [spawned; handshake; prompt]
  end
  /\ (Forall (fun x => acknowledges (js "req-1") (snd x) = false) trace ->
      wire t = [spawned; handshake]
      /\ (t_stage t = AwaitHandshake (js "req-1") \/ failed t = true))
  /\ (Forall (fun x => acknowledges (js "req-2") (snd x) = false) trace ->
      t_stage t <> AwaitDone /\ forall r, t_stage t <> Returned r).
Proof.
  intros t spawned handshake prompt.
  pose proof (proto_start now envBin message info timeout) as P0.
  pose proof (start_inv timeout now envBin message info) as I0.
  split; [|split].
  - pose proof (proto_run numToString stringify spawned message trace _ P0) as (_ & _ & H).
    fold (sendToAgent numToString stringify now envBin message info timeout trace) in H.
    fold t in H. unfold handshakeLine, promptLine in H. rewrite reqName_1, reqName_2 in H.
    destruct (t_stage t) as [p|p| | | |]; try exact H.
    + destruct H as (-> & _ & _ & Hw). now split.
    + destruct H as (-> & _ & Hw). now split.
    + exact (proj2 H).
    + exact (proj2 H).
  - intros Hf. rewrite <- reqName_1 in Hf.
    destruct (run_before_handshake numToString stringify spawned message timeout trace
                0 InitialTimer _ I0 P0 (or_introl eq_refl) Hf) as [Hs Hw].
    fold (sendToAgent numToString stringify now envBin message info timeout trace) in Hs, Hw.
    fold t in Hs, Hw. rewrite reqName_1 in Hs. split; [|exact Hs].
    rewrite Hw. destruct P0 as (_ & _ & Hp). cbn [t_stage sendToAgentStart] in Hp.
    unfold handshake. rewrite <- reqName_1. exact (proj2 (proj2 (proj2 Hp))).
  - intros Hf. rewrite <- reqName_2 in Hf.
    pose proof (run_before_prompt numToString stringify spawned message timeout trace
                  0 InitialTimer _ I0 P0 I Hf) as He.
    fold (sendToAgent numToString stringify now envBin message info timeout trace) in He.
    fold t in He. unfold early in He.
    destruct (t_stage t); try contradiction; split; try discriminate; intros r; discriminate.
Qed.

Lemma subordinate_is_started_once_and_commands_follow_the_protocol_witness :
  let silent := [(5%N, Line (Some (failedResponse "req-9" "lost")));
                 (5%N, Line (Some (textDelta "Hel"))); (5%N, Idle)] in
  Forall (fun x => acknowledges (js "req-1") (snd x) = false) silent
  /\ wire (sendToAgent sampleNumToString sampleStringify 1700000000000 None (js "hi")
             sampleInfo 300000 silent)
     = [Spawn (js "pi") (piArgs sampleInfo); StdinWrite (GetState (js "req-1"))].
Proof.
  intros silent.
  assert (H : Forall (fun x => acknowledges (js "req-1") (snd x) = false) silent)
    by (repeat constructor).
  split; [exact H|].
  exact (proj1 (proj1 (proj2 (subordinate_is_started_once_and_commands_follow_the_protocol
                  sampleNumToString sampleStringify 1700000000000 None (js "hi")
                  sampleInfo 300000 silent)) H)).
Defined.

Lemma orStr_truthy (x : option (list N)) : truthyStr (orStr x DEFAULT_TOOLS) = true.
Proof.
  unfold orStr. destruct x as [s|]; [|reflexivity].
  destruct (truthyStr s) eqn:E; [exact E|reflexivity].
Qed.

(** X17. A session that [start] created is run on its own transcript
    and with its tools: whatever happens to the turn, the subordinate is
    started once, before anything is written to it, in RPC mode and
    without extensions, with the provider and the model id of the record,
    [--session] followed by the transcript path of the session (the file
    [purge] deletes), [--thinking] and the level exactly when a non-empty
    level was given, and always [--tools], followed by the tools given or,
    when none or the empty string was given, the read-only default
    [read,grep,find,ls]. *)
Theorem started_session_is_run_on_its_transcript_with_its_tools
    (tmpdir : list N) (numToString : float -> list N) (stringify : json -> list N)
    (now : Z) (uuid : list N) (options : StartOptions) (w : World)
    (sessionId : list N) (w' : World) (nowTurn : Z) (envBin : option (list N))
    (message : list N) (timeout : Z) (trace : list (N * input)) :
  cmdStart tmpdir now uuid options w = (Ok sessionId, w') ->
  let info := startInfo tmpdir now sessionId options in
  let t := sendToAgent numToString stringify nowTurn envBin message info timeout trace in
  storedInfo tmpdir sessionId w' = Some info
  /\ (exists written,
        wire t
        = Spawn (orStr envBin (js "pi"))
            ([js "--mode"; js "rpc"; js "--no-extensions";
              js "--provider"; si_provider info;
              js "--model"; si_modelId info;
              js "--session"; filePathOf tmpdir sessionId]
             ++ (match so_thinking options with
                 | Some th => if truthyStr th then [js "--thinking"; th] else []
                 | None => []
                 end)
             ++ [js "--tools"; orStr (so_tools options) DEFAULT_TOOLS])
          :: List.map StdinWrite written)
  /\ (so_tools options = None \/ so_tools options = Some [] ->
      orStr (so_tools options) DEFAULT_TOOLS = js "read,grep,find,ls").
Proof.
  intros Hs info t.
  pose proof (start_ok _ _ _ _ _ _ _ Hs) as F.
  split; [eapply storedInfo_insert; eassumption|]. split.
  - pose proof (proto_run numToString stringify
                  (Spawn (orStr envBin (js "pi")) (piArgs info)) message trace _
                  (proto_start nowTurn envBin message info timeout)) as (_ & _ & H).
    fold (sendToAgent numToString stringify nowTurn envBin message info timeout trace) in H.
    fold t in H.
    assert (Ha : piArgs info
                 = [js "--mode"; js "rpc"; js "--no-extensions";
                    js "--provider"; si_provider info;
                    js "--model"; si_modelId info;
                    js "--session"; filePathOf tmpdir sessionId]
                   ++ (match so_thinking options with
                       | Some th => if truthyStr th then [js "--thinking"; th] else []
                       | None => []
                       end)
                   ++ [js "--tools"; orStr (so_tools options) DEFAULT_TOOLS]).
    { unfold piArgs. cbn [info startInfo si_provider si_modelId si_sessionFile
                            si_thinking si_tools].
      now rewrite orStr_truthy. }
    rewrite <- Ha. unfold handshakeLine, promptLine in H.
    assert (Hw : wire t = [Spawn (orStr envBin (js "pi")) (piArgs info);
                           StdinWrite (GetState (reqName 1))]
                 \/ wire t = [Spawn (orStr envBin (js "pi")) (piArgs info);
                              StdinWrite (GetState (reqName 1));
                              StdinWrite (Prompt (reqName 2) message)]).
    { destruct (t_stage t) as [p|p| | | |]; try exact H; try tauto. }
    destruct Hw as [-> | ->].
    + now exists [GetState (reqName 1)].
    + now exists [GetState (reqName 1); Prompt (reqName 2) message].
  - intros [-> | ->]; reflexivity.
Qed.

Lemma started_session_is_run_on_its_transcript_with_its_tools_witness :
  cmdStart (js "/tmp") 1700000000000 uuid0 demoOptions emptyWorld
  = (Ok (js "demo"), demoWorld)
  /\ exists written,
       wire (sendToAgent sampleNumToString sampleStringify 1700000000001 None (js "hi")
               (startInfo (js "/tmp") 1700000000000 (js "demo") demoOptions) 300000
               answered)
       = Spawn (js "pi")
           [js "--mode"; js "rpc"; js "--no-extensions"; js "--provider"; js "p";
            js "--model"; js "m"; js "--session"; js "/tmp/pi-consult-sessions/demo.jsonl";
            js "--tools"; js "read,grep,find,ls"]
         :: List.map StdinWrite written.
Proof.
  split; [exact demoWorld_started|].
  destruct (started_session_is_run_on_its_transcript_with_its_tools (js "/tmp")
              sampleNumToString sampleStringify 1700000000000 uuid0 demoOptions emptyWorld
              (js "demo") demoWorld 1700000000001 None (js "hi") 300000 answered
              demoWorld_started)
    as (_ & (written & Hw) & _).
  exists written. rewrite Hw. f_equal.
Defined.








(** X21. The errors of a turn carry the diagnostic output of the
    subordinate. As long as the turn runs, the text kept is the
    concatenation of all the chunks received on the diagnostic stream. If
    the subordinate exits while the turn waits for [agent_end], the turn
    ends with the exit error, which holds the exit code, the signal and
    that text; when the timer is due, the turn ends with the timeout
    error of that timer, which holds the configured timeout and that
    text. *)
Theorem errors_carry_the_diagnostic_output
    (numToString : float -> list N) (stringify : json -> list N) (now : Z)
    (envBin : option (list N)) (message : list N) (info : SessionInfo) (timeout : Z)
    (trace : list (N * input)) :
  let t := sendToAgent numToString stringify now envBin message info timeout trace in
  live t = true ->
  t_stderr t = diagnostics trace
  /\ (forall delay code signal,
        t_stage t = AwaitDone ->
        dueTimer (t_now t + Z.of_N delay) (t_timers t) = None ->
        t_stage (step numToString stringify t (delay, Exit code signal))
        = Threw (ProcessExited code signal (diagnostics trace)))
  /\ (forall delay i tm,
        dueTimer (t_now t + Z.of_N delay) (t_timers t) = Some tm ->
        t_stage (step numToString stringify t (delay, i))
        = Threw (timeoutError (tm_kind tm) timeout (diagnostics trace))).
Proof.
  intros t Hl.
  destruct (accumulated numToString stringify timeout trace 0 InitialTimer _
              (start_inv timeout now envBin message info) Hl) as [He _].
  cbn [app] in He.
  assert (Hst : t_stderr t = diagnostics trace) by exact He.
  destruct (reached numToString stringify now envBin message info timeout trace Hl)
    as (Htp & Ha & Hto & Hp & _).
  fold t in Htp, Ha, Hto, Hp.
  split; [exact Hst|]. split.
  - intros delay code signal Hs Hdue.
    unfold awaitsPending in Ha. rewrite Hs in Ha.
    destruct Hp as (_ & Hf & _).
    assert (Hfin : t_finished t = false).
    { destruct (t_finished t); [|reflexivity]. exfalso. now apply Hf. }
    set (t1 := set_now (t_now t + Z.of_N delay) t).
    destruct (set_now_fields (t_now t + Z.of_N delay) t)
      as (S1 & D1 & _ & _ & F1 & E1 & _).
    fold t1 in S1, D1, F1, E1.
    apply (rejected_at_done numToString stringify t delay _ _ t1 Hs Ha Hdue);
      [congruence|congruence|].
    cbn [handle]. fold t1. now rewrite F1, Hfin, E1, Hst.
  - intros delay i tm Hdue.
    set (t1 := set_now (t_now t + Z.of_N delay) t).
    assert (Est : step numToString stringify t (delay, i)
                  = endOfTick (resume (fire tm t1))).
    { unfold step. rewrite Hl. cbv zeta. cbn [fst snd]. fold t1.
      replace (dueTimer (t_now t1) (t_timers t1)) with (Some tm); [reflexivity|].
      unfold t1. clear - Hdue. destruct_turn t. simpl in *. now rewrite Hdue. }
    rewrite Est. apply threw_endOfTick.
    assert (H1 : t_timeoutPromise t1 = Pending /\ t_timeout t1 = timeout
                 /\ t_stderr t1 = diagnostics trace /\ live t1 = true
                 /\ awaitsPending t1).
    { unfold t1. clear - Htp Hto Hst Hl Ha. destruct_turn t.
      unfold live, awaitsPending in *. simpl in *. now repeat split. }
    destruct H1 as (T1 & O1 & E1 & L1 & A1).
    destruct (fire_pending tm t1 T1) as (Tf & Sf & Cf & Df).
    rewrite O1, E1 in Tf.
    apply resume_fired; [| |exact Tf].
    + unfold live in *. now rewrite Sf.
    + unfold awaitsPending in *. now rewrite Sf, Cf, Df.
Qed.

Lemma errors_carry_the_diagnostic_output_witness :
  let t := sendToAgent sampleNumToString sampleStringify 1700000000000 None (js "hi")
             sampleInfo 300000 complaining in
  live t = true
  /\ t_stderr t = js "boom"
  /\ t_stage (step sampleNumToString sampleStringify t (1%N, Exit (Some 1) None))
     = Threw (ProcessExited (Some 1) None (js "boom")).
Proof.
  intros t.
  assert (Hl : live t = true) by (vm_compute; reflexivity).
  split; [exact Hl|].
  destruct (errors_carry_the_diagnostic_output sampleNumToString sampleStringify
              1700000000000 None (js "hi") sampleInfo 300000 complaining Hl)
    as (He & Hx & _).
  split.
  - etransitivity; [exact He|vm_compute; reflexivity].
  - etransitivity; [apply Hx; vm_compute; reflexivity|].
    f_equal.
Defined.

(** X22. A timeout the timers do not accept is treated as 1 ms: with a
    timeout below 1 or above 2147483647, the first turn of the event loop
    that comes 1 ms or more after the start of the turn ends it with the
    timeout error, whatever arrives then. ([send] replaces a timeout of 0
    by 300000 before the turn starts; a negative one is passed on.) *)
Theorem timeout_out_of_range_ends_the_turn_at_once
    (numToString : float -> list N) (stringify : json -> list N) (now : Z)
    (envBin : option (list N)) (message : list N) (info : SessionInfo) (timeout : Z)
    (delay : N) (i : input) :
  timeout < 1 \/ 2147483647 < timeout ->
  (1 <= delay)%N ->
  t_stage (sendToAgent numToString stringify now envBin message info timeout [(delay, i)])
  = Threw (TimeoutWaiting timeout [])
  /\ timeoutOr (Some 0) = 300000
  /\ (timeout < 0 -> timeoutOr (Some timeout) = timeout).
Proof.
  intros Hr Hd. split; [|split; [reflexivity|]].
  - assert (Ht : timerDelay timeout = 1).
    { unfold timerDelay. destruct (timeout <? 1) eqn:A; [reflexivity|].
      destruct (2147483647 <? timeout) eqn:B; [reflexivity|].
      apply Z.ltb_ge in A, B. lia. }
    unfold sendToAgent, run. cbn [fold_left].
    set (t := sendToAgentStart now envBin message info timeout).
    assert (Hl : live t = true) by reflexivity.
    assert (Htm : t_timers t = [mkTimer 0 (now + timerDelay timeout) InitialTimer])
      by reflexivity.
    assert (Hfacts : t_timeoutPromise t = Pending /\ t_timeout t = timeout
                     /\ t_stderr t = [] /\ t_now t = now /\ awaitsPending t).
    { repeat split. }
    destruct Hfacts as (Htp & Hto & He & Hn & Ha).
    set (t1 := set_now (t_now t + Z.of_N delay) t).
    assert (Est : step numToString stringify t (delay, i)
                  = endOfTick
                      (resume (fire (mkTimer 0 (now + timerDelay timeout) InitialTimer) t1))).
    { unfold step. rewrite Hl. cbv zeta. cbn [fst snd]. fold t1.
      replace (dueTimer (t_now t1) (t_timers t1))
        with (Some (mkTimer 0 (now + timerDelay timeout) InitialTimer)); [reflexivity|].
      replace (t_timers t1) with (t_timers t) by reflexivity.
      replace (t_now t1) with (t_now t + Z.of_N delay) by reflexivity.
      rewrite Htm, Hn, dueTimer_single. cbn [tm_deadline]. rewrite Ht.
      destruct (now + 1 <=? now + Z.of_N delay) eqn:E; [reflexivity|].
      apply Z.leb_gt in E. lia. }
    rewrite Est. apply threw_endOfTick.
    assert (H1 : t_timeoutPromise t1 = Pending /\ t_timeout t1 = timeout
                 /\ t_stderr t1 = [] /\ live t1 = true /\ awaitsPending t1).
    { repeat split; exact Ha. }
    destruct H1 as (T1 & O1 & E1 & L1 & A1).
    destruct (fire_pending (mkTimer 0 (now + timerDelay timeout) InitialTimer) t1 T1)
      as (Tf & Sf & Cf & Df).
    rewrite O1, E1 in Tf. cbn [tm_kind timeoutError] in Tf.
    apply resume_fired; [| |exact Tf].
    + unfold live in *. now rewrite Sf.
    + unfold awaitsPending in *. now rewrite Sf, Cf, Df.
  - intros Hneg. unfold timeoutOr. destruct (timeout =? 0) eqn:E; [|reflexivity].
    apply Z.eqb_eq in E. lia.
Qed.

Lemma timeout_out_of_range_ends_the_turn_at_once_witness :
  ((-5 < 1 \/ 2147483647 < -5) /\ (1 <= 1)%N)
  /\ t_stage (sendToAgent sampleNumToString sampleStringify 1700000000000 None (js "hi")
                sampleInfo (-5) [(1%N, Line (Some (okResponse "req-1")))])
     = Threw (TimeoutWaiting (-5) []).
Proof.
  assert (H1 : -5 < 1 \/ 2147483647 < -5) by (left; lia).
  assert (H2 : (1 <= 1)%N) by lia.
  split; [split; [exact H1|exact H2]|].
  exact (proj1 (timeout_out_of_range_ends_the_turn_at_once sampleNumToString
                  sampleStringify 1700000000000 None (js "hi") sampleInfo (-5) 1%N
                  (Line (Some (okResponse "req-1"))) H1 H2)).
Defined.

(** ** The progress file *)

Section Progress.
Variable numToString : float -> list N.
Variable stringify : json -> list N.
Variable modelName : list N.
Variable start : Z.

Lemma kept_set_now d t :
  0 <= d -> progressKept modelName start t ->
  progressKept modelName start (set_now (t_now t + d) t).
Proof.
  intros Hd (Hm & Hs & Hn & Hp). destruct_turn t. unfold progressKept, live in *.
  simpl in *. repeat split; try assumption; try lia.
  intros Hl. destruct (Hp Hl) as (p & E & M & S & [L U] & A).
  exists p. repeat split; try assumption.
  etransitivity; [exact U|]. apply Z.div_le_mono; lia.
Qed.

Lemma kept_handled i t t' :
  Handled numToString i t t' -> progressKept modelName start t ->
  progressKept modelName start t'.
Proof.
  intros H (Hm & Hs & Hn & Hp). unfold progressKept, live.
  rewrite (hd_model _ _ _ _ H), (hd_start _ _ _ _ H), (hd_now _ _ _ _ H),
    (hd_stage _ _ _ _ H).
  repeat split; try assumption.
  intros Hl. destruct (hd_progress _ _ _ _ H) as [E|(k & name & args & E & A)].
  - rewrite E. now apply Hp.
  - rewrite E, Hm, Hs. eexists. split; [reflexivity|]. cbn [p_model p_startTime p_elapsed p_toolArgs].
    repeat split; try assumption; try lia.
    apply Z.div_pos; lia.
Qed.

Lemma resume1_progress t :
  t_modelName (resume1 t) = t_modelName t /\ t_startTime (resume1 t) = t_startTime t
  /\ t_now (resume1 t) = t_now t
  /\ (live (resume1 t) = true -> live t = true /\ t_progress (resume1 t) = t_progress t).
Proof.
  destruct_turn t. unfold resume1, live. cbn [t_stage t_commands t_timeoutPromise t_done].
  destruct stage0 as [p|p| | | |]; try (now repeat split);
    destruct (race _ _); repeat split; try reflexivity; try discriminate.
Qed.

Lemma kept_resume1 t :
  progressKept modelName start t -> progressKept modelName start (resume1 t).
Proof.
  intros (Hm & Hs & Hn & Hp). destruct (resume1_progress t) as (A & B & C & D).
  unfold progressKept. rewrite A, B, C. repeat split; try assumption.
  intros Hl. destruct (D Hl) as [Hl0 E]. rewrite E. now apply Hp.
Qed.

Lemma kept_fire tm t :
  progressKept modelName start t -> progressKept modelName start (fire tm t).
Proof.
  destruct_turn t. unfold fire, timeoutReject. destruct (tm_kind tm); exact (fun H => H).
Qed.

Lemma kept_uncaught t :
  progressKept modelName start t -> progressKept modelName start (set_stage Uncaught t).
Proof.
  intros (Hm & Hs & Hn & _). destruct_turn t. unfold progressKept, live in *. simpl in *.
  repeat split; try assumption. discriminate.
Qed.

Lemma kept_endOfTick t :
  progressKept modelName start t -> progressKept modelName start (endOfTick t).
Proof.
  intros H. destruct (endOfTick_cases t) as [->|[_ ->]]; [exact H|].
  now apply kept_uncaught.
Qed.

Lemma kept_step t i :
  progressKept modelName start t ->
  progressKept modelName start (step numToString stringify t i).
Proof.
  intros H. unfold step. destruct (live t) eqn:Hl; [|exact H]. cbv zeta.
  assert (H1 : progressKept modelName start (set_now (t_now t + Z.of_N (fst i)) t))
    by (apply kept_set_now; [lia|exact H]).
  destruct (dueTimer _ _); apply kept_endOfTick.
  - unfold resume. do 3 apply kept_resume1. now apply kept_fire.
  - unfold resume. do 3 apply kept_resume1.
    destruct (handle_handled numToString stringify (snd i)
                (set_now (t_now t + Z.of_N (fst i)) t)) as [->|Hh].
    + now apply kept_uncaught.
    + eapply kept_handled; eassumption.
Qed.

Lemma kept_run trace : forall t,
  progressKept modelName start t ->
  progressKept modelName start (run numToString stringify t trace).
Proof.
  induction trace as [|i rest IH]; intros t H; [exact H|].
  simpl. apply IH. now apply kept_step.
Qed.

End Progress.

Lemma kept_start now envBin message info timeout :
  progressKept (si_modelId info) now (sendToAgentStart now envBin message info timeout).
Proof.
  unfold progressKept, sendToAgentStart, sendCommand, setTimeout, writeProgress, emit.
  cbn -[js reqName]. repeat split; try lia.
  intros _. eexists. split; [reflexivity|]. cbn.
  rewrite Z.sub_diag. repeat split; try reflexivity; try lia.
  all: cbv; congruence.
Qed.

Lemma resume_progress t :
  live (resume t) = true -> t_progress (resume t) = t_progress t.
Proof.
  unfold resume. intros Hl.
  destruct (resume1_progress (resume1 (resume1 t))) as (_ & _ & _ & D3).
  destruct (D3 Hl) as [Hl2 E3].
  destruct (resume1_progress (resume1 t)) as (_ & _ & _ & D2).
  destruct (D2 Hl2) as [Hl1 E2].
  destruct (resume1_progress t) as (_ & _ & _ & D1).
  destruct (D1 Hl1) as [_ E1]. congruence.
Qed.

(** X23. As long as a turn runs, the progress file, as the turn last
    wrote it, describes it: it names the model id of the session and the time the
    turn started, its elapsed seconds are whole seconds between the start
    and now, never negative, and its tool arguments hold at most 100 code
    units. After a [tool_execution_start] that leaves the turn running,
    the file shows the status [tool] with the name of the tool, the
    arguments as JSON cut to 100 code units, and the whole seconds elapsed
    at that time. *)
Theorem progress_file_describes_the_running_turn
    (numToString : float -> list N) (stringify : json -> list N) (now : Z)
    (envBin : option (list N)) (message : list N) (info : SessionInfo) (timeout : Z)
    (trace : list (N * input)) :
  let t := sendToAgent numToString stringify now envBin message info timeout trace in
  live t = true ->
  now <= t_now t
  /\ (exists p,
        t_progress t = Some p
        /\ p_model p = si_modelId info /\ p_startTime p = now
        /\ 0 <= p_elapsed p <= (t_now t - now) / 1000
        /\ match p_toolArgs p with
           | Some a => (length a <= 100)%nat
           | None => True
           end)
  /\ forall delay event,
       let t' := step numToString stringify t (delay, Line (Some event)) in
       isStr (prop event "type") "tool_execution_start" = true ->
       live t' = true ->
       t_progress t'
       = Some (mkProgress (si_modelId info) now Tool (prop event "toolName")
                 (Some (firstn 100 (stringify (orElse (prop event "args") (JObj [])))))
                 ((t_now t + Z.of_N delay - now) / 1000)).
Proof.
  intros t Hl.
  pose proof (kept_run numToString stringify (si_modelId info) now trace _
                (kept_start now envBin message info timeout)) as (Hm & Hs & Hn & Hp).
  fold (sendToAgent numToString stringify now envBin message info timeout trace) in *.
  fold t in Hm, Hs, Hn, Hp.
  split; [exact Hn|]. split; [exact (Hp Hl)|].
  intros delay event t' E Hl'.
  destruct (reach_inv numToString stringify now envBin message info timeout trace)
    as (q & k & Hi).
  fold t in Hi.
  destruct (step_handled numToString stringify timeout q k t (delay, Line (Some event))
              Hi Hl') as [_ Es].
  cbn [fst snd handle] in Es. fold t' in Es.
  assert (Eo : onLine numToString stringify event (set_now (t_now t + Z.of_N delay) t)
               = Normal (onToolStart stringify event (set_now (t_now t + Z.of_N delay) t))).
  { unfold onLine. cbv zeta. excl E. destruct event; try discriminate; reflexivity. }
  rewrite Eo in Es. rewrite Es in Hl' |- *. rewrite (resume_progress _ Hl').
  clear - Hm Hs. destruct_turn t. simpl in Hm, Hs. subst modelName0 startTime0.
  reflexivity.
Qed.

Lemma progress_file_describes_the_running_turn_witness :
  let t := sendToAgent sampleNumToString sampleStringify 1700000000000 None (js "hi")
             sampleInfo 300000 acknowledged in
  live t = true
  /\ t_progress (step sampleNumToString sampleStringify t (2500%N, Line (Some toolStart)))
     = Some (mkProgress (js "m") 1700000000000 Tool (Some (JStr (js "read")))
               (Some (js "{}")) 2).
Proof.
  intros t.
  assert (Hl : live t = true) by (vm_compute; reflexivity).
  split; [exact Hl|].
  destruct (progress_file_describes_the_running_turn sampleNumToString sampleStringify
              1700000000000 None (js "hi") sampleInfo 300000 acknowledged Hl)
    as (_ & _ & H).
  etransitivity.
  - apply H; vm_compute; reflexivity.
  - vm_compute. reflexivity.
Defined.

(** ** What the listener ignores, and what makes it throw *)

Lemma usageLoop_null (numToString : float -> list N) msgs : forall u,
  In JNull msgs -> usageLoop numToString u msgs = TypeError.
Proof.
  induction msgs as [|msg rest IH]; intros u Hin; [destruct Hin|].
  simpl. destruct Hin as [->|Hin]; [reflexivity|].
  destruct (usageStep numToString u msg); [now apply IH|reflexivity].
Qed.

(** X24. What the line listener ignores and what makes it throw. A
    line that is not JSON, and a JSON value other than [null] whose type
    is none of those the listener knows (a number, a string, an array, an
    object of another type), change nothing: the turn goes on as if only
    time had passed. The JSON value [null], and an [agent_end] whose list
    of messages holds a [null], make the listener throw; that exception
    does not reach [sendToAgent]: the turn neither returns nor throws, its
    [finally] block has not run (no call of it was made and the
    progress file was not removed), and nothing happens to it any more. *)
Theorem listener_ignores_unknown_lines_and_throws_on_null
    (numToString : float -> list N) (stringify : json -> list N) (now : Z)
    (envBin : option (list N)) (message : list N) (info : SessionInfo) (timeout : Z)
    (trace : list (N * input)) (delay : N) :
  let t := sendToAgent numToString stringify now envBin message info timeout trace in
  live t = true ->
  dueTimer (t_now t + Z.of_N delay) (t_timers t) = None ->
  step numToString stringify t (delay, Line None) = step numToString stringify t (delay, Idle)
  /\ (forall event,
        event <> JNull -> isKnownType event = false ->
        step numToString stringify t (delay, Line (Some event))
        = step numToString stringify t (delay, Idle))
  /\ (forall event,
        event = JNull
        \/ (isStr (prop event "type") "agent_end" = true
            /\ exists msgs, prop event "messages" = Some (JArr msgs) /\ In JNull msgs) ->
        let t' := step numToString stringify t (delay, Line (Some event)) in
        t_stage t' = Uncaught
        /\ over t' = false
        /\ List.filter isCleanup (t_effects t') = []
        /\ t_progress t' = t_progress t /\ t_progress t' <> None
        /\ forall more, run numToString stringify t' more = t').
Proof.
  intros t Hl Hdue. split; [reflexivity|]. split.
  - intros event Hn Hk.
    rewrite !(step_none numToString stringify t delay _ Hl Hdue). cbn [handle].
    replace (onLine numToString stringify event (set_now (t_now t + Z.of_N delay) t))
      with (Normal (set_now (t_now t + Z.of_N delay) t)); [reflexivity|].
    unfold isKnownType in Hk. cbv zeta in Hk.
    repeat (apply orb_false_elim in Hk as [Hk ?]).
    unfold onLine. cbv zeta.
    repeat match goal with H : isStr _ _ = false |- _ => rewrite H; clear H end.
    cbn [orb]. destruct event; try reflexivity. congruence.
  - intros event He t'.
    assert (Hu : handle numToString stringify (Line (Some event))
                   (set_now (t_now t + Z.of_N delay) t)
                 = set_stage Uncaught (set_now (t_now t + Z.of_N delay) t)).
    { cbn [handle].
      replace (onLine numToString stringify event (set_now (t_now t + Z.of_N delay) t))
        with (@TypeError Turn); [reflexivity|].
      destruct He as [->|(E & msgs & Hm & Hin)]; [reflexivity|].
      unfold onLine. cbv zeta. excl E. destruct event; try discriminate.
      unfold onAgentEnd. cbv zeta. rewrite Hm. cbn [orElse truthy iterate].
      now rewrite (usageLoop_null numToString msgs zeroUsage Hin). }
    assert (Et : t' = set_stage Uncaught (set_now (t_now t + Z.of_N delay) t)).
    { unfold t'. rewrite (step_none numToString stringify t delay _ Hl Hdue), Hu.
      rewrite uncaught_resume. apply endOfTick_dead, uncaught_dead. }
    pose proof (good_run numToString stringify trace _
                  (good_start now envBin message info timeout)) as G.
    fold (sendToAgent numToString stringify now envBin message info timeout trace) in G.
    fold t in G.
    assert (Hc : cleanupFree (t_effects t)).
    { unfold Good in G. unfold live in Hl. destruct (t_stage t); try discriminate; apply G. }
    pose proof (kept_run numToString stringify (si_modelId info) now trace _
                  (kept_start now envBin message info timeout)) as (_ & _ & _ & Hp).
    fold (sendToAgent numToString stringify now envBin message info timeout trace) in Hp.
    fold t in Hp. destruct (Hp Hl) as (p & Ep & _).
    assert (Hf : t_stage t' = Uncaught /\ t_effects t' = t_effects t
                 /\ t_progress t' = t_progress t).
    { rewrite Et. clear. destruct_turn t. now repeat split. }
    destruct Hf as (Hs & He' & Hpr).
    split; [exact Hs|]. split; [unfold over; now rewrite Hs|].
    split; [rewrite He'; now apply filter_cleanup_free|].
    split; [exact Hpr|]. split; [rewrite Hpr, Ep; discriminate|].
    intros more. apply run_over. unfold live. now rewrite Hs.
Qed.

Lemma listener_ignores_unknown_lines_and_throws_on_null_witness :
  let t := sendToAgent sampleNumToString sampleStringify 1700000000000 None (js "hi")
             sampleInfo 300000 acknowledged in
  (live t = true /\ dueTimer (t_now t + Z.of_N 10) (t_timers t) = None)
  /\ t_stage (step sampleNumToString sampleStringify t (10%N, Line (Some JNull))) = Uncaught
  /\ t_stage (step sampleNumToString sampleStringify t
                (10%N, Line (Some agentEndWithNull))) = Uncaught.
Proof.
  intros t.
  assert (Hl : live t = true) by (vm_compute; reflexivity).
  assert (Hd : dueTimer (t_now t + Z.of_N 10) (t_timers t) = None)
    by (vm_compute; reflexivity).
  split; [split; [exact Hl|exact Hd]|].
  destruct (listener_ignores_unknown_lines_and_throws_on_null sampleNumToString
              sampleStringify 1700000000000 None (js "hi") sampleInfo 300000 acknowledged
              10%N Hl Hd) as (_ & _ & H).
  split.
  - exact (proj1 (H JNull (or_introl eq_refl))).
  - apply (H agentEndWithNull). right. split; [reflexivity|].
    eexists. split; [reflexivity|]. right. now left.
Defined.
